(** * Client/server simulator: a shallow embedding of the simulation engine

    The Go packages under [internal/simulation] are translated function by
    function.  Conventions:

    - [float64] is Rocq's primitive binary64 [float]; Go's [==], [<], [<=]
      are [=?], [<?], [<=?] (IEEE comparisons, false on NaN).
    - [int], [int64] and [time.Duration] are [Z]; where the code can wrap,
      the wrap-around is written with [wrap64].
    - [time.Time] is a number of nanoseconds on the monotonic clock; the
      zero [time.Time] is [None].
    - An [error] is the text of its message, [nil] is [None].
    - Random draws, the instant of a call and the state of a context
      (cancelled or not) are arguments of the function that consumes them.
    - A run-time panic (index out of range, a call on a nil context, a
      channel that cannot be made) is [None].
    - A goroutine that outlives the call that started it is kept as data
      (a request in flight); its effects land at their own instants.
    - Where a [select] finds two channels ready the Go runtime chooses at
      random; the choice is an argument. *)

From Stdlib Require Import String ZArith List Bool Lia Floats.
From Stdlib Require Import Sorting.Sorted Sorting.Permutation Sorting.Mergesort.
From Stdlib Require Import Orders.
Import ListNotations.

Set Implicit Arguments.
Set Warnings "-inexact-float,-register-all".

(** ** Go values *)

Module Go.

Definition error := option string.

Definition min_int64 : Z := - 2 ^ 63.
Definition max_int64 : Z := 2 ^ 63 - 1.

(** Two's complement wrap-around of a 64-bit signed integer. *)
Definition wrap64 (z : Z) : Z := (z + 2 ^ 63) mod 2 ^ 64 - 2 ^ 63.

(** The integer part of a float (the fraction is discarded); [None] on NaN
    and the infinities. *)
Definition trunc_float (f : float) : option Z :=
  match Prim2SF f with
  | S754_zero _ => Some 0%Z
  | S754_finite s m e =>
      let a := if (0 <=? e)%Z then Z.shiftl (Zpos m) e else Z.shiftr (Zpos m) (- e) in
      Some (if s then (- a)%Z else a)
  | S754_infinity _ => None
  | S754_nan => None
  end.

(** [int64(f)]: truncation toward zero.  Out of range (and NaN) the Go
    specification leaves the result to the implementation; amd64 yields the
    smallest int64. *)
Definition int64_of_float (f : float) : Z :=
  match trunc_float f with
  | Some z => if ((min_int64 <=? z) && (z <=? max_int64))%Z then z else min_int64
  | None => min_int64
  end.

(** [float64(n)] for an integer: rounded to the nearest binary64. *)
Definition float_of_int (n : Z) : float :=
  SF2Prim (binary_normalize prec emax n 0 false).

(** [math.Max], with its special cases in the order of the Go source. *)
Definition math_Max (x y : float) : float :=
  if (x =? PrimFloat.infinity)%float || (y =? PrimFloat.infinity)%float then PrimFloat.infinity
  else if PrimFloat.is_nan x || PrimFloat.is_nan y then PrimFloat.nan
  else if (x =? 0)%float && (x =? y)%float then (if PrimFloat.get_sign x then y else x)
  else if (y <? x)%float then x else y.

(** A [context.Context]: the instant at which it is cancelled, if ever. *)
Definition Context := option Z.

Definition ctx_done (ctx : Context) (now : Z) : bool :=
  match ctx with Some c => (c <=? now)%Z | None => false end.

Definition ctx_Err : string := "context canceled".

(** [time] constants, in nanoseconds. *)
Definition Millisecond : Z := 1000000.
Definition Second : Z := 1000000000.

(** [Duration.Milliseconds]: integer division truncates toward zero. *)
Definition Milliseconds (d : Z) : Z := Z.quot d Millisecond.

(** [Duration.Seconds]. *)
Definition Seconds (d : Z) : float :=
  (float_of_int (Z.quot d Second) + float_of_int (Z.rem d Second) / 1000000000)%float.

(** [SleepWithContext] started at [now]: the error it returns and the
    instant it returns at.  The context wins when it is cancelled no later
    than the timer fires. *)
Definition SleepWithContext (ctx : Context) (now duration : Z) : error * Z :=
  let wake := (now + Z.max 0 duration)%Z in
  match ctx with
  | Some c => if (c <=? wake)%Z then (Some ctx_Err, Z.max now c) else (None, wake)
  | None => (None, wake)
  end.

(** One draw of [rand.NormFloat64] and one of [rand.Float64]. *)
Record Draws := mkDraws { normal : float; uniform : float }.

End Go.

(** ** common.go, behaviorpoint.go: requests, responses and curves *)

Module Curve.

Inductive BehaviorPointType := Curve | Break.

Record BehaviorPoint := mkPoint { X : float; Y : float; Type_ : BehaviorPointType }.

Definition is_break (t : BehaviorPointType) : bool :=
  match t with Break => true | Curve => false end.

(** [sign]: the sign of a float64 (-1, 0, 1). *)
Definition sign (x : float) : Z :=
  if (0 <? x)%float then 1%Z else if (x <? 0)%float then (-1)%Z else 0%Z.

(** [cubicHermite]. *)
Definition cubicHermite (y0 y1 m0 m1 t : float) : float :=
  let t2 := (t * t)%float in
  let t3 := (t2 * t)%float in
  ((2 * t3 - 3 * t2 + 1) * y0 + (t3 - 2 * t2 + t) * m0
   + (- 2 * t3 + 3 * t2) * y1 + (t3 - t2) * m1)%float.

Section CurveFunction.

Variables minX maxX minY maxY : float.

Definition normX (x : float) : float :=
  if (maxX =? minX)%float then 0%float else ((x - minX) / (maxX - minX))%float.

Definition denormY (y : float) : float := (minY + y * (maxY - minY))%float.

(** The loop [for i = 1; i < len(points); i++ { if nx < points[i].X { break } }]
    started at index [i] on the points from [i] on: the value of [i] when
    the loop is left. *)
Fixpoint find_segment (nx : float) (rest : list BehaviorPoint) (i : nat) : nat :=
  match rest with
  | [] => i
  | p :: rest' => if (nx <? X p)%float then i else find_segment nx rest' (S i)
  end.

(** Linear interpolation on [y] along a segment. *)
Definition linear (prev curr : BehaviorPoint) (t : float) : float :=
  (Y prev + t * (Y curr - Y prev))%float.

(** The evaluation of the segment [points[i-1], points[i]] at [nx]. *)
Definition eval_segment (points : list BehaviorPoint) (i : nat) (nx : float) : option float :=
  match nth_error points (i - 1), nth_error points i with
  | Some prev, Some curr =>
      let dx := (X curr - X prev)%float in
      if (dx =? 0)%float then Some (denormY (Y curr)) else
      let t := ((nx - X prev) / dx)%float in
      if is_break (Type_ prev) || is_break (Type_ curr) then
        Some (denormY (linear prev curr t))
      else
        let secant := ((Y curr - Y prev) / (X curr - X prev))%float in
        let mPrev :=
          if (2 <=? i)%nat then
            match nth_error points (i - 2) with
            | Some pp => Some ((Y curr - Y pp) / (X curr - X pp))%float
            | None => None
            end
          else Some secant in
        let mCurr :=
          if (i + 1 <? length points)%nat then
            match nth_error points (i + 1) with
            | Some pn => Some ((Y pn - Y prev) / (X pn - X prev))%float
            | None => None
            end
          else Some secant in
        match mPrev, mCurr with
        | Some mPrev, Some mCurr =>
            let rise := (Y curr - Y prev)%float in
            let clamp m :=
              if (rise =? 0)%float
                 || (negb (m =? 0)%float && negb (Z.eqb (sign m) (sign rise)))
              then 0%float else m in
            let mPrev := clamp mPrev in
            let mCurr := clamp mCurr in
            let y := cubicHermite (Y prev) (Y curr) (mPrev * dx) (mCurr * dx) t in
            let y := if (y <? 0)%float then 0%float else y in
            let y := if (1 <? y)%float then 1%float else y in
            Some (denormY y)
        | _, _ => None
        end
  | _, _ => None
  end.

(** [CurveFunction minX maxX minY maxY points] applied to [x]. *)
Definition CurveFunction (points : list BehaviorPoint) (x : float) : option float :=
  if (length points <? 2)%nat then Some minY else
  let nx := normX x in
  match nth_error points 0, nth_error points (length points - 1) with
  | Some first, Some last =>
      if (nx <=? X first)%float then Some (denormY (Y first)) else
      if (X last <=? nx)%float then Some (denormY (Y last)) else
      eval_segment points (find_segment nx (skipn 1 points) 1) nx
  | _, _ => None
  end.

End CurveFunction.

End Curve.

(** ** metrics.go *)

Module ZLeBool <: TotalLeBool.
Definition t := Z.
Definition leb := Z.leb.
Lemma leb_total : forall x y, leb x y = true \/ leb y x = true.
Proof. intros x y. unfold leb. destruct (Z.leb_spec x y); [left; reflexivity | right; apply Z.leb_le; lia]. Qed.
End ZLeBool.

Module ZSort := Sort ZLeBool.

Module Metrics.

Import Go.

Record ResourceMetrics := mkResourceMetrics {
  rmActiveRequests : Z;
  rmQueuedRequests : Z;
  rmCPUUtilization : float;
  rmMemoryUtilization : float;
  rmQueueUtilization : float;
  rmThreadsUtilization : float;
  rmAverageQueueTimeMs : float;
  rmMaxQueueTimeMs : float
}.

(** [timedDuration]: a duration and the instant it was recorded. *)
Record timedDuration := mkTimed { timestamp : Z; duration : Z }.

Record Metrics := mkMetrics {
  ClientBlockedRequests : Z;
  ClientSentRequests : Z;
  ClientRetryRequests : Z;
  ClientSuccessResponses : Z;
  ClientErrorResponses : Z;
  NetworkFailedRequests : Z;
  MinRequestLatency : Z;
  MaxRequestLatency : Z;
  MinResponseLatency : Z;
  MaxResponseLatency : Z;
  RequestLatencies : list timedDuration;
  ResponseLatencies : list timedDuration;
  ServerReceivedRequests : Z;
  ServerSuccessResponses : Z;
  ServerErrorResponses : Z;
  trackDurationsCount : Z;
  ResponseTimes : list timedDuration;
  MinResponseTime : Z;
  MaxResponseTime : Z;
  AvgResponseTime : Z;
  P50ResponseTime : Z;
  P80ResponseTime : Z;
  P95ResponseTime : Z;
  latestResourceState : ResourceMetrics
}.

Definition zeroResourceMetrics : ResourceMetrics :=
  mkResourceMetrics 0 0 0 0 0 0 0 0.

(** [NewMetrics]. *)
Definition NewMetrics : Metrics :=
  mkMetrics 0 0 0 0 0 0 0 0 0 0 [] [] 0 0 0 100000 [] 0 0 0 0 0 0 zeroResourceMetrics.

(** [atomic.Int64.Add(1)]. *)
Definition incr (c : Z) : Z := wrap64 (c + 1).

(** Field updates (Go assigns the fields in place). *)
Definition set_window_stats (m : Metrics) (w : list timedDuration)
  (mn mx avg p50 p80 p95 : Z) : Metrics :=
  mkMetrics (ClientBlockedRequests m) (ClientSentRequests m) (ClientRetryRequests m)
    (ClientSuccessResponses m) (ClientErrorResponses m) (NetworkFailedRequests m)
    (MinRequestLatency m) (MaxRequestLatency m) (MinResponseLatency m) (MaxResponseLatency m)
    (RequestLatencies m) (ResponseLatencies m)
    (ServerReceivedRequests m) (ServerSuccessResponses m) (ServerErrorResponses m)
    (trackDurationsCount m) w mn mx avg p50 p80 p95 (latestResourceState m).

Definition set_ResponseTimes (m : Metrics) (w : list timedDuration) : Metrics :=
  set_window_stats m w (MinResponseTime m) (MaxResponseTime m) (AvgResponseTime m)
    (P50ResponseTime m) (P80ResponseTime m) (P95ResponseTime m).

Definition set_latencies (m : Metrics) (rq rs : list timedDuration)
  (mnq mxq mns mxs : Z) : Metrics :=
  mkMetrics (ClientBlockedRequests m) (ClientSentRequests m) (ClientRetryRequests m)
    (ClientSuccessResponses m) (ClientErrorResponses m) (NetworkFailedRequests m)
    mnq mxq mns mxs rq rs
    (ServerReceivedRequests m) (ServerSuccessResponses m) (ServerErrorResponses m)
    (trackDurationsCount m) (ResponseTimes m) (MinResponseTime m) (MaxResponseTime m)
    (AvgResponseTime m) (P50ResponseTime m) (P80ResponseTime m) (P95ResponseTime m)
    (latestResourceState m).

Definition set_client_counters (m : Metrics) (blocked sent retry success err netfail : Z) : Metrics :=
  mkMetrics blocked sent retry success err netfail
    (MinRequestLatency m) (MaxRequestLatency m) (MinResponseLatency m) (MaxResponseLatency m)
    (RequestLatencies m) (ResponseLatencies m)
    (ServerReceivedRequests m) (ServerSuccessResponses m) (ServerErrorResponses m)
    (trackDurationsCount m) (ResponseTimes m) (MinResponseTime m) (MaxResponseTime m)
    (AvgResponseTime m) (P50ResponseTime m) (P80ResponseTime m) (P95ResponseTime m)
    (latestResourceState m).

Definition set_server_counters (m : Metrics) (received success err : Z) : Metrics :=
  mkMetrics (ClientBlockedRequests m) (ClientSentRequests m) (ClientRetryRequests m)
    (ClientSuccessResponses m) (ClientErrorResponses m) (NetworkFailedRequests m)
    (MinRequestLatency m) (MaxRequestLatency m) (MinResponseLatency m) (MaxResponseLatency m)
    (RequestLatencies m) (ResponseLatencies m)
    received success err
    (trackDurationsCount m) (ResponseTimes m) (MinResponseTime m) (MaxResponseTime m)
    (AvgResponseTime m) (P50ResponseTime m) (P80ResponseTime m) (P95ResponseTime m)
    (latestResourceState m).

(** [SetResourceState]. *)
Definition SetResourceState (state : ResourceMetrics) (m : Metrics) : Metrics :=
  mkMetrics (ClientBlockedRequests m) (ClientSentRequests m) (ClientRetryRequests m)
    (ClientSuccessResponses m) (ClientErrorResponses m) (NetworkFailedRequests m)
    (MinRequestLatency m) (MaxRequestLatency m) (MinResponseLatency m) (MaxResponseLatency m)
    (RequestLatencies m) (ResponseLatencies m)
    (ServerReceivedRequests m) (ServerSuccessResponses m) (ServerErrorResponses m)
    (trackDurationsCount m) (ResponseTimes m) (MinResponseTime m) (MaxResponseTime m)
    (AvgResponseTime m) (P50ResponseTime m) (P80ResponseTime m) (P95ResponseTime m)
    state.

(** [append] followed by the cut to the last [trackDurationsCount] entries. *)
Definition push_capped (cap : Z) (w : list timedDuration) (e : timedDuration) : list timedDuration :=
  let w' := w ++ [e] in
  if (cap <? Z.of_nat (length w'))%Z then skipn (Z.to_nat (Z.of_nat (length w') - cap)) w' else w'.

(** [recordResponseTime], called at instant [now]. *)
Definition recordResponseTime (now responseTime : Z) (m : Metrics) : Metrics :=
  set_ResponseTimes m (push_capped (trackDurationsCount m) (ResponseTimes m) (mkTimed now responseTime)).

(** [recordRequestLatency]. *)
Definition recordRequestLatency (now latency : Z) (m : Metrics) : Metrics :=
  set_latencies m (push_capped (trackDurationsCount m) (RequestLatencies m) (mkTimed now latency))
    (ResponseLatencies m)
    (MinRequestLatency m) (MaxRequestLatency m) (MinResponseLatency m) (MaxResponseLatency m).

(** [recordResponseLatency]. *)
Definition recordResponseLatency (now latency : Z) (m : Metrics) : Metrics :=
  set_latencies m (RequestLatencies m)
    (push_capped (trackDurationsCount m) (ResponseLatencies m) (mkTimed now latency))
    (MinRequestLatency m) (MaxRequestLatency m) (MinResponseLatency m) (MaxResponseLatency m).

(** The filter of both [calculate...] functions: an entry stays when its
    timestamp is after the cutoff or equal to it. *)
Definition in_window (cutoff : Z) (tr : timedDuration) : bool := (cutoff <=? timestamp tr)%Z.

Definition prune (now : Z) (w : list timedDuration) : list timedDuration :=
  filter (in_window (now - 1 * Second)) w.

(** The running minimum and maximum of the loop over the window. *)
Definition window_min (first : Z) (w : list timedDuration) : Z :=
  fold_left (fun mn tr => if (duration tr <? mn)%Z then duration tr else mn) w first.

Definition window_max (first : Z) (w : list timedDuration) : Z :=
  fold_left (fun mx tr => if (mx <? duration tr)%Z then duration tr else mx) w first.

Definition window_sum (w : list timedDuration) : Z :=
  fold_left (fun sum tr => wrap64 (sum + duration tr)) w 0%Z.

(** [int(float64(len(times)) * p)], then the clamp to [len(times) - 1]. *)
Definition percentile_index (n : Z) (p : float) : Z :=
  let idx := int64_of_float (float_of_int n * p)%float in
  if (n <=? idx)%Z then (n - 1)%Z else idx.

(** [times[idx]]: a panic when the index is out of range. *)
Definition index (times : list Z) (idx : Z) : option Z :=
  if (idx <? 0)%Z then None else nth_error times (Z.to_nat idx).

(** [calculateSlidingWindowMetrics]. *)
Definition calculateSlidingWindowMetrics (now : Z) (m : Metrics) : option Metrics :=
  let w := prune now (ResponseTimes m) in
  match w with
  | first :: _ =>
      let n := Z.of_nat (length w) in
      let mn := window_min (duration first) w in
      let mx := window_max (duration first) w in
      let avg := Z.quot (window_sum w) n in
      let times := ZSort.sort (map duration w) in
      match index times (percentile_index n 0.5),
            index times (percentile_index n 0.8),
            index times (percentile_index n 0.95) with
      | Some p50, Some p80, Some p95 => Some (set_window_stats m w mn mx avg p50 p80 p95)
      | _, _, _ => None
      end
  | [] => Some (set_window_stats m w 0 0 0 0 0 0)
  end.

(** The minimum and maximum of one latency window, zero when it is empty. *)
Definition latency_bounds (w : list timedDuration) : Z * Z :=
  match w with
  | first :: _ => (window_min (duration first) w, window_max (duration first) w)
  | [] => (0%Z, 0%Z)
  end.

(** [calculateNetworkLatencyMetrics]. *)
Definition calculateNetworkLatencyMetrics (now : Z) (m : Metrics) : Metrics :=
  let rq := prune now (RequestLatencies m) in
  let rs := prune now (ResponseLatencies m) in
  set_latencies m rq rs (fst (latency_bounds rq)) (snd (latency_bounds rq))
    (fst (latency_bounds rs)) (snd (latency_bounds rs)).

(** The window statistics of the map [GetSnapshot] returns, in
    milliseconds, with the counters. *)
Record Snapshot := mkSnapshot {
  client_blocked_req : Z;
  client_sent_req : Z;
  client_retry_req : Z;
  client_success_resp : Z;
  client_error_resp : Z;
  network_failed_reqs : Z;
  server_received_req : Z;
  server_success_resp : Z;
  server_error_resp : Z;
  server_state : ResourceMetrics;
  min_response_time : Z;
  max_response_time : Z;
  avg_response_time : Z;
  p50_response_time : Z;
  p80_response_time : Z;
  p95_response_time : Z;
  min_request_latency : Z;
  max_request_latency : Z;
  min_response_latency : Z;
  max_response_latency : Z;
  snapshot_timestamp : Z
}.

(** [GetSnapshot], called at instant [now]: the values of the map are read
    from the fields first, then both [calculate...] functions run. *)
Definition GetSnapshot (now : Z) (m : Metrics) : option (Snapshot * Metrics) :=
  let snap :=
    mkSnapshot (ClientBlockedRequests m) (ClientSentRequests m) (ClientRetryRequests m)
      (ClientSuccessResponses m) (ClientErrorResponses m) (NetworkFailedRequests m)
      (ServerReceivedRequests m) (ServerSuccessResponses m) (ServerErrorResponses m)
      (latestResourceState m)
      (Milliseconds (MinResponseTime m)) (Milliseconds (MaxResponseTime m))
      (Milliseconds (AvgResponseTime m)) (Milliseconds (P50ResponseTime m))
      (Milliseconds (P80ResponseTime m)) (Milliseconds (P95ResponseTime m))
      (Milliseconds (MinRequestLatency m)) (Milliseconds (MaxRequestLatency m))
      (Milliseconds (MinResponseLatency m)) (Milliseconds (MaxResponseLatency m))
      (Z.quot now Millisecond) in
  match calculateSlidingWindowMetrics now m with
  | Some m1 => Some (snap, calculateNetworkLatencyMetrics now m1)
  | None => None
  end.

End Metrics.

(** ** common.go: requests and responses; server.go *)

Module Server.

Import Go Curve Metrics.

(** The script-visible bag of a request is kept by the interpreter; the
    engine only carries it. *)
Record Request (Meta : Type) := mkRequest {
  reqId : string;
  ClientId : string;
  reqData : string;
  reqTimestamp : Z;
  reqMeta : Meta
}.

Record Response := mkResponse {
  respId : string;
  Ok : bool;
  respData : string;
  Error : string;
  respTimestamp : Z
}.

(** [Response{}]. *)
Definition zeroResponse : Response := mkResponse "" false "" "" 0.

Record ResourceSettings := mkResourceSettings {
  MaxConcurrentRequests : Z;
  MaxMemoryMB : Z;
  MaxQueueSize : Z;
  MemoryLeakRateMBPerSec : float;
  MemoryPerRequestMB : float;
  GCPauseIntervalSec : float;
  GCPauseDurationMs : float
}.

Record ResourceState := mkResourceState {
  ActiveRequests : Z;
  CurrentMemoryMB : Z;
  CPUUtilization : float;
  MemoryUtilization : float;
  QueueUtilization : float;
  ThreadsUtilization : float;
  AverageQueueTimeMs : float;
  MaxQueueTimeMs : float
}.

Definition zeroResourceState : ResourceState := mkResourceState 0 0 0 0 0 0 0 0.

Record QueuedResponse := mkQueuedResponse { qResponse : Response; qError : error }.

Record QueuedRequest (Meta : Type) := mkQueuedRequest {
  qRequest : Request Meta;
  QueuedAt : Z
}.

Record ServerBehavior := mkServerBehavior {
  To : Z;
  ResponseTimeFrom : Z;
  ResponseTimeTo : Z;
  Errors : list BehaviorPoint;
  ResponseTimeMin : list BehaviorPoint;
  ResponseTimeMax : list BehaviorPoint;
  EnableResourceManagement : bool;
  bResourceSettings : ResourceSettings
}.

(** The draw of a duration between two curve values, as [processRequest]
    and [oneWayTrip] both write it: [if min > max { min, max = max, min }],
    then [mean := (min + max) / 2] and [stddev := (max - min) / 6]. *)
Definition ordered_pair (lo hi : float) : float * float :=
  if (hi <? lo)%float then (hi, lo) else (lo, hi).

Definition sample_mean (mn mx : float) : float := ((mn + mx) / 2)%float.
Definition sample_stddev (mn mx : float) : float := ((mx - mn) / 6)%float.

(** The work time of [processRequest] in milliseconds, before the resource
    multiplier: the lower bound when both are equal, otherwise a normal
    draw [z] around the centre, cut at zero. *)
Definition sampleWorkMs (responseTimeMin responseTimeMax z : float) : float :=
  let '(mn, mx) := ordered_pair responseTimeMin responseTimeMax in
  if (mn =? mx)%float then mn else
  let workMs := (z * sample_stddev mn mx + sample_mean mn mx)%float in
  if (workMs <? 0)%float then 0%float else workMs.

Section WithMeta.

Variable Meta : Type.

Record Server := mkServer {
  behavior : ServerBehavior;
  behaviorStartTime : option Z;
  getErrorRate : float -> option float;
  getResponseTimeMin : float -> option float;
  getResponseTimeMax : float -> option float;
  resourceSettings : ResourceSettings;
  resourceState : ResourceState;
  lastGCTime : Z;
  requestQueue : list (QueuedRequest Meta);
  queueCap : Z;
  queueMade : bool;
  queueTimes : list float;
  ctx : option Context;
  running : bool
}.

(** [requestQueue] and [queueCap] are the content and the capacity of the
    channel, [queueMade] tells whether [Start] has made it (a nil channel
    holds nothing and takes nothing).  [ctx] is [None] while the field is
    nil, that is until [Start]. *)

Definition set_resourceState (s : Server) (st : ResourceState) (gc : Z) : Server :=
  mkServer (behavior s) (behaviorStartTime s) (getErrorRate s) (getResponseTimeMin s)
    (getResponseTimeMax s) (resourceSettings s) st gc (requestQueue s) (queueCap s)
    (queueMade s) (queueTimes s) (ctx s) (running s).

Definition set_behaviorStartTime (s : Server) (t : option Z) : Server :=
  mkServer (behavior s) t (getErrorRate s) (getResponseTimeMin s)
    (getResponseTimeMax s) (resourceSettings s) (resourceState s) (lastGCTime s)
    (requestQueue s) (queueCap s) (queueMade s) (queueTimes s) (ctx s) (running s).

Definition set_requestQueue (s : Server) (q : list (QueuedRequest Meta)) : Server :=
  mkServer (behavior s) (behaviorStartTime s) (getErrorRate s) (getResponseTimeMin s)
    (getResponseTimeMax s) (resourceSettings s) (resourceState s) (lastGCTime s)
    q (queueCap s) (queueMade s) (queueTimes s) (ctx s) (running s).

(** [setupCurveFunctions] and [SetBehavior]. *)
Definition SetBehavior (b : ServerBehavior) (s : Server) : Server :=
  let maxX := (float_of_int (To b) * 1000)%float in
  mkServer b None
    (CurveFunction 0 maxX 0 1 (Errors b))
    (CurveFunction 0 maxX (float_of_int (ResponseTimeFrom b)) (float_of_int (ResponseTimeTo b))
       (ResponseTimeMin b))
    (CurveFunction 0 maxX (float_of_int (ResponseTimeFrom b)) (float_of_int (ResponseTimeTo b))
       (ResponseTimeMax b))
    (bResourceSettings b) (resourceState s) (lastGCTime s) (requestQueue s) (queueCap s)
    (queueMade s) (queueTimes s) (ctx s) (running s).

(** The behavior [NewServer] installs. *)
Definition defaultBehavior : ServerBehavior :=
  mkServerBehavior 0 0 100
    [mkPoint 0 0 Curve; mkPoint 1 0 Curve]
    [mkPoint 0 0.1 Curve; mkPoint 1 0.1 Curve]
    [mkPoint 0 0.5 Curve; mkPoint 1 0.5 Curve]
    false
    (mkResourceSettings 100 1024 500 0.1 2.0 10.0 50.0).

(** [NewServer]: no goroutine is started, the context and the queue are
    nil. *)
Definition NewServer : Server :=
  SetBehavior defaultBehavior
    (mkServer defaultBehavior None (fun _ => None) (fun _ => None) (fun _ => None)
       (bResourceSettings defaultBehavior) zeroResourceState 0 [] 0 false [] None false).

(** [context.WithCancel(parent)]: the child ends with its parent. *)
Definition WithCancel (parent : Context) : Context := parent.

(** [cancel()] at instant [now] on a context. *)
Definition cancel (now : Z) (c : Context) : Context :=
  match c with
  | Some t => Some (Z.min t now)
  | None => Some now
  end.

(** [Start] at instant [now] under the simulation context [simctx].  A
    server that is running refuses with an error.  Otherwise the context is
    derived; in managed mode the resource state is reset and the queue made:
    [make(chan QueuedRequest, MaxQueueSize)] panics on a negative size and
    on one beyond [chanLimit], the largest capacity the runtime can
    allocate. *)
Definition Start (chanLimit : Z) (simctx : Context) (now : Z) (s : Server)
  : option (error * Server) :=
  if running s then Some (Some "server already started"%string, s)
  else if EnableResourceManagement (behavior s) then
    let size := MaxQueueSize (resourceSettings s) in
    if ((0 <=? size) && (size <=? chanLimit))%Z then
      Some (None,
            mkServer (behavior s) (behaviorStartTime s) (getErrorRate s) (getResponseTimeMin s)
              (getResponseTimeMax s) (resourceSettings s) zeroResourceState now []
              size true (queueTimes s) (Some (WithCancel simctx)) true)
    else None
  else
    Some (None,
          mkServer (behavior s) (behaviorStartTime s) (getErrorRate s) (getResponseTimeMin s)
            (getResponseTimeMax s) (resourceSettings s) (resourceState s) (lastGCTime s)
            (requestQueue s) (queueCap s) (queueMade s) (queueTimes s)
            (Some (WithCancel simctx)) true).

(** [Shutdown] at instant [now]: a running server cancels its context. *)
Definition Shutdown (now : Z) (s : Server) : Server :=
  if running s then
    mkServer (behavior s) (behaviorStartTime s) (getErrorRate s) (getResponseTimeMin s)
      (getResponseTimeMax s) (resourceSettings s) (resourceState s) (lastGCTime s)
      (requestQueue s) (queueCap s) (queueMade s) (queueTimes s)
      (match ctx s with Some c => Some (cancel now c) | None => None end) false
  else s.

Section WithPow.

(** [math.Pow]. *)
Variable math_Pow : float -> float -> float.

(** [updateResources], the body of one tick of the resource manager, run
    at instant [now]. *)
Definition updateResources (now : Z) (s : Server) (m : Metrics) : Server * Metrics :=
  let st := resourceState s in
  let cfg := resourceSettings s in
  let activeReqs := ActiveRequests st in
  let maxReqs := MaxConcurrentRequests cfg in
  let threads := (float_of_int activeReqs / float_of_int maxReqs)%float in
  let loadFactor := threads in
  let targetCPU := (math_Pow loadFactor 1.5 * 0.95)%float in
  let smoothingFactor := 0.3%float in
  let cpu := (CPUUtilization st + (targetCPU - CPUUtilization st) * smoothingFactor)%float in
  let cpu := if (1.0 <? cpu)%float then 1.0%float else cpu in
  let cpu := if (cpu <? 0.0)%float then 0.0%float else cpu in
  let baseMemoryMB := (float_of_int maxReqs * 0.5)%float in
  let requestMemoryMB := (float_of_int activeReqs * MemoryPerRequestMB cfg)%float in
  let targetMemoryMB := (baseMemoryMB + requestMemoryMB)%float in
  let mem := CurrentMemoryMB st in
  let mem :=
    if (0.1 <? loadFactor)%float then
      let leakAmount := (MemoryLeakRateMBPerSec cfg * 0.1 * loadFactor)%float in
      wrap64 (mem + int64_of_float leakAmount)
    else mem in
  let currentTarget := int64_of_float targetMemoryMB in
  let mem :=
    if (mem <? currentTarget)%Z then
      let diff := wrap64 (currentTarget - mem) in
      wrap64 (mem + Z.quot diff 2)
    else if (currentTarget <? mem)%Z && (loadFactor <? 0.1)%float then
      let diff := wrap64 (mem - currentTarget) in
      wrap64 (mem - Z.quot diff 20)
    else mem in
  let maxMem := MaxMemoryMB cfg in
  let mem := if (maxMem <? mem)%Z then maxMem else mem in
  let currentMem := mem in
  let memUtil := (float_of_int currentMem / float_of_int maxMem)%float in
  let gc := (GCPauseIntervalSec cfg <? Seconds (now - lastGCTime s))%float in
  let targetAfterGC := int64_of_float (targetMemoryMB * 1.1)%float in
  let mem := if gc && (targetAfterGC <? mem)%Z then targetAfterGC else mem in
  let queuedRequests := Z.of_nat (length (requestQueue s)) in
  let queueUtil := (float_of_int queuedRequests / float_of_int (queueCap s))%float in
  let st' :=
    mkResourceState activeReqs mem cpu memUtil queueUtil threads
      (AverageQueueTimeMs st) (MaxQueueTimeMs st) in
  (set_resourceState s st' (if gc then now else lastGCTime s),
   SetResourceState
     (mkResourceMetrics activeReqs queuedRequests cpu memUtil queueUtil threads
        (AverageQueueTimeMs st) (MaxQueueTimeMs st)) m).

(** [getResourceImpact]: the response time multiplier and the additional
    error rate. *)
Definition getResourceImpact (s : Server) : float * float :=
  let st := resourceState s in
  let m := 1.0%float in
  let m :=
    if (0.7 <? CPUUtilization st)%float
    then (m * (1.0 + math_Pow (CPUUtilization st) 3 * 2))%float else m in
  let m :=
    if (0.8 <? MemoryUtilization st)%float
    then (m * (1.0 + (MemoryUtilization st - 0.8) / 0.2 * 3))%float else m in
  let m :=
    if (0.7 <? ThreadsUtilization st)%float
    then (m * (1.0 + math_Pow (ThreadsUtilization st) 2))%float else m in
  let a := 0.0%float in
  let a :=
    if (0.9 <? CPUUtilization st)%float
    then (a + (CPUUtilization st - 0.9) * 0.5)%float else a in
  let a :=
    if (0.9 <? MemoryUtilization st)%float
    then (a + (MemoryUtilization st - 0.9) * 0.3)%float else a in
  (m, a).

(** [getGCPause] at instant [now]. *)
Definition getGCPause (now : Z) (s : Server) : float :=
  let timeSinceGC := Milliseconds (now - lastGCTime s) in
  if (float_of_int timeSinceGC <? GCPauseDurationMs (resourceSettings s))%float
  then GCPauseDurationMs (resourceSettings s) else 0%float.

(** [processRequest] started at instant [now] with draws [d]: the
    response, the error, the server and the instant of return.  On a
    server that was never started [s.ctx] is nil and [SleepWithContext]
    panics on it. *)
Definition processRequest (req : Request Meta) (resourceManagementEnabled : bool)
  (now : Z) (d : Draws) (s : Server) : option (Response * error * Server * Z) :=
  let '(responseTimeMultiplier, additionalErrorRate) :=
    if resourceManagementEnabled then getResourceImpact s else (1.0%float, 0.0%float) in
  let start := match behaviorStartTime s with Some t => t | None => now end in
  let s := set_behaviorStartTime s (Some start) in
  let elapsedMs := float_of_int (Milliseconds (now - start)) in
  match getResponseTimeMin s elapsedMs, getResponseTimeMax s elapsedMs with
  | Some responseTimeMin, Some responseTimeMax =>
      let workMs := sampleWorkMs responseTimeMin responseTimeMax (normal d) in
      let workMs := (workMs * responseTimeMultiplier)%float in
      let workMs := if resourceManagementEnabled then (workMs + getGCPause now s)%float else workMs in
      let workDuration := int64_of_float (workMs * float_of_int Millisecond)%float in
      match ctx s with
      | None => None
      | Some c =>
          match SleepWithContext c now workDuration with
          | (Some e, t) => Some (zeroResponse, Some e, s, t)
          | (None, t) =>
              match getErrorRate s elapsedMs with
              | Some baseErrorRate =>
                  let totalErrorRate := (baseErrorRate + additionalErrorRate)%float in
                  let totalErrorRate := if (1.0 <? totalErrorRate)%float then 1.0%float else totalErrorRate in
                  if (0 <? totalErrorRate)%float && (uniform d <? totalErrorRate)%float then
                    Some (mkResponse (reqId req) false "" "Server Error" t, Some "server error"%string, s, t)
                  else
                    Some (mkResponse (reqId req) true "OK" "" t, None, s, t)
              | None => None
              end
          end
      end
  | _, _ => None
  end.

(** [processRequest] in its two halves, for a request whose goroutine is
    followed through time.  What the first half leaves for the second: the
    error curve it captured, the elapsed time, the additional error rate
    and the outcome of the sleep. *)
Record Work := mkWork {
  workErrorRate : float -> option float;
  workElapsedMs : float;
  workAdditionalErrorRate : float;
  workSlept : error
}.

(** Up to the end of [SleepWithContext]: what is kept, the server and the
    instant the sleep ends. *)
Definition processRequest_begin (resourceManagementEnabled : bool)
  (now : Z) (d : Draws) (s : Server) : option (Work * Server * Z) :=
  let '(responseTimeMultiplier, additionalErrorRate) :=
    if resourceManagementEnabled then getResourceImpact s else (1.0%float, 0.0%float) in
  let start := match behaviorStartTime s with Some t => t | None => now end in
  let s := set_behaviorStartTime s (Some start) in
  let elapsedMs := float_of_int (Milliseconds (now - start)) in
  match getResponseTimeMin s elapsedMs, getResponseTimeMax s elapsedMs with
  | Some responseTimeMin, Some responseTimeMax =>
      let workMs := sampleWorkMs responseTimeMin responseTimeMax (normal d) in
      let workMs := (workMs * responseTimeMultiplier)%float in
      let workMs := if resourceManagementEnabled then (workMs + getGCPause now s)%float else workMs in
      let workDuration := int64_of_float (workMs * float_of_int Millisecond)%float in
      match ctx s with
      | None => None
      | Some c =>
          let '(e, t) := SleepWithContext c now workDuration in
          Some (mkWork (getErrorRate s) elapsedMs additionalErrorRate e, s, t)
      end
  | _, _ => None
  end.

(** From the end of the sleep, at instant [t]: the response and the
    error. *)
Definition processRequest_end (req : Request Meta) (d : Draws) (k : Work) (t : Z)
  : option (Response * error) :=
  match workSlept k with
  | Some e => Some (zeroResponse, Some e)
  | None =>
      match workErrorRate k (workElapsedMs k) with
      | Some baseErrorRate =>
          let totalErrorRate := (baseErrorRate + workAdditionalErrorRate k)%float in
          let totalErrorRate := if (1.0 <? totalErrorRate)%float then 1.0%float else totalErrorRate in
          if (0 <? totalErrorRate)%float && (uniform d <? totalErrorRate)%float then
            Some (mkResponse (reqId req) false "" "Server Error" t, Some "server error"%string)
          else
            Some (mkResponse (reqId req) true "OK" "" t, None)
      | None => None
      end
  end.

(** What the rest of the server does to a request that was queued: whether
    a worker is blocked on the queue when the request arrives (it then takes
    the request at once), and either a worker's reply with its instant, or
    nothing when the server's context is cancelled first (the request then
    stays where it was put). *)
Record QueueOutcome := mkQueueOutcome {
  worker_waiting : bool;
  reply : option (QueuedResponse * Z)
}.

(** [handleRequestWithResources] at instant [now].  The memory check comes
    before anything reads the context; after it a nil context panics.  A
    queue that was never made takes no request. *)
Definition handleRequestWithResources (req : Request Meta) (now : Z) (q : QueueOutcome)
  (s : Server) : option (Response * error * Server * Z) :=
  let memUtil := MemoryUtilization (resourceState s) in
  if (0.98 <? memUtil)%float then Some (zeroResponse, Some "server out of memory"%string, s, now) else
  match ctx s with
  | None => None
  | Some c =>
      if ctx_done c now then Some (zeroResponse, Some ctx_Err, s, now) else
      if queueMade s
         && (worker_waiting q || (Z.of_nat (length (requestQueue s)) <? queueCap s)%Z) then
        match reply q with
        | Some (r, t) => Some (qResponse r, qError r, s, t)
        | None =>
            Some (zeroResponse, Some ctx_Err,
                  (if worker_waiting q then s
                   else set_requestQueue s (requestQueue s ++ [mkQueuedRequest req now])),
                  match c with Some c => Z.max now c | None => now end)
        end
      else Some (zeroResponse, Some "server queue full"%string, s, now)
  end.

(** [HandleRequest]. *)
Definition HandleRequest (req : Request Meta) (now : Z) (d : Draws) (q : QueueOutcome)
  (s : Server) : option (Response * error * Server * Z) :=
  if EnableResourceManagement (behavior s) then
    handleRequestWithResources req now q s
  else processRequest req false now d s.

(** [HandleRequest] in two halves.  What a request waits for at the
    server: an answer that is settled already, or the sleep of
    [processRequest]. *)
Inductive Pending :=
| Answered (resp : Response) (err : error)
| Working (k : Work).

(** From the arrival at instant [now]: what is waited for, the server and
    the instant the wait ends. *)
Definition HandleRequest_begin (req : Request Meta) (now : Z) (d : Draws) (q : QueueOutcome)
  (s : Server) : option (Pending * Server * Z) :=
  if EnableResourceManagement (behavior s) then
    match handleRequestWithResources req now q s with
    | Some (resp, err, s, t) => Some (Answered resp err, s, t)
    | None => None
    end
  else
    match processRequest_begin false now d s with
    | Some (k, s, t) => Some (Working k, s, t)
    | None => None
    end.

(** From the end of the wait, at instant [t]. *)
Definition HandleRequest_end (req : Request Meta) (d : Draws) (p : Pending) (t : Z)
  : option (Response * error) :=
  match p with
  | Answered resp err => Some (resp, err)
  | Working k => processRequest_end req d k t
  end.

End WithPow.

End WithMeta.

End Server.

(** ** network.go *)

Module Network.

Import Go Curve Metrics Server.

Record NetworkBehavior := mkNetworkBehavior {
  nTo : Z;
  LatencyFrom : Z;
  LatencyTo : Z;
  DropRate : list BehaviorPoint;
  LatencyMin : list BehaviorPoint;
  LatencyMax : list BehaviorPoint
}.

Record Network := mkNetwork {
  nbehavior : NetworkBehavior;
  nbehaviorStartTime : option Z;
  getDropRate : float -> option float;
  getLatencyMin : float -> option float;
  getLatencyMax : float -> option float
}.

(** [SetBehavior]. *)
Definition SetBehavior (b : NetworkBehavior) : Network :=
  let maxX := (float_of_int (nTo b) * 1000)%float in
  mkNetwork b None
    (CurveFunction 0 maxX 0 1 (DropRate b))
    (CurveFunction 0 maxX (float_of_int (LatencyFrom b)) (float_of_int (LatencyTo b)) (LatencyMin b))
    (CurveFunction 0 maxX (float_of_int (LatencyFrom b)) (float_of_int (LatencyTo b)) (LatencyMax b)).

(** [NewNetwork]. *)
Definition NewNetwork : Network :=
  SetBehavior
    (mkNetworkBehavior 0 0 100
       [mkPoint 0 0 Curve; mkPoint 1 0 Curve]
       [mkPoint 0 0.1 Curve; mkPoint 1 0.1 Curve]
       [mkPoint 0 0.4 Curve; mkPoint 1 0.4 Curve]).

(** The latency of [oneWayTrip] in milliseconds: the lower bound when both
    curve values are equal, otherwise a normal draw [z] around the centre;
    then [math.Max(latencyMs, 1)]. *)
Definition sampleLatencyMs (minLatency maxLatency z : float) : float :=
  let '(mn, mx) := ordered_pair minLatency maxLatency in
  let latencyMs :=
    if (mn =? mx)%float then mn
    else (z * sample_stddev mn mx + sample_mean mn mx)%float in
  math_Max latencyMs 1.

(** [time.Duration(latencyMs) * time.Millisecond]. *)
Definition latency_of_ms (latencyMs : float) : Z :=
  wrap64 (int64_of_float latencyMs * Millisecond).

(** [oneWayTrip] started at instant [now]: the latency, the error and the
    instant of return. *)
Definition oneWayTrip (ctx : Context) (elapsedMs : float)
  (getDropRate getLatencyMin getLatencyMax : float -> option float)
  (now : Z) (d : Draws) : option (Z * error * Z) :=
  match getLatencyMin elapsedMs, getLatencyMax elapsedMs with
  | Some minLatency, Some maxLatency =>
      let latency := latency_of_ms (sampleLatencyMs minLatency maxLatency (normal d)) in
      match SleepWithContext ctx now latency with
      | (Some e, t) => Some (latency, Some e, t)
      | (None, t) =>
          match getDropRate elapsedMs with
          | Some dropRate =>
              if (0 <? dropRate)%float && (uniform d <? dropRate)%float
              then Some (latency, Some "packet lost"%string, t)
              else Some (latency, None, t)
          | None => None
          end
      end
  | _, _ => None
  end.

(** [oneWayTrip] in two halves, for a trip that is followed through time.
    Up to the end of the sleep: the latency, the error of the sleep and the
    instant it ends. *)
Definition oneWayTrip_begin (ctx : Context) (elapsedMs : float)
  (getLatencyMin getLatencyMax : float -> option float)
  (now : Z) (d : Draws) : option (Z * error * Z) :=
  match getLatencyMin elapsedMs, getLatencyMax elapsedMs with
  | Some minLatency, Some maxLatency =>
      let latency := latency_of_ms (sampleLatencyMs minLatency maxLatency (normal d)) in
      let '(e, t) := SleepWithContext ctx now latency in
      Some (latency, e, t)
  | _, _ => None
  end.

(** From the end of the sleep: the error the trip returns. *)
Definition oneWayTrip_end (elapsedMs : float) (getDropRate : float -> option float)
  (d : Draws) (slept : error) : option error :=
  match slept with
  | Some e => Some (Some e)
  | None =>
      match getDropRate elapsedMs with
      | Some dropRate =>
          if (0 <? dropRate)%float && (uniform d <? dropRate)%float
          then Some (Some "packet lost"%string)
          else Some None
      | None => None
      end
  end.

(** The draws and the server-side events of one [Send]. *)
Record SendEnv := mkSendEnv {
  forward : Draws;
  serverDraws : Draws;
  queueOutcome : QueueOutcome;
  backward : Draws
}.

Section WithMeta.

Variable Meta : Type.
Variable math_Pow : float -> float -> float.

(** What [Send] reads and writes: the network, the server behind it and
    the metrics both share. *)
Record World := mkWorld {
  network : Network;
  server : Server Meta;
  metrics : Metrics
}.

(** The bookkeeping of [Send] on the server's answer: the counters, and
    the response handed on. *)
Definition after_server (resp : Response) (err : error) (m : Metrics) : Response * Metrics :=
  match err, Ok resp with
  | None, true =>
      (resp,
       set_server_counters m (ServerReceivedRequests m) (incr (ServerSuccessResponses m))
         (ServerErrorResponses m))
  | _, _ =>
      let text :=
        match err with
        | Some e => if String.eqb (Error resp) "" then e else Error resp
        | None => Error resp
        end in
      (mkResponse (respId resp) false (respData resp) text (respTimestamp resp),
       set_server_counters m (ServerReceivedRequests m) (ServerSuccessResponses m)
         (incr (ServerErrorResponses m)))
  end.

(** [Send] started at instant [now]: the response, the error, the world
    and the instant of return. *)
Definition Send (ctx : Context) (req : Request Meta) (now : Z) (env : SendEnv)
  (w : World) : option (Response * error * World * Z) :=
  let n := network w in
  let behaviorStart := match nbehaviorStartTime n with Some t => t | None => now end in
  let n :=
    mkNetwork (nbehavior n) (Some behaviorStart) (getDropRate n) (getLatencyMin n)
      (getLatencyMax n) in
  let elapsedMs := float_of_int (Milliseconds (now - behaviorStart)) in
  match oneWayTrip ctx elapsedMs (getDropRate n) (getLatencyMin n) (getLatencyMax n)
          now (forward env) with
  | None => None
  | Some (requestLatency, requestLostErr, t1) =>
      let m := recordRequestLatency t1 requestLatency (metrics w) in
      match requestLostErr with
      | Some e => Some (zeroResponse, Some e, mkWorld n (server w) m, t1)
      | None =>
          let m :=
            set_server_counters m (incr (ServerReceivedRequests m)) (ServerSuccessResponses m)
              (ServerErrorResponses m) in
          match HandleRequest math_Pow req t1 (serverDraws env) (queueOutcome env) (server w) with
          | None => None
          | Some (resp, err, s, t2) =>
              let '(resp, m) := after_server resp err m in
              let elapsedMs := float_of_int (Milliseconds (t2 - behaviorStart)) in
              match oneWayTrip ctx elapsedMs (getDropRate n) (getLatencyMin n)
                      (getLatencyMax n) t2 (backward env) with
              | None => None
              | Some (responseLatency, responseLostErr, t3) =>
                  let m := recordResponseLatency t3 responseLatency m in
                  match responseLostErr with
                  | Some e => Some (zeroResponse, Some e, mkWorld n s m, t3)
                  | None => Some (resp, None, mkWorld n s m, t3)
                  end
              end
          end
      end
  end.

(** *** A [Send] in its goroutine

    [sendRequest] runs [Send] in a goroutine of its own and may return
    before it.  Such a [Send] is followed from wait to wait: it sleeps in
    the first [oneWayTrip], waits for [HandleRequest], sleeps in the second
    [oneWayTrip]; what it reads and writes, it reads and writes at the
    instant the wait ends. *)

Inductive Leg :=
| Outbound (latency : Z) (slept : error)
| AtServer (p : Pending)
| Inbound (resp : Response) (latency : Z) (slept : error).

(** What a [Send] under way holds: its arguments, the curves and the
    behavior start it captured, the elapsed time of the trip it is in, the
    wait it is in and the instant that wait ends. *)
Record Flight := mkFlight {
  fctx : Context;
  freq : Request Meta;
  fenv : SendEnv;
  fnetwork : Network;
  fstart : Z;
  felapsedMs : float;
  leg : Leg;
  due : Z
}.

Definition next_leg (f : Flight) (elapsedMs : float) (l : Leg) (t : Z) : Flight :=
  mkFlight (fctx f) (freq f) (fenv f) (fnetwork f) (fstart f) elapsedMs l t.

(** [Send] from its call at instant [now] to its first sleep. *)
Definition launch (ctx : Context) (req : Request Meta) (now : Z) (env : SendEnv)
  (w : World) : option (Flight * World) :=
  let n := network w in
  let behaviorStart := match nbehaviorStartTime n with Some t => t | None => now end in
  let n :=
    mkNetwork (nbehavior n) (Some behaviorStart) (getDropRate n) (getLatencyMin n)
      (getLatencyMax n) in
  let elapsedMs := float_of_int (Milliseconds (now - behaviorStart)) in
  match oneWayTrip_begin ctx elapsedMs (getLatencyMin n) (getLatencyMax n) now (forward env) with
  | None => None
  | Some (requestLatency, slept, t1) =>
      Some (mkFlight ctx req env n behaviorStart elapsedMs (Outbound requestLatency slept) t1,
            mkWorld n (server w) (metrics w))
  end.

(** Where a wait leaves a [Send]: in its next wait, or back with its
    results. *)
Inductive Progress :=
| Flying (f : Flight)
| Landed (resp : Response) (err : error).

(** [Send] from the end of one wait, at instant [due f], to the next wait
    or to its return. *)
Definition step (f : Flight) (w : World) : option (Progress * World) :=
  let n := fnetwork f in
  let t := due f in
  match leg f with
  | Outbound requestLatency slept =>
      match oneWayTrip_end (felapsedMs f) (getDropRate n) (forward (fenv f)) slept with
      | None => None
      | Some requestLostErr =>
          let m := recordRequestLatency t requestLatency (metrics w) in
          match requestLostErr with
          | Some e => Some (Landed zeroResponse (Some e), mkWorld (network w) (server w) m)
          | None =>
              let m :=
                set_server_counters m (incr (ServerReceivedRequests m))
                  (ServerSuccessResponses m) (ServerErrorResponses m) in
              match HandleRequest_begin math_Pow (freq f) t (serverDraws (fenv f))
                      (queueOutcome (fenv f)) (server w) with
              | None => None
              | Some (p, s, t2) =>
                  Some (Flying (next_leg f (felapsedMs f) (AtServer p) t2),
                        mkWorld (network w) s m)
              end
          end
      end
  | AtServer p =>
      match HandleRequest_end (freq f) (serverDraws (fenv f)) p t with
      | None => None
      | Some (resp, err) =>
          let '(resp, m) := after_server resp err (metrics w) in
          let elapsedMs := float_of_int (Milliseconds (t - fstart f)) in
          match oneWayTrip_begin (fctx f) elapsedMs (getLatencyMin n) (getLatencyMax n)
                  t (backward (fenv f)) with
          | None => None
          | Some (responseLatency, slept, t3) =>
              Some (Flying (next_leg f elapsedMs (Inbound resp responseLatency slept) t3),
                    mkWorld (network w) (server w) m)
          end
      end
  | Inbound resp responseLatency slept =>
      match oneWayTrip_end (felapsedMs f) (getDropRate n) (backward (fenv f)) slept with
      | None => None
      | Some responseLostErr =>
          let m := recordResponseLatency t responseLatency (metrics w) in
          match responseLostErr with
          | Some e => Some (Landed zeroResponse (Some e), mkWorld (network w) (server w) m)
          | None => Some (Landed resp None, mkWorld (network w) (server w) m)
          end
      end
  end.

(** The waits a [Send] still has before it. *)
Definition legs (f : Flight) : nat :=
  match leg f with Outbound _ _ => 3 | AtServer _ => 2 | Inbound _ _ _ => 1 end%nat.

(** A [Send] run from wait to wait with nothing else going on: its
    results, the world and the instant of return. *)
Fixpoint fly (fuel : nat) (f : Flight) (w : World) : option (Response * error * World * Z) :=
  match fuel with
  | O => None
  | S fuel' =>
      match step f w with
      | None => None
      | Some (Landed resp err, w') => Some (resp, err, w', due f)
      | Some (Flying f', w') => fly fuel' f' w'
      end
  end.

(** *** The goroutines in the air

    The [Send]s that were started and have not returned, in the order they
    were started. *)

(** The instant of the next event among them. *)
Fixpoint first_due (l : list Flight) : option Z :=
  match l with
  | [] => None
  | f :: l' =>
      match first_due l' with
      | Some t => Some (Z.min (due f) t)
      | None => Some (due f)
      end
  end.

(** The event at instant [t] of the first of them that has one: a [Send]
    that returns leaves the list (its result goes to a channel nobody
    reads). *)
Fixpoint step_first (t : Z) (l : list Flight) (w : World) : option (list Flight * World) :=
  match l with
  | [] => Some ([], w)
  | f :: l' =>
      if (due f =? t)%Z then
        match step f w with
        | None => None
        | Some (Flying f', w') => Some (f' :: l', w')
        | Some (Landed _ _, w') => Some (l', w')
        end
      else
        match step_first t l' w with
        | Some (l'', w') => Some (f :: l'', w')
        | None => None
        end
  end.

(** The waits they still have before them, all together. *)
Definition legs_left (l : list Flight) : nat := fold_right (fun f n => (legs f + n)%nat) 0%nat l.

End WithMeta.

Arguments Landed {Meta} resp err.

End Network.

(** ** clientstarlark.go *)

Module Starlark.

Import Go Server.

(** The Starlark values a hook can receive or return. *)
Inductive Value :=
| VNone
| VBool (b : bool)
| VInt (z : Z)
| VFloat (f : float)
| VString (s : string)
| VList (l : list Value)
| VDict (d : list (Value * Value))
| VFunction.

(** [Value.Truth]. *)
Definition Truth (v : Value) : bool :=
  match v with
  | VNone => false
  | VBool b => b
  | VInt z => negb (z =? 0)%Z
  | VFloat f => negb (f =? 0)%float
  | VString s => negb (String.eqb s "")
  | VList l => match l with [] => false | _ => true end
  | VDict d => match d with [] => false | _ => true end
  | VFunction => true
  end.

(** [starlark.AsInt32]: the value of an int that fits 32 bits. *)
Definition AsInt32 (v : Value) : option Z :=
  match v with
  | VInt z => if ((- 2 ^ 31 <=? z) && (z <=? 2 ^ 31 - 1))%Z then Some z else None
  | _ => None
  end.

(** [Dict.Get] at a string key. *)
Fixpoint dict_get (d : list (Value * Value)) (key : string) : option Value :=
  match d with
  | [] => None
  | (VString k, v) :: d' => if String.eqb k key then Some v else dict_get d' key
  | _ :: d' => dict_get d' key
  end.

Definition Request := Server.Request Value.

(** [parseOnRequestResult]. *)
Definition parseOnRequestResult (result : Value) : bool * Z * Z :=
  match result with
  | VDict dict =>
      let allow := match dict_get dict "allow" with Some v => Truth v | None => true end in
      let delayMs :=
        match dict_get dict "delay" with
        | Some v => match AsInt32 v with Some i => i | None => 0%Z end
        | None => 0%Z
        end in
      let timeoutMs :=
        match dict_get dict "timeout" with
        | Some v => match AsInt32 v with Some i => i | None => 0%Z end
        | None => 0%Z
        end in
      (allow, delayMs, timeoutMs)
  | _ => (true, 0%Z, 0%Z)
  end.

(** [requestToDict]. *)
Definition requestToDict (req : Request) : Value :=
  VDict [(VString "id", VString (reqId req));
         (VString "client_id", VString (ClientId req));
         (VString "data", VString (reqData req));
         (VString "timestamp", VFloat (float_of_int (reqTimestamp req) / 1000000)%float);
         (VString "meta", reqMeta req)].

(** [responseToDict]; a nil response gives the empty dict. *)
Definition responseToDict (resp : option Response) : Value :=
  match resp with
  | None => VDict []
  | Some resp =>
      VDict [(VString "id", VString (respId resp));
             (VString "ok", VBool (Ok resp));
             (VString "data", VString (respData resp));
             (VString "error", VString (Error resp));
             (VString "timestamp", VFloat (float_of_int (respTimestamp resp) / 1000000)%float)]
  end.

(** [errorToValue]. *)
Definition errorToValue (err : error) : Value :=
  match err with None => VNone | Some e => VString e end.

(** [updateRequestFromDict]. *)
Definition updateRequestFromDict (req : Request) (dict : Value) : Request :=
  match dict with
  | VDict d =>
      match dict_get d "meta" with
      | Some (VDict meta) =>
          mkRequest (reqId req) (ClientId req) (reqData req) (reqTimestamp req) (VDict meta)
      | _ => req
      end
  | _ => req
  end.

Inductive executionType := execOnRequest | execOnResponse | execOnError | execOnFail | execOnRetry.

Record scriptExecution := mkExecution {
  execType : executionType;
  exec_req : Request;
  exec_resp : option Response;
  exec_err : error
}.

Record scriptResult := mkResult {
  allow : bool;
  delayMs : Z;
  timeoutMs : Z;
  err : error
}.

(** The zero [scriptResult]. *)
Definition zeroResult : scriptResult := mkResult false 0 0 None.

(** What the two [select]s of a hook method do once the stop channel is
    closed.  The closed channel is always ready, so the runtime may take it
    in the first [select] (the work item is not queued) or in the second
    (it is queued, and nobody waits for its result); or it takes the send
    and then the result, which the executor delivers as long as it has not
    itself taken the stop channel. *)
Inductive Select := StopFirst | StopSecond | ResultRead.

(** The capacity of [executionChan]. *)
Definition executionChan_cap : Z := 10000.

Section WithThread.

(** The state of the executor's interpreter thread: the thread-local
    state of the script and whatever else a call can read or change. *)
Variable Thread : Type.

(** The outcome of [starlark.Call]: the value or the error, and what the
    callee left behind.  It receives the dicts by reference, and the request
    dict holds the request's own meta dict: [meta_after] is the content of
    that object after the call (changes made in place stay, error or not),
    [args_after] are the argument dicts after the call (the entry ["meta"]
    of the first may have been replaced by another dict). *)
Record CallOutcome := mkCall {
  returned : Value + string;
  meta_after : Value;
  args_after : list Value;
  thread_after : Thread
}.

Definition with_meta (req : Request) (meta : Value) : Request :=
  mkRequest (reqId req) (ClientId req) (reqData req) (reqTimestamp req) meta.

Definition Callable := Thread -> list Value -> CallOutcome.

(** [executionChan] holds the work items that were queued and whose result
    nobody waited for.  [selects] are the choices of the runtime at the
    hook calls made after [Close], [selected] counts them. *)
Record StarlarkClientBehavior := mkBehavior {
  setState : option Callable;
  onRequest : option Callable;
  onResponse : option Callable;
  onError : option Callable;
  onFail : option Callable;
  onRetry : option Callable;
  thread : Thread;
  stopChan_closed : bool;
  executionChan : list scriptExecution;
  selects : nat -> Select;
  selected : nat
}.

(** The request dict as the callee left it. *)
Definition reqDict_after (c : CallOutcome) (reqDict : Value) : Value :=
  match args_after c with d :: _ => d | [] => reqDict end.

(** [executeFunction]: the result, the thread and the request. *)
Definition executeFunction (b : StarlarkClientBehavior) (th : Thread) (exec : scriptExecution)
  : scriptResult * Thread * Request :=
  let req := exec_req exec in
  match execType exec with
  | execOnRequest =>
      match onRequest b with
      | None => (mkResult true 0 0 None, th, req)
      | Some fn =>
          let reqDict := requestToDict req in
          let c := fn th [reqDict] in
          match returned c with
          | inr e => (mkResult false 0 0 (Some ("on_request error: " ++ e)%string), thread_after c, with_meta req (meta_after c))
          | inl v =>
              let '(a, d, t) := parseOnRequestResult v in
              (mkResult a d t None, thread_after c,
               updateRequestFromDict (with_meta req (meta_after c)) (reqDict_after c reqDict))
          end
      end
  | execOnResponse =>
      match onResponse b with
      | None => (zeroResult, th, req)
      | Some fn =>
          let respDict := responseToDict (exec_resp exec) in
          let reqDict := requestToDict req in
          let c := fn th [reqDict; respDict] in
          match returned c with
          | inr e => (mkResult false 0 0 (Some ("on_response error: " ++ e)%string), thread_after c, with_meta req (meta_after c))
          | inl _ => (zeroResult, thread_after c, updateRequestFromDict (with_meta req (meta_after c)) (reqDict_after c reqDict))
          end
      end
  | execOnError =>
      match onError b with
      | None => (zeroResult, th, req)
      | Some fn =>
          let reqDict := requestToDict req in
          let respDict := responseToDict (exec_resp exec) in
          let c := fn th [reqDict; respDict] in
          match returned c with
          | inr e => (mkResult false 0 0 (Some ("on_error error: " ++ e)%string), thread_after c, with_meta req (meta_after c))
          | inl _ => (zeroResult, thread_after c, updateRequestFromDict (with_meta req (meta_after c)) (reqDict_after c reqDict))
          end
      end
  | execOnFail =>
      match onFail b with
      | None => (zeroResult, th, req)
      | Some fn =>
          let reqDict := requestToDict req in
          let errValue := errorToValue (exec_err exec) in
          let c := fn th [reqDict; errValue] in
          match returned c with
          | inr e => (mkResult false 0 0 (Some ("on_fail error: " ++ e)%string), thread_after c, with_meta req (meta_after c))
          | inl _ => (zeroResult, thread_after c, updateRequestFromDict (with_meta req (meta_after c)) (reqDict_after c reqDict))
          end
      end
  | execOnRetry =>
      match onRetry b with
      | None => (zeroResult, th, req)
      | Some fn =>
          let reqDict := requestToDict req in
          let respDict := responseToDict (exec_resp exec) in
          let errValue := errorToValue (exec_err exec) in
          let c := fn th [reqDict; respDict; errValue] in
          match returned c with
          | inr e => (mkResult false 0 0 (Some ("on_retry error: " ++ e)%string), thread_after c, with_meta req (meta_after c))
          | inl v =>
              let '(a, d, _) := parseOnRequestResult v in
              (mkResult a d 0 None, thread_after c,
               updateRequestFromDict (with_meta req (meta_after c)) (reqDict_after c reqDict))
          end
      end
  end.

Definition with_thread (b : StarlarkClientBehavior) (th : Thread) : StarlarkClientBehavior :=
  mkBehavior (setState b) (onRequest b) (onResponse b) (onError b) (onFail b) (onRetry b)
    th (stopChan_closed b) (executionChan b) (selects b) (selected b).

(** The executor works through the items of the channel in their order.
    Every item points to the request; it finds it as the item before left
    it. *)
Fixpoint drain (b : StarlarkClientBehavior) (th : Thread) (req : Request)
  (queued : list scriptExecution) : Thread * Request :=
  match queued with
  | [] => (th, req)
  | exec :: queued' =>
      let '(_, th', req') :=
        executeFunction b th
          (mkExecution (execType exec) req (exec_resp exec) (exec_err exec)) in
      drain b th' req' queued'
  end.

(** A hook method after [Close], with the runtime's choice [c]: the zero
    result without an error when the stop channel is taken (or when it is
    the only channel ready, the buffer being full), the result of the hook
    when the executor still delivers it. *)
Definition call_hook_closed (c : Select) (b : StarlarkClientBehavior) (exec : scriptExecution)
  : scriptResult * StarlarkClientBehavior * Request :=
  let counted (th : Thread) (queued : list scriptExecution) :=
    mkBehavior (setState b) (onRequest b) (onResponse b) (onError b) (onFail b) (onRetry b)
      th (stopChan_closed b) queued (selects b) (S (selected b)) in
  let room := (Z.of_nat (length (executionChan b)) <? executionChan_cap)%Z in
  match c with
  | StopFirst => (zeroResult, counted (thread b) (executionChan b), exec_req exec)
  | StopSecond =>
      (zeroResult,
       counted (thread b) (if room then executionChan b ++ [exec] else executionChan b),
       exec_req exec)
  | ResultRead =>
      if room then
        let '(th, req) := drain b (thread b) (exec_req exec) (executionChan b) in
        let '(r, th, req) :=
          executeFunction b th
            (mkExecution (execType exec) req (exec_resp exec) (exec_err exec)) in
        (r, counted th [], req)
      else (zeroResult, counted (thread b) (executionChan b), exec_req exec)
  end.

(** A hook method.  While the stop channel is open the work item goes to
    the executor and the method waits for its result; every call does, so
    nothing is left in the channel.  Once it is closed the runtime
    chooses. *)
Definition call_hook (b : StarlarkClientBehavior) (exec : scriptExecution)
  : scriptResult * StarlarkClientBehavior * Request :=
  if stopChan_closed b then call_hook_closed (selects b (selected b)) b exec
  else
    let '(r, th, req) := executeFunction b (thread b) exec in
    (r, with_thread b th, req).

(** [Close]: [close(b.stopChan)] panics on a channel that is closed
    already. *)
Definition Close (b : StarlarkClientBehavior) : option StarlarkClientBehavior :=
  if stopChan_closed b then None
  else
    Some (mkBehavior (setState b) (onRequest b) (onResponse b) (onError b) (onFail b)
            (onRetry b) (thread b) true (executionChan b) (selects b) (selected b)).

End WithThread.

(** The [ClientBehavior] interface.  Each method returns, with its
    results, the behavior and the request as the call left them. *)
Class ClientBehavior (B : Type) := {
  OnRequest : B -> Request -> (bool * Z * Z * error) * B * Request;
  OnResponse : B -> Request -> Response -> error * B * Request;
  OnError : B -> Request -> Response -> error * B * Request;
  OnFail : B -> Request -> string -> error * B * Request;
  OnRetry : B -> Request -> option Response -> error -> (bool * Z * error) * B * Request;
  CloseBehavior : B -> option B
}.

#[export] Instance StarlarkBehavior (Thread : Type) : ClientBehavior (StarlarkClientBehavior Thread) := {
  OnRequest b req :=
    let '(r, b', req') := call_hook b (mkExecution execOnRequest req None None) in
    ((allow r, delayMs r, timeoutMs r, err r), b', req');
  OnResponse b req resp :=
    let '(r, b', req') := call_hook b (mkExecution execOnResponse req (Some resp) None) in
    (err r, b', req');
  OnError b req resp :=
    let '(r, b', req') := call_hook b (mkExecution execOnError req (Some resp) None) in
    (err r, b', req');
  OnFail b req rerr :=
    let '(r, b', req') := call_hook b (mkExecution execOnFail req None (Some rerr)) in
    (err r, b', req');
  OnRetry b req resp rerr :=
    let '(r, b', req') := call_hook b (mkExecution execOnRetry req resp rerr) in
    ((allow r, delayMs r, err r), b', req');
  CloseBehavior b := Close b
}.

(** [NoopClientBehavior]. *)
Inductive NoopClientBehavior := Noop.

#[export] Instance NoopBehavior : ClientBehavior NoopClientBehavior := {
  OnRequest b req := ((true, 0%Z, 0%Z, None), b, req);
  OnResponse b req _ := (None, b, req);
  OnError b req _ := (None, b, req);
  OnFail b req _ := (None, b, req);
  OnRetry b req _ _ := ((false, 0%Z, None), b, req);
  CloseBehavior b := Some b
}.

End Starlark.

(** ** client.go *)

Module Client.

Import Go Metrics Server Network Starlark.

(** What happens around one request of a client: its context, the instant
    [Stop] closes the interpreter (if ever), and the draws and server-side
    events of its k-th [Send]. *)
Record Env := mkEnv {
  ctx : Context;
  closedAt : Context;
  sends : nat -> SendEnv
}.

(** The calls a request makes, in order (a log kept beside the state). *)
Inductive Call :=
| CallOnRequest
| CallSend (timeout : Z)
| CallOnResponse
| CallOnError
| CallOnFail
| CallOnRetry.

Section WithBehavior.

Context {B : Type} {HB : ClientBehavior B}.
Variable math_Pow : float -> float -> float.
Variable env : Env.

(** [world] is the world as the request's own goroutine last left it,
    [inflight] the [Send]s it started that had not returned then. *)
Record State := mkState {
  behavior : B;
  request : Request;
  world : World Value;
  clock : Z;
  sent : nat;
  calls : list Call;
  logged : list string;
  inflight : list (Flight Value)
}.

Definition at_clock (st : State) (t : Z) : State :=
  mkState (behavior st) (request st) (world st) t (sent st) (calls st) (logged st)
    (inflight st).

(** [log.Printf("Error evaluating client behavior: %v", err)] when the
    error is not nil. *)
Definition log_error (err : error) (l : list string) : list string :=
  match err with
  | Some e => (l ++ [("Error evaluating client behavior: " ++ e)%string])%list
  | None => l
  end.

Definition count (f : Metrics -> Metrics) (w : World Value) : World Value :=
  mkWorld (network w) (server w) (f (metrics w)).

Definition blocked (m : Metrics) : Metrics :=
  set_client_counters m (incr (ClientBlockedRequests m)) (ClientSentRequests m)
    (ClientRetryRequests m) (ClientSuccessResponses m) (ClientErrorResponses m)
    (NetworkFailedRequests m).

Definition sent_request (isRetry : bool) (m : Metrics) : Metrics :=
  set_client_counters m (ClientBlockedRequests m) (incr (ClientSentRequests m))
    (if isRetry then incr (ClientRetryRequests m) else ClientRetryRequests m)
    (ClientSuccessResponses m) (ClientErrorResponses m) (NetworkFailedRequests m).

Definition success_response (m : Metrics) : Metrics :=
  set_client_counters m (ClientBlockedRequests m) (ClientSentRequests m)
    (ClientRetryRequests m) (incr (ClientSuccessResponses m)) (ClientErrorResponses m)
    (NetworkFailedRequests m).

Definition error_response (m : Metrics) : Metrics :=
  set_client_counters m (ClientBlockedRequests m) (ClientSentRequests m)
    (ClientRetryRequests m) (ClientSuccessResponses m) (incr (ClientErrorResponses m))
    (NetworkFailedRequests m).

Definition network_failed (m : Metrics) : Metrics :=
  set_client_counters m (ClientBlockedRequests m) (ClientSentRequests m)
    (ClientRetryRequests m) (ClientSuccessResponses m) (ClientErrorResponses m)
    (incr (NetworkFailedRequests m)).

(** The behavior as a hook finds it at instant [now]: closed once [Stop]
    has run ([Stop] closes it one time). *)
Definition behavior_at (now : Z) (b : B) : B :=
  if ctx_done (closedAt env) now then
    match CloseBehavior b with Some b' => b' | None => b end
  else b.

(** [time.Duration(ms) * time.Millisecond]. *)
Definition ms (n : Z) : Z := wrap64 (n * Millisecond).

(** The cases of the [select] of [sendRequest] beside the result: the
    instant the first of them is ready and the error it returns.  The
    context comes before the timer when both are ready at one instant. *)
Definition gives_up (timeout : Z) (now : Z) : option (Z * string) :=
  let cancelled := match ctx env with Some c => Some (Z.max now c, ctx_Err) | None => None end in
  if (0 <? timeout)%Z then
    let deadline := (now + timeout)%Z in
    if ctx_done (ctx env) deadline then cancelled
    else Some (deadline, "client request timed"%string)
  else cancelled.

Definition in_time (giveup : option (Z * string)) (t : Z) : bool :=
  match giveup with Some (g, _) => (t <=? g)%Z | None => true end.

(** The wait of the [select]: the events of the [Send]s in the air happen
    in the order of their instants (at one instant the [Send] started
    first goes first) until the result of [mine] is there, or until one of
    the other cases is ready first.  The result comes before the other
    cases when they are ready at one instant. *)
Fixpoint await (fuel : nat) (giveup : option (Z * string)) (mine : Flight Value)
  (others : list (Flight Value)) (w : World Value)
  : option (Response * error * World Value * list (Flight Value) * Z) :=
  match fuel with
  | O => None
  | S fuel' =>
      let my_turn :=
        if in_time giveup (due mine) then
          match step math_Pow mine w with
          | None => None
          | Some (Flying mine', w') => await fuel' giveup mine' others w'
          | Some (Landed resp err, w') => Some (resp, err, w', others, due mine)
          end
        else
          match giveup with
          | Some (g, e) => Some (zeroResponse, Some e, w, (others ++ [mine])%list, g)
          | None => None
          end in
      match first_due others with
      | Some t =>
          if (t <=? due mine)%Z && in_time giveup t then
            match step_first math_Pow t others w with
            | None => None
            | Some (others', w') => await fuel' giveup mine others' w'
            end
          else my_turn
      | None => my_turn
      end
  end.

(** [sendRequest] started at instant [now], for the [k]-th [Send] of the
    request, with the [Send]s of earlier attempts that are still in the
    air: the goroutine runs [Send]; the [select] returns what comes first
    of its result, the end of the context and, when [timeout > 0], the
    timer.  The [Send] goes on in its goroutine when the [select] has
    returned without its result. *)
Definition sendRequest (req : Request) (timeout : Z) (now : Z) (k : nat) (w : World Value)
  (others : list (Flight Value))
  : option (Response * error * World Value * list (Flight Value) * Z) :=
  match launch (ctx env) req now (sends env k) w with
  | None => None
  | Some (mine, w) =>
      await (legs mine + legs_left others) (gives_up timeout now) mine others w
  end.

(** Where one pass of the loops of [requestWithHooks] leaves the request:
    the function returns, or the evaluation of [on_request] starts again
    (after a delay, or for a retry). *)
Inductive Next :=
| Return (st : State)
| Again (isRetry : bool) (timeout : Z) (st : State).

(** The end of a pass once [on_retry] is known: the retry delay, then
    [isRetry = true; continue], or [break]. *)
Definition after_retry (shouldRetry : bool) (retryDelayMs : Z) (timeout : Z) (st : State) : Next :=
  if shouldRetry then
    if (0 <? retryDelayMs)%Z then
      match SleepWithContext (ctx env) (clock st) (ms retryDelayMs) with
      | (Some _, t) => Return (at_clock st t)
      | (None, t) => Again true timeout (at_clock st t)
      end
    else Again true timeout st
  else Return st.

(** What [requestWithHooks] does with the outcome of [sendRequest] that
    came back at instant [t]. *)
Definition handle_outcome (timeout : Z) (resp : Response) (err : error) (st : State) : Next :=
  let b := behavior_at (clock st) (behavior st) in
  match err with
  | None =>
      if Ok resp then
        let w := count success_response (world st) in
        let '(berr, b, req) := OnResponse b (request st) resp in
        Return (mkState b req w (clock st) (sent st) (calls st ++ [CallOnResponse])
                  (log_error berr (logged st)) (inflight st))
      else
        let w := count error_response (world st) in
        let '(berr, b, req) := OnError b (request st) resp in
        let '(shouldRetry, retryDelayMs, berr', b, req) := OnRetry b req (Some resp) None in
        after_retry shouldRetry retryDelayMs timeout
          (mkState b req w (clock st) (sent st) (calls st ++ [CallOnError; CallOnRetry])
             (log_error berr' (log_error berr (logged st))) (inflight st))
  | Some e =>
      let w := count network_failed (world st) in
      let '(berr, b, req) := OnFail b (request st) e in
      let '(shouldRetry, retryDelayMs, berr', b, req) := OnRetry b req None (Some e) in
      after_retry shouldRetry retryDelayMs timeout
        (mkState b req w (clock st) (sent st) (calls st ++ [CallOnFail; CallOnRetry])
           (log_error berr' (log_error berr (logged st))) (inflight st))
  end.

(** One pass: [on_request] is evaluated once; the request is blocked,
    delayed (and evaluated again), or sent and its outcome handled.
    [None] is a panic. *)
Definition pass (isRetry : bool) (timeout : Z) (st : State) : option Next :=
  let b := behavior_at (clock st) (behavior st) in
  let '(allow, delayMs, timeoutMs, err, b, req) := OnRequest b (request st) in
  let calls := (calls st ++ [CallOnRequest])%list in
  let logged := log_error err (logged st) in
  if negb allow then
    Some (Return (mkState b req (count blocked (world st)) (clock st) (sent st) calls logged
                    (inflight st)))
  else if (0 <? delayMs)%Z then
    match SleepWithContext (ctx env) (clock st) (ms delayMs) with
    | (Some _, t) =>
        Some (Return (mkState b req (world st) t (sent st) calls logged (inflight st)))
    | (None, t) =>
        Some (Again isRetry timeout
                (mkState b req (world st) t (sent st) calls logged (inflight st)))
    end
  else
    let timeout := if (0 <? timeoutMs)%Z then ms timeoutMs else timeout in
    let w := count (sent_request isRetry) (world st) in
    let start := clock st in
    match sendRequest req timeout start (sent st) w (inflight st) with
    | None => None
    | Some (resp, err, w, fl, t) =>
        let responseTime := (t - start)%Z in
        let w := count (recordResponseTime t responseTime) w in
        Some (handle_outcome timeout resp err
                (mkState b req w t (S (sent st)) (calls ++ [CallSend timeout]) logged fl))
    end.

(** How a run of [requestWithHooks] ends. *)
Inductive Run :=
| Finished (st : State)
| Panicked
| Running.

(** The loops of [requestWithHooks], for at most [fuel] passes. *)
Fixpoint requestLoop (fuel : nat) (isRetry : bool) (timeout : Z) (st : State) : Run :=
  match fuel with
  | O => Running
  | S fuel' =>
      match pass isRetry timeout st with
      | None => Panicked
      | Some (Return st') => Finished st'
      | Some (Again isRetry' timeout' st') => requestLoop fuel' isRetry' timeout' st'
      end
  end.

(** [requestWithHooks]: [isRetry := false], [timeout = 0], then the loops. *)
Definition requestWithHooks (fuel : nat) (st : State) : Run :=
  requestLoop fuel false 0 st.

End WithBehavior.

End Client.

(** ** simulation.go: the client configurations *)

Module Simulation.

Import Go.

Record ClientConfig := mkClientConfig {
  Id : string;
  Count : Z;
  RequestRate : Z;
  RampUpTime : Z;
  Delay : Z;
  Behavior : string
}.

(** The fields of [Simulation] the configuration methods touch. *)
Record Simulation := mkSimulation {
  running : bool;
  clientsConfigs : list ClientConfig
}.

Definition not_found (id : string) : string :=
  ("Client group with id '" ++ id ++ "' not found")%string.

(** The loop of [UpdateClientConfig]: the first configuration with this id
    is replaced. *)
Fixpoint replace_first (id : string) (c : ClientConfig) (l : list ClientConfig)
  : option (list ClientConfig) :=
  match l with
  | [] => None
  | cfg :: l' =>
      if String.eqb (Id cfg) id then Some (c :: l')
      else match replace_first id c l' with Some r => Some (cfg :: r) | None => None end
  end.

(** The loop of [DeleteClientConfigById]: the first configuration with this
    id is removed. *)
Fixpoint remove_first (id : string) (l : list ClientConfig) : option (list ClientConfig) :=
  match l with
  | [] => None
  | cfg :: l' =>
      if String.eqb (Id cfg) id then Some l'
      else match remove_first id l' with Some r => Some (cfg :: r) | None => None end
  end.

(** [UpdateClientConfig]. *)
Definition UpdateClientConfig (id : string) (count requestRate rampUpTime delay : Z)
  (behavior : string) (s : Simulation) : error * Simulation :=
  if running s then
    (Some "Simulation: Error: Cannot update client configs while running"%string, s)
  else
    match replace_first id (mkClientConfig id count requestRate rampUpTime delay behavior)
            (clientsConfigs s) with
    | Some l => (None, mkSimulation (running s) l)
    | None => (Some (not_found id), s)
    end.

(** [AddClientsConfig]. *)
Definition AddClientsConfig (id : string) (count requestRate rampUpTime delay : Z)
  (behavior : string) (s : Simulation) : error * Simulation :=
  if running s then
    (Some "Simulation: Error: Cannot add clients configs while running"%string, s)
  else
    (None,
     mkSimulation (running s)
       (clientsConfigs s ++ [mkClientConfig id count requestRate rampUpTime delay behavior])).

(** [DeleteClientConfigById]. *)
Definition DeleteClientConfigById (id : string) (s : Simulation) : error * Simulation :=
  if running s then
    (Some "Simulation: Error: Cannot delete client configs while running"%string, s)
  else
    match remove_first id (clientsConfigs s) with
    | Some l => (None, mkSimulation (running s) l)
    | None => (Some (not_found id), s)
    end.

(** [ClearClientConfigs]. *)
Definition ClearClientConfigs (s : Simulation) : error * Simulation :=
  if running s then
    (Some "Simulation: Error: Cannot add clients configs while running"%string, s)
  else (None, mkSimulation (running s) []).

End Simulation.

(** ** Concrete servers, worlds and scripts *)

Module Examples.

Import Go Curve Metrics Server Network Starlark Client Simulation.

Local Open Scope Z_scope.

(** The curve through the two break points (0,0) and (1,1). *)
Definition diagonal : list BehaviorPoint := [mkPoint 0 0 Break; mkPoint 1 1 Break].

(** One response time and one latency each way, all recorded at instant 0. *)
Definition one_request : Metrics :=
  recordResponseTime 0 (5 * Millisecond)
    (recordResponseLatency 0 (3 * Millisecond)
       (recordRequestLatency 0 (2 * Millisecond) NewMetrics)).

(** Five response times recorded at instant 0. *)
Definition five_times : Metrics :=
  fold_left (fun m d => recordResponseTime 0 (d * Millisecond) m) [30; 10; 50; 20; 40] NewMetrics.

(** A managed server with ten workers, 1024 MB, a queue of twenty, a leak
    rate of [leak] MB/s and no collection within the horizon. *)
Definition managed_behavior (leak : float) : ServerBehavior :=
  mkServerBehavior 0 0 100 (Errors defaultBehavior) (ResponseTimeMin defaultBehavior)
    (ResponseTimeMax defaultBehavior) true
    (mkResourceSettings 10 1024 20 leak 2.0 1000.0 50.0).

(** The largest queue the runtime of the examples can make. *)
Definition chanLimit : Z := 2 ^ 32.

(** A server after [Start] at instant 0, under a simulation context that
    is never cancelled. *)
Definition started {Meta : Type} (s : Server Meta) : Server Meta :=
  match Start chanLimit None 0 s with
  | Some (_, s') => s'
  | None => s
  end.

(** That server with [active] workers busy and [current] MB in use. *)
Definition managed_server (leak : float) (active current : Z) : Server unit :=
  let s := started (Server.SetBehavior (managed_behavior leak) (NewServer unit)) in
  set_resourceState s (mkResourceState active current 0 0 0 0 0 0) 0.

(** [n] ticks of the resource manager, 100 ms apart, the first at [now]. *)
Fixpoint ticks (pow : float -> float -> float) (n : nat) (now : Z)
  (s : Server unit) (m : Metrics) : Server unit * Metrics :=
  match n with
  | O => (s, m)
  | S n' =>
      let '(s', m') := updateResources pow now s m in
      ticks pow n' (now + 100 * Millisecond) s' m'
  end.

(** Direct mode never calls [math.Pow]; any function stands for it. *)
Definition pow_unused : float -> float -> float := fun x _ => x.

(** Central draws: latencies and work times at the middle of their range,
    no drop and no synthetic error. *)
Definition calm : Draws := mkDraws 0 0.5.

(** A client that is never stopped, on a quiet network. *)
Definition quiet : Env :=
  mkEnv None None (fun _ => mkSendEnv calm calm (mkQueueOutcome false None) calm).

(** The world [NewSimulation] builds, its server started: 25 ms each way,
    30 ms of work. *)
Definition world0 : World Value := mkWorld NewNetwork (started (NewServer Value)) NewMetrics.

(** The same world with the server in managed mode and its memory at 99%
    of the maximum. *)
Definition out_of_memory : World Value :=
  let s := started (Server.SetBehavior (managed_behavior 0.1) (NewServer Value)) in
  mkWorld NewNetwork
    (set_resourceState s (mkResourceState 10 1014 0 0.99 0 1 0 0) 0)
    NewMetrics.

(** The same world with the server in managed mode, every worker busy and
    the queue of twenty holding twenty requests. *)
Definition queue_full : World Value :=
  let s := started (Server.SetBehavior (managed_behavior 0.1) (NewServer Value)) in
  mkWorld NewNetwork
    (set_requestQueue (set_resourceState s (mkResourceState 10 25 0 0.02 1 1 0 0) 0)
       (repeat (mkQueuedRequest (mkRequest "r" "c" "test data" 0 (VDict [])) 0) 20))
    NewMetrics.

Definition request0 : Request := mkRequest "client-0-0-1" "client-0-0" "test data" 0 (VDict []).

(** Scripts whose thread state counts the calls of [on_request]. *)
Definition meta_of (args : list Value) : Value :=
  match args with
  | VDict d :: _ => match dict_get d "meta" with Some m => m | None => VDict [] end
  | _ => VDict []
  end.

Definition returns (v : Value) : Callable nat :=
  fun th args => mkCall (inl v) (meta_of args) args th.

Definition raises (e : string) : Callable nat :=
  fun th args => mkCall (inr e) (meta_of args) args th.

(** [on_request] that asks for a 50 ms timeout on its first call only. *)
Definition timeout_once : Callable nat :=
  fun th args =>
    mkCall (inl (match th with
                 | O => VDict [(VString "timeout", VInt 50)]
                 | S _ => VDict []
                 end))
      (meta_of args) args (S th).

(** [on_request] that asks for a 10 ms timeout. *)
Definition timeout_10 : Callable nat := returns (VDict [(VString "timeout", VInt 10)]).

(** [on_retry] that allows one retry. *)
Definition retry_once : Callable nat :=
  fun th args =>
    mkCall (inl (VDict [(VString "allow", VBool (th <? 2)%nat)])) (meta_of args) args th.

Definition script (on_request on_retry : option (Callable nat)) : StarlarkClientBehavior nat :=
  mkBehavior None on_request None None None on_retry 0%nat false [] (fun _ => StopFirst) 0%nat.

(** The same script with the runtime making the choice [c] at every
    [select] after [Close]. *)
Definition racing (c : Select) (on_request on_retry : option (Callable nat))
  : StarlarkClientBehavior nat :=
  mkBehavior None on_request None None None on_retry 0%nat false [] (fun _ => c) 0%nat.

Definition start_state {B : Type} (b : B) (w : World Value) : State :=
  mkState b request0 w 0 0 [] [] [].

(** A request of the script [timeout_once], [retry_once] at the start of
    its retry: [on_request] has been called once. *)
Definition retry_state : State :=
  start_state (with_thread (script (Some timeout_once) (Some retry_once)) 1%nat) world0.

(** A server in direct mode whose response time range is -100..0 ms, both
    curves constant at the middle: -50 ms. *)
Definition negative_range : Server Value :=
  Server.SetBehavior
    (mkServerBehavior 0 (-100) 0 (Errors defaultBehavior)
       [mkPoint 0 0.5 Curve.Curve; mkPoint 1 0.5 Curve.Curve]
       [mkPoint 0 0.5 Curve.Curve; mkPoint 1 0.5 Curve.Curve]
       false (bResourceSettings defaultBehavior))
    (started (NewServer Value)).

(** A running simulation with one group. *)
Definition running_example : Simulation :=
  mkSimulation true [mkClientConfig "g1" 10 100000000 0 0 ""].

End Examples.

(** ** The vocabulary of the statements *)

Module Properties.

Import Go Curve Metrics Server Network Starlark Client.

Local Open Scope Z_scope.

(** *** Metrics *)

(** The percentile index in the words of the specification:
    floor(n * p), for p a number of hundredths, clamped to n - 1. *)
Definition floor_index (n hundredths : Z) : Z := Z.min (n * hundredths / 100) (n - 1).

(** The indices the code computes in floating point agree with
    [floor_index] at window length [n]. *)
Definition index_ok (n : Z) : bool :=
  (percentile_index n 0.5 =? floor_index n 50)
  && (percentile_index n 0.8 =? floor_index n 80)
  && (percentile_index n 0.95 =? floor_index n 95).

(** [index_ok] at the [k] lengths from [n] on. *)
Fixpoint all_from (k : nat) (n : Z) : bool :=
  match k with
  | O => true
  | S k' => if index_ok n then all_from k' (n + 1) else false
  end.

(** What [NewMetrics] sets up and [recordResponseTime] keeps: at most
    100000 response times are held. *)
Definition within_capacity (m : Metrics) : Prop :=
  trackDurationsCount m = 100000
  /\ Z.of_nat (length (ResponseTimes m)) <= 100000.

(** The ten window statistics of a snapshot. *)
Definition window_statistics (s : Snapshot) : list Z :=
  [min_response_time s; max_response_time s; avg_response_time s;
   p50_response_time s; p80_response_time s; p95_response_time s;
   min_request_latency s; max_request_latency s;
   min_response_latency s; max_response_latency s].

(** Snapshots taken one after the other at the given instants: the window
    statistics each returned, and the registry after the last. *)
Definition snapshots (instants : list Z) (m : Metrics) : option (list (list Z) * Metrics) :=
  fold_left
    (fun acc now =>
       match acc with
       | Some (out, m) =>
           match GetSnapshot now m with
           | Some (s, m') => Some ((out ++ [window_statistics s])%list, m')
           | None => None
           end
       | None => None
       end)
    instants (Some ([], m)).

(** *** Server and network *)

(** The two rejections at the door of the managed server, with the text
    of their error. *)
Definition rejects {Meta : Type} (s : Server Meta) (now : Z) (q : QueueOutcome) (msg : string)
  : Prop :=
  ((0.98 <? MemoryUtilization (resourceState s))%float = true
   /\ msg = "server out of memory"%string)
  \/ ((0.98 <? MemoryUtilization (resourceState s))%float = false
      /\ (exists c, Server.ctx s = Some c /\ ctx_done c now = false)
      /\ worker_waiting q = false
      /\ queueCap s <= Z.of_nat (length (requestQueue s))
      /\ msg = "server queue full"%string).

(** What a [Send] gave: ok, error text, error, instant of return and the
    count of server error responses. *)
Definition send_summary (r : option (Response * error * World Value * Z)) :=
  match r with
  | Some (resp, err, w, t) => Some (Ok resp, Error resp, err, t, ServerErrorResponses (metrics w))
  | None => None
  end.

(** The same of a [sendRequest], with the number of [Send]s left in the
    air. *)
Definition request_summary
  (r : option (Response * error * World Value * list (Flight Value) * Z)) :=
  match r with
  | Some (resp, err, w, fl, t) =>
      Some (Ok resp, Error resp, err, t, ServerErrorResponses (metrics w), length fl)
  | None => None
  end.

(** *** Interpreter and client *)



(** The state a pass ends in. *)
Definition state_of {B : Type} (n : @Next B) : State :=
  match n with Return st => st | Again _ _ st => st end.

(** What [handle_outcome] adds to the log and to the counters. *)
Definition outcome_calls (resp : Response) (err : error) : list Call :=
  match err with
  | Some _ => [CallOnFail; CallOnRetry]
  | None => if Ok resp then [CallOnResponse] else [CallOnError; CallOnRetry]
  end.

Definition outcome_count (resp : Response) (err : error) : Metrics -> Metrics :=
  match err with
  | Some _ => network_failed
  | None => if Ok resp then success_response else error_response
  end.

(** The timeout an attempt races [Send] with: the one its own [on_request]
    returned when that is positive, otherwise the one handed over by the
    pass before. *)
Definition timeout_used (timeoutMs carried : Z) : Z :=
  if 0 <? timeoutMs then ms timeoutMs else carried.

(** How a request ended: its calls, the client counters (blocked, sent,
    retried, success, error responses, network failures), the clock and
    the errors logged. *)
Definition run_summary {B : Type} (r : @Run B) :=
  match r with
  | Finished st =>
      let m := metrics (world st) in
      Some (calls st,
            [ClientBlockedRequests m; ClientSentRequests m; ClientRetryRequests m;
             ClientSuccessResponses m; ClientErrorResponses m; NetworkFailedRequests m],
            clock st, logged st)
  | _ => None
  end.

(** *** Binary64 numbers *)

(** A value that is zero, finite or infinite and carries the sign [s]. *)
Definition signed (s : bool) (x : spec_float) : Prop :=
  match x with
  | S754_zero s' | S754_infinity s' | S754_finite s' _ _ => s' = s
  | S754_nan => False
  end.

(** A number that is not negative: a zero, or positive. *)
Definition not_negative (x : spec_float) : Prop :=
  match x with
  | S754_zero _ => True
  | S754_infinity s | S754_finite s _ _ => s = false
  | S754_nan => False
  end.

(** A zero or a finite number. *)
Definition finite (x : spec_float) : Prop :=
  match x with
  | S754_zero _ | S754_finite _ _ _ => True
  | S754_infinity _ | S754_nan => False
  end.

End Properties.

(** ** simulation.go: lookups and the start of the clients *)

Module Groups.

Import Go Simulation.

(** [ClientConfig{}]. *)
Definition zeroClientConfig : ClientConfig := mkClientConfig "" 0 0 0 0 "".

(** The loop of [GetClientConfigById]: the first configuration with this
    id. *)
Fixpoint first_with (id : string) (l : list ClientConfig) : option ClientConfig :=
  match l with
  | [] => None
  | cfg :: l' => if String.eqb (Id cfg) id then Some cfg else first_with id l'
  end.

(** [GetClientConfigs]. *)
Definition GetClientConfigs (s : Simulation) : list ClientConfig := clientsConfigs s.

(** [GetClientConfigById]. *)
Definition GetClientConfigById (id : string) (s : Simulation) : ClientConfig * error :=
  match first_with id (clientsConfigs s) with
  | Some cfg => (cfg, None)
  | None => (zeroClientConfig, Some (not_found id))
  end.

(** Integer division of two int64: a run-time panic when the divisor is
    zero; the quotient truncates toward zero. *)
Definition div64 (a b : Z) : option Z :=
  if (b =? 0)%Z then None else Some (wrap64 (Z.quot a b)).

(** The step between two clients of a group in [run]: zero without ramp-up
    time, else [RampUpTime / Count]. *)
Definition rampDelay (config : ClientConfig) : option Z :=
  if (RampUpTime config <=? 0)%Z then Some 0%Z
  else div64 (RampUpTime config) (Count config).

(** [time.Duration(float64(delay) * jitterPercent * (rand.Float64()*2 - 1))]
    for the draw [u]. *)
Definition jitter (delay : Z) (u : float) : Z :=
  int64_of_float (float_of_int delay * 0.5 * (u * 2 - 1))%float.

(** [config.Delay + delay*time.Duration(clientIndex) + jitter]. *)
Definition actualDelay (config : ClientConfig) (delay clientIndex : Z) (u : float) : Z :=
  wrap64 (wrap64 (Delay config + wrap64 (delay * clientIndex)) + jitter delay u).

(** The delays [run] hands to [startClientIn] for one group, client by
    client, given the draw of each; [None] is the panic of the division. *)
Definition startDelays (config : ClientConfig) (draws : Z -> float) : option (list Z) :=
  match rampDelay config with
  | None => None
  | Some delay =>
      Some (map (fun k => actualDelay config delay (Z.of_nat k) (draws (Z.of_nat k)))
              (seq 0 (Z.to_nat (Count config))))
  end.

End Groups.

(** ** dashboard.go, dto.go: the configuration as the API carries it *)

Module Dashboard.

Import Go Curve Server Network Simulation Groups.

Record ClientConfigJSON := mkClientConfigJSON {
  jId : string;
  jCount : Z;
  jRequestRate : Z;
  jRampUpTime : Z;
  jDelay : Z;
  jBehavior : string
}.

(** [ClientConfigJSON{}]. *)
Definition zeroClientConfigJSON : ClientConfigJSON := mkClientConfigJSON "" 0 0 0 0 "".

(** [time.Duration(n) * time.Millisecond]. *)
Definition millis (n : Z) : Z := wrap64 (n * Millisecond).

(** The DTO of a configuration: each duration as [int(d / time.Millisecond)]. *)
Definition ClientConfigToJSON (config : ClientConfig) : ClientConfigJSON :=
  mkClientConfigJSON (Id config) (Count config)
    (Z.quot (RequestRate config) Millisecond)
    (Z.quot (RampUpTime config) Millisecond)
    (Z.quot (Delay config) Millisecond)
    (Behavior config).

Definition no_simulation : string := "Simulation does not exist".

(** The methods of [Dashboard] on its simulation, [None] while there is
    none.  (The notifications they broadcast are left out.) *)

(** [GetClientConfigs]. *)
Definition GetClientConfigs (d : option Simulation) : list ClientConfigJSON :=
  match d with
  | None => []
  | Some s => map ClientConfigToJSON (Groups.GetClientConfigs s)
  end.

(** [AddClientConfig]. *)
Definition AddClientConfig (config : ClientConfigJSON) (d : option Simulation)
  : error * option Simulation :=
  match d with
  | None => (Some no_simulation, None)
  | Some s =>
      let '(err, s') :=
        AddClientsConfig (jId config) (jCount config) (millis (jRequestRate config))
          (millis (jRampUpTime config)) (millis (jDelay config)) (jBehavior config) s in
      (err, Some s')
  end.

(** [ClearClientConfigs]. *)
Definition ClearClientConfigs (d : option Simulation) : error * option Simulation :=
  match d with
  | None => (Some no_simulation, None)
  | Some s => let '(err, s') := Simulation.ClearClientConfigs s in (err, Some s')
  end.

(** [DeleteClientConfigById]. *)
Definition DeleteClientConfigById (id : string) (d : option Simulation)
  : error * option Simulation :=
  match d with
  | None => (Some no_simulation, None)
  | Some s => let '(err, s') := Simulation.DeleteClientConfigById id s in (err, Some s')
  end.

(** [GetClientConfigById]. *)
Definition GetClientConfigById (id : string) (d : option Simulation) : ClientConfigJSON * error :=
  match d with
  | None => (zeroClientConfigJSON, Some no_simulation)
  | Some s =>
      match Groups.GetClientConfigById id s with
      | (_, Some e) => (zeroClientConfigJSON, Some e)
      | (config, None) => (ClientConfigToJSON config, None)
      end
  end.

(** [UpdateClientConfig]. *)
Definition UpdateClientConfig (id : string) (config : ClientConfigJSON) (d : option Simulation)
  : error * option Simulation :=
  match d with
  | None => (Some no_simulation, None)
  | Some s =>
      let '(err, s') :=
        Simulation.UpdateClientConfig id (jCount config) (millis (jRequestRate config))
          (millis (jRampUpTime config)) (millis (jDelay config)) (jBehavior config) s in
      (err, Some s')
  end.

(** *** dto.go *)

Record BehaviorPointJSON := mkPointJSON { jx : float; jy : float; jtype : string }.

(** [BehaviorPointType.String], on the two types there are. *)
Definition type_String (t : BehaviorPointType) : string :=
  match t with Curve => "curve" | Break => "break" end.

Definition BehaviorPointToJSON (ep : BehaviorPoint) : BehaviorPointJSON :=
  mkPointJSON (X ep) (Y ep) (type_String (Type_ ep)).

(** [BehaviorPointFromJSON]: any type but ["break"] is read as a curve. *)
Definition BehaviorPointFromJSON (epj : BehaviorPointJSON) : BehaviorPoint :=
  let pt :=
    if String.eqb (jtype epj) "curve" then Curve
    else if String.eqb (jtype epj) "break" then Break
    else Curve in
  mkPoint (jx epj) (jy epj) pt.

(** [GenericMap]. *)
Definition GenericMap {S D : Type} (slice : list S) (fn : S -> D) : list D := map fn slice.

Record ServerResourcesJSON := mkServerResourcesJSON {
  jMaxConcurrentRequests : Z;
  jMaxMemoryMB : Z;
  jMaxQueueSize : Z;
  jMemoryLeakRateMBPerSec : float;
  jMemoryPerRequestMB : float;
  jGCPauseIntervalSec : float;
  jGCPauseDurationMs : float
}.

Record ServerBehaviorJSON := mkServerBehaviorJSON {
  jTo : Z;
  jResponseTimeFrom : Z;
  jResponseTimeTo : Z;
  jReponseTimeMin : list BehaviorPointJSON;
  jReponseTimeMax : list BehaviorPointJSON;
  jErrors : list BehaviorPointJSON;
  jEnableResourceManagement : bool;
  jResources : ServerResourcesJSON
}.

Record NetworkBehaviorJSON := mkNetworkBehaviorJSON {
  jnTo : Z;
  jLatencyFrom : Z;
  jLatencyTo : Z;
  jDropRate : list BehaviorPointJSON;
  jLatencyMin : list BehaviorPointJSON;
  jLatencyMax : list BehaviorPointJSON
}.

Definition NetworkBehaviorToJSON (nb : NetworkBehavior) : NetworkBehaviorJSON :=
  mkNetworkBehaviorJSON (nTo nb) (LatencyFrom nb) (LatencyTo nb)
    (GenericMap (DropRate nb) BehaviorPointToJSON)
    (GenericMap (LatencyMin nb) BehaviorPointToJSON)
    (GenericMap (LatencyMax nb) BehaviorPointToJSON).

Definition NetworkBehaviorFromJSON (nbj : NetworkBehaviorJSON) : NetworkBehavior :=
  mkNetworkBehavior (jnTo nbj) (jLatencyFrom nbj) (jLatencyTo nbj)
    (GenericMap (jDropRate nbj) BehaviorPointFromJSON)
    (GenericMap (jLatencyMin nbj) BehaviorPointFromJSON)
    (GenericMap (jLatencyMax nbj) BehaviorPointFromJSON).

Definition ServerBehaviorToJSON (sb : ServerBehavior) : ServerBehaviorJSON :=
  mkServerBehaviorJSON (To sb) (ResponseTimeFrom sb) (ResponseTimeTo sb)
    (GenericMap (ResponseTimeMin sb) BehaviorPointToJSON)
    (GenericMap (ResponseTimeMax sb) BehaviorPointToJSON)
    (GenericMap (Errors sb) BehaviorPointToJSON)
    (EnableResourceManagement sb)
    (let r := bResourceSettings sb in
     mkServerResourcesJSON (MaxConcurrentRequests r) (MaxMemoryMB r) (MaxQueueSize r)
       (MemoryLeakRateMBPerSec r) (MemoryPerRequestMB r) (GCPauseIntervalSec r)
       (GCPauseDurationMs r)).

Definition ServerBehaviorFromJSON (sbj : ServerBehaviorJSON) : ServerBehavior :=
  mkServerBehavior (jTo sbj) (jResponseTimeFrom sbj) (jResponseTimeTo sbj)
    (GenericMap (jErrors sbj) BehaviorPointFromJSON)
    (GenericMap (jReponseTimeMin sbj) BehaviorPointFromJSON)
    (GenericMap (jReponseTimeMax sbj) BehaviorPointFromJSON)
    (jEnableResourceManagement sbj)
    (let r := jResources sbj in
     mkResourceSettings (jMaxConcurrentRequests r) (jMaxMemoryMB r) (jMaxQueueSize r)
       (jMemoryLeakRateMBPerSec r) (jMemoryPerRequestMB r) (jGCPauseIntervalSec r)
       (jGCPauseDurationMs r)).

End Dashboard.

Module Ranges.

Import Go Simulation Dashboard.

Local Open Scope Z_scope.

(** A number of milliseconds that fits a [time.Duration] (int64
    nanoseconds). *)
Definition fits_duration (n : Z) : Prop := - 9223372036854 <= n <= 9223372036854.

(** A DTO whose three durations fit. *)
Definition fits (c : ClientConfigJSON) : Prop :=
  fits_duration (jRequestRate c) /\ fits_duration (jRampUpTime c) /\ fits_duration (jDelay c).

End Ranges.

Module Windows.

Import Go Metrics.

Local Open Scope Z_scope.

(** The three sliding windows hold at most 100000 entries each. *)
Definition windows_within_capacity (m : Metrics) : Prop :=
  trackDurationsCount m = 100000
  /\ Z.of_nat (length (ResponseTimes m)) <= 100000
  /\ Z.of_nat (length (RequestLatencies m)) <= 100000
  /\ Z.of_nat (length (ResponseLatencies m)) <= 100000.

(** The nine event counters and the latest resource state. *)
Definition counters (m : Metrics) :=
  ([ClientBlockedRequests m; ClientSentRequests m; ClientRetryRequests m;
    ClientSuccessResponses m; ClientErrorResponses m; NetworkFailedRequests m;
    ServerReceivedRequests m; ServerSuccessResponses m; ServerErrorResponses m],
   latestResourceState m).

(** A window after the recording of the entry [e]: [e] is appended, and
    when the window was full its oldest entry is dropped. *)
Definition pushed (cap : Z) (w : list timedDuration) (e : timedDuration) : list timedDuration :=
  if Z.of_nat (length w) <? cap then w ++ [e] else tl w ++ [e].

(** What a recomputation at instant [now] leaves of a window [before]:
    the entries not older than a second, in their order, with [mn] and
    [mx] the least and the greatest duration among them, both zero when
    none is left. *)
Definition window_bounds (before after : list timedDuration) (now mn mx : Z) : Prop :=
  after = filter (fun tr => now - Second <=? timestamp tr) before
  /\ (forall tr, In tr after -> mn <= duration tr <= mx)
  /\ (after <> [] -> In mn (map duration after) /\ In mx (map duration after))
  /\ (after = [] -> mn = 0 /\ mx = 0).

(** The sum of the durations of a window. *)
Definition total (w : list timedDuration) : Z := fold_right Z.add 0 (map duration w).

End Windows.

(** ** server.go: the behavior accessors and the queue times *)

Module ServerRuntime.

Import Go Curve Metrics Server.

Section WithMeta.

Variable Meta : Type.

(** [GetBehavior]. *)
Definition GetBehavior (s : Server Meta) : ServerBehavior := Server.behavior s.

(** [ResetBehavior]: [s.SetBehavior(s.GetBehavior())]. *)
Definition ResetBehavior (s : Server Meta) : Server Meta := Server.SetBehavior (GetBehavior s) s.

(** [updateQueueMetrics]: the queue time joins the last hundred, the
    maximum and the average of the resource state follow. *)
Definition updateQueueMetrics (queueTimeMs : float) (s : Server Meta) : Server Meta :=
  let qt := queueTimes s ++ [queueTimeMs] in
  let qt := if (100 <? length qt)%nat then skipn 1 qt else qt in
  let st := resourceState s in
  let mx :=
    if (MaxQueueTimeMs st <? queueTimeMs)%float then queueTimeMs else MaxQueueTimeMs st in
  let avg :=
    if (0 <? length qt)%nat
    then (fold_left (fun sum t => sum + t) qt 0 / float_of_int (Z.of_nat (length qt)))%float
    else AverageQueueTimeMs st in
  mkServer (Server.behavior s) (behaviorStartTime s) (getErrorRate s) (getResponseTimeMin s)
    (getResponseTimeMax s) (resourceSettings s)
    (mkResourceState (ActiveRequests st) (CurrentMemoryMB st) (CPUUtilization st)
       (MemoryUtilization st) (QueueUtilization st) (ThreadsUtilization st) avg mx)
    (lastGCTime s) (requestQueue s) (queueCap s) (queueMade s) qt (Server.ctx s)
    (Server.running s).

End WithMeta.

End ServerRuntime.

Module Invariants.

Import Go Metrics Server Network.

Local Open Scope Z_scope.


(** Everything of a server that a tick of the resource manager leaves
    alone. *)
Definition configuration {Meta : Type} (s : Server Meta) :=
  (Server.behavior s, behaviorStartTime s, resourceSettings s, requestQueue s, queueCap s,
   queueMade s, queueTimes s, Server.ctx s, Server.running s, ActiveRequests (resourceState s),
   AverageQueueTimeMs (resourceState s), MaxQueueTimeMs (resourceState s)).

(** The server's books balance: every request received was answered with
    a success or an error (all three counters wrap at 64 bits). *)
Definition server_balanced (m : Metrics) : Prop :=
  ServerReceivedRequests m = wrap64 (ServerSuccessResponses m + ServerErrorResponses m).

(** The clients' books balance: every request sent ended as a success
    response, an error response or a network failure. *)
Definition client_balanced (m : Metrics) : Prop :=
  ClientSentRequests m
  = wrap64 (ClientSuccessResponses m + ClientErrorResponses m + NetworkFailedRequests m).

(** The six counters the clients keep and the three the network keeps for
    the server. *)
Definition client_counters (m : Metrics) :=
  (ClientBlockedRequests m, ClientSentRequests m, ClientRetryRequests m,
   ClientSuccessResponses m, ClientErrorResponses m, NetworkFailedRequests m).

Definition server_counters (m : Metrics) :=
  (ServerReceivedRequests m, ServerSuccessResponses m, ServerErrorResponses m).

(** What one [Send] does to the server's counters: nothing when the request
    did not arrive; else one request received and one answer, a success or
    an error. *)
Definition served (before after : Metrics) : Prop :=
  ServerReceivedRequests after = incr (ServerReceivedRequests before)
  /\ (ServerSuccessResponses after = incr (ServerSuccessResponses before)
       /\ ServerErrorResponses after = ServerErrorResponses before
      \/ ServerSuccessResponses after = ServerSuccessResponses before
         /\ ServerErrorResponses after = incr (ServerErrorResponses before)).

End Invariants.

Module Attempts.

Import Go Metrics Server Network Starlark Client.

Local Open Scope Z_scope.

(** The books of one attempt: one more request sent (and one more retry
    when it is one), no more blocked, and one more of exactly one of the
    three endings. *)
Definition one_attempt (isRetry : bool) (m m' : Metrics) : Prop :=
  ClientBlockedRequests m' = ClientBlockedRequests m
  /\ ClientSentRequests m' = incr (ClientSentRequests m)
  /\ ClientRetryRequests m'
     = (if isRetry then incr (ClientRetryRequests m) else ClientRetryRequests m)
  /\ (ClientSuccessResponses m' = incr (ClientSuccessResponses m)
      /\ ClientErrorResponses m' = ClientErrorResponses m
      /\ NetworkFailedRequests m' = NetworkFailedRequests m
      \/ ClientSuccessResponses m' = ClientSuccessResponses m
         /\ ClientErrorResponses m' = incr (ClientErrorResponses m)
         /\ NetworkFailedRequests m' = NetworkFailedRequests m
      \/ ClientSuccessResponses m' = ClientSuccessResponses m
         /\ ClientErrorResponses m' = ClientErrorResponses m
         /\ NetworkFailedRequests m' = incr (NetworkFailedRequests m)).

(** Two requests that differ at most in their meta. *)
Definition same_identity (req req' : Request) : Prop :=
  reqId req' = reqId req /\ ClientId req' = ClientId req
  /\ reqData req' = reqData req /\ reqTimestamp req' = reqTimestamp req.

(** A behavior whose hooks hand the request back with its identity. *)
Definition hooks_keep_identity {B : Type} (HB : ClientBehavior B) : Prop :=
  (forall b req, same_identity req (snd (OnRequest b req)))
  /\ (forall b req resp, same_identity req (snd (OnResponse b req resp)))
  /\ (forall b req resp, same_identity req (snd (OnError b req resp)))
  /\ (forall b req e, same_identity req (snd (OnFail b req e)))
  /\ (forall b req resp e, same_identity req (snd (OnRetry b req resp e))).

End Attempts.

(** ** metrics.go: the active clients of each group *)

Module ActiveClients.

Import Go.

(** [ActiveClientsByGroup map[string]int64]: the groups that were ever
    counted, each with its count. *)
Definition ActiveClientsByGroup := list (string * Z).

(** [m[groupId]]: zero for a group the map does not hold. *)
Fixpoint get (groupId : string) (m : ActiveClientsByGroup) : Z :=
  match m with
  | [] => 0%Z
  | (g, n) :: m' => if String.eqb g groupId then n else get groupId m'
  end.

(** [m[groupId] += delta]: the entry is made when the group is new. *)
Fixpoint add (groupId : string) (delta : Z) (m : ActiveClientsByGroup) : ActiveClientsByGroup :=
  match m with
  | [] => [(groupId, wrap64 (0 + delta))]
  | (g, n) :: m' =>
      if String.eqb g groupId then (g, wrap64 (n + delta)) :: m'
      else (g, n) :: add groupId delta m'
  end.

(** [AddActiveClient]: [m.ActiveClientsByGroup[groupId]++]. *)
Definition AddActiveClient (groupId : string) (m : ActiveClientsByGroup) : ActiveClientsByGroup :=
  add groupId 1 m.

(** [RemoveActiveClient]: [m.ActiveClientsByGroup[groupId]--]. *)
Definition RemoveActiveClient (groupId : string) (m : ActiveClientsByGroup)
  : ActiveClientsByGroup :=
  add groupId (-1) m.

(** The groups a snapshot lists. *)
Definition groups (m : ActiveClientsByGroup) : list string := map fst m.

End ActiveClients.

(** ** The [Send]s in the air *)

Module Flights.

Import Go Metrics Server Network Starlark Client.

Local Open Scope Z_scope.

(** What [SleepWithContext] can return: nil or the error of the context. *)
Definition slept_ok (e : error) : Prop := e = None \/ e = Some ctx_Err.



(** The turn of the [Send] the [select] of [sendRequest] waits for, in the
    loop of [await]. *)
Definition my_turn (math_Pow : float -> float -> float) (fuel : nat)
  (giveup : option (Z * string)) (mine : Flight Value) (others : list (Flight Value))
  (w : World Value) :=
  if in_time giveup (due mine) then
    match step math_Pow mine w with
    | None => None
    | Some (Flying mine', w') => await math_Pow fuel giveup mine' others w'
    | Some (Landed resp err, w') => Some (resp, err, w', others, due mine)
    end
  else
    match giveup with
    | Some (g, e) => Some (zeroResponse, Some e, w, (others ++ [mine])%list, g)
    | None => None
    end.

End Flights.

(** * Theorems *)

Unset Implicit Arguments.

(** ** The curve evaluator *)

Module CurveFacts.

Import Go Curve Examples.

(** A segment with a break at either end is evaluated by linear
    interpolation on [y]: the value at [prev] plus the share [t] of the
    rise to [curr], carried to the range of y. *)
Lemma eval_segment_break :
  forall (minY maxY : float) (points : list BehaviorPoint) (i : nat) (nx : float)
         (prev curr : BehaviorPoint),
    nth_error points (i - 1) = Some prev ->
    nth_error points i = Some curr ->
    (X curr - X prev =? 0)%float = false ->
    Type_ prev = Break \/ Type_ curr = Break ->
    eval_segment minY maxY points i nx
    = Some (minY
            + (Y prev + (nx - X prev) / (X curr - X prev) * (Y curr - Y prev))
              * (maxY - minY))%float.
Proof.
  intros minY maxY points i nx prev curr Hp Hc Hdx Hb.
  unfold eval_segment. rewrite Hp, Hc, Hdx.
  assert (Hor : is_break (Type_ prev) || is_break (Type_ curr) = true).
  { destruct Hb as [-> | ->]; [reflexivity | apply orb_true_r]. }
  rewrite Hor. reflexivity.
Qed.

(** C6. Over the bounds (0, 1000, 0, 1000) the curve through the two break
    points (0,0) and (1,1) takes the value 500 at 500, exactly.  It does so
    because every segment with a break at either end is evaluated by linear
    interpolation on [y]: at the share t = (nx - prev.X) / (curr.X - prev.X)
    of the segment the value is prev.Y + t * (curr.Y - prev.Y), carried to
    the range of y.  So the segment from (0, 0.25) to (1, 0.75) gives 375 at
    250 (t = 0.25), and so does the segment from (0, 0.25) to (0.5, 0.75) at
    125 with a break at one of its ends, where the cubic between curve
    points gives 386.71875. *)
Theorem curve_diagonal_500 :
  CurveFunction 0 1000 0 1000 diagonal 500 = Some 500%float
  /\ (forall (minY maxY : float) (points : list BehaviorPoint) (i : nat) (nx : float)
             (prev curr : BehaviorPoint),
        nth_error points (i - 1) = Some prev ->
        nth_error points i = Some curr ->
        (X curr - X prev =? 0)%float = false ->
        Type_ prev = Break \/ Type_ curr = Break ->
        eval_segment minY maxY points i nx
        = Some (minY
                + (Y prev + (nx - X prev) / (X curr - X prev) * (Y curr - Y prev))
                  * (maxY - minY))%float)
  /\ CurveFunction 0 1000 0 1000 [mkPoint 0 0.25 Break; mkPoint 1 0.75 Break] 250
     = Some 375%float
  /\ CurveFunction 0 1000 0 1000
       [mkPoint 0 0.25 Break; mkPoint 0.5 0.75 Curve; mkPoint 1 0.75 Curve] 125
     = Some 375%float
  /\ CurveFunction 0 1000 0 1000
       [mkPoint 0 0.25 Curve; mkPoint 0.5 0.75 Break; mkPoint 1 0.75 Curve] 125
     = Some 375%float
  /\ CurveFunction 0 1000 0 1000
       [mkPoint 0 0.25 Curve; mkPoint 0.5 0.75 Curve; mkPoint 1 0.75 Curve] 125
     = Some 386.71875%float.
Proof.
  split; [vm_compute; reflexivity|].
  split; [exact eval_segment_break|].
  repeat split; vm_compute; reflexivity.
Qed.

(** The general part at the first segment of a three-point curve over the
    range 0..10: at 0.25, half way up the segment from (0, 0.5) to the
    break (0.5, 1), the value is 0.75 of the range. *)
Lemma curve_diagonal_500_witness :
  eval_segment 0 10 [mkPoint 0 0.5 Curve; mkPoint 0.5 1 Break; mkPoint 1 0 Curve] 1 0.25
  = Some 7.5%float.
Proof.
  rewrite (proj1 (proj2 curve_diagonal_500) 0%float 10%float
             [mkPoint 0 0.5 Curve; mkPoint 0.5 1 Break; mkPoint 1 0 Curve] 1%nat 0.25%float
             (mkPoint 0 0.5 Curve) (mkPoint 0.5 1 Break));
    [vm_compute; reflexivity | reflexivity | reflexivity | reflexivity | right; reflexivity].
Defined.

(** Between two curve points the same input goes through the cubic. *)
Example curve_cubic_500 :
  CurveFunction 0 1000 0 1000 [mkPoint 0 0 Curve; mkPoint 1 1 Curve] 500 = Some 500%float.
Proof. vm_compute. reflexivity. Qed.

End CurveFacts.

(** ** Client configurations are frozen while the simulation runs *)

Module SimulationFacts.

Import Go Simulation Examples.

(** C8. While the simulation is running, [UpdateClientConfig],
    [AddClientsConfig], [DeleteClientConfigById] and [ClearClientConfigs]
    each return an error and leave the simulation, and so the stored list of
    client configurations, as it was. *)
Theorem mutation_rejected_while_running :
  forall (s : Simulation) (id : string) (count requestRate rampUpTime delay : Z)
         (behavior : string),
    running s = true ->
    (exists e, UpdateClientConfig id count requestRate rampUpTime delay behavior s = (Some e, s))
    /\ (exists e, AddClientsConfig id count requestRate rampUpTime delay behavior s = (Some e, s))
    /\ (exists e, DeleteClientConfigById id s = (Some e, s))
    /\ (exists e, ClearClientConfigs s = (Some e, s)).
Proof.
  intros s id count requestRate rampUpTime delay behavior Hrun.
  unfold UpdateClientConfig, AddClientsConfig, DeleteClientConfigById, ClearClientConfigs.
  rewrite Hrun.
  repeat split; eexists; reflexivity.
Qed.

Lemma mutation_rejected_while_running_witness :
  running running_example = true
  /\ (exists e, DeleteClientConfigById "g1" running_example = (Some e, running_example)).
Proof.
  split; [reflexivity|].
  exact (proj1 (proj2 (proj2
    (mutation_rejected_while_running running_example "g1" 1 1 1 1 "" eq_refl)))).
Defined.

(** When the simulation is stopped the same calls go through. *)
Example mutation_accepted_when_stopped :
  DeleteClientConfigById "g1" (mkSimulation false (clientsConfigs running_example))
  = (None, mkSimulation false [])
  /\ AddClientsConfig "g2" 1 2 3 4 "" (mkSimulation false [])
     = (None, mkSimulation false [mkClientConfig "g2" 1 2 3 4 ""]).
Proof. split; reflexivity. Qed.

End SimulationFacts.
(** ** The metrics registry *)

Module MetricsFacts.

Import Go Metrics Examples Properties.

Local Open Scope Z_scope.

(** *** The sorted copy *)

Lemma sort_strongly_sorted (l : list Z) : StronglySorted Z.le (ZSort.sort l).
Proof.
  assert (H : StronglySorted (fun x y => is_true (x <=? y)) (ZSort.sort l)).
  { apply Sorted_StronglySorted.
    - intros x y z Hxy Hyz. unfold is_true in *. apply Z.leb_le. apply Z.leb_le in Hxy, Hyz. lia.
    - apply ZSort.Sorted_sort. }
  induction H as [|a l' Hs IH Hall]; constructor; [exact IH|].
  eapply Forall_impl; [|exact Hall]. intros b Hb. apply Z.leb_le. exact Hb.
Qed.

Lemma strongly_sorted_nth (l : list Z) :
  StronglySorted Z.le l ->
  forall i j : nat, (i <= j)%nat -> (j < length l)%nat -> nth i l 0 <= nth j l 0.
Proof.
  induction 1 as [|a l Hs IH Hall]; intros i j Hij Hj; simpl in Hj; [lia|].
  destruct i as [|i], j as [|j]; simpl; try lia.
  - rewrite Forall_forall in Hall. apply Hall. apply nth_In. lia.
  - apply IH; lia.
Qed.

Lemma sort_length (l : list Z) : length (ZSort.sort l) = length l.
Proof. symmetry. apply Permutation_length. apply ZSort.Permuted_sort. Qed.

Lemma sort_nth_in (l : list Z) (i : nat) :
  (i < length l)%nat -> In (nth i (ZSort.sort l) 0) l.
Proof.
  intros Hi. eapply Permutation_in.
  - apply Permutation_sym. apply ZSort.Permuted_sort.
  - apply nth_In. rewrite sort_length. exact Hi.
Qed.

(** *** The running minimum and maximum *)

Lemma window_min_spec (w : list timedDuration) (first : Z) :
  window_min first w <= first
  /\ forall tr, In tr w -> window_min first w <= duration tr.
Proof.
  unfold window_min. revert first.
  induction w as [|a w IH]; intros first; simpl; [split; [lia | tauto]|].
  destruct (IH (if duration a <? first then duration a else first)) as [H1 H2].
  destruct (Z.ltb_spec (duration a) first); split; try lia;
    intros tr [<- | Hin]; try lia; apply H2; exact Hin.
Qed.

Lemma window_max_spec (w : list timedDuration) (first : Z) :
  first <= window_max first w
  /\ forall tr, In tr w -> duration tr <= window_max first w.
Proof.
  unfold window_max. revert first.
  induction w as [|a w IH]; intros first; simpl; [split; [lia | tauto]|].
  destruct (IH (if first <? duration a then duration a else first)) as [H1 H2].
  destruct (Z.ltb_spec first (duration a)); split; try lia;
    intros tr [<- | Hin]; try lia; apply H2; exact Hin.
Qed.

(** *** The percentile indices, checked for every window length the
    registry can hold *)

Lemma all_from_spec (k : nat) :
  forall n, all_from k n = true ->
  forall i, n <= i < n + Z.of_nat k -> index_ok i = true.
Proof.
  induction k as [|k IH]; intros n H i Hi; [lia|].
  simpl in H. destruct (index_ok n) eqn:Hn; [|discriminate].
  destruct (Z.eq_dec i n) as [-> | Hne]; [exact Hn|].
  apply (IH (n + 1) H). lia.
Qed.

Lemma index_table : all_from (Z.to_nat 100000) 1 = true.
Proof. vm_cast_no_check (eq_refl true). Qed.

Lemma percentile_index_floor (n : Z) :
  1 <= n <= 100000 ->
  percentile_index n 0.5 = floor_index n 50
  /\ percentile_index n 0.8 = floor_index n 80
  /\ percentile_index n 0.95 = floor_index n 95.
Proof.
  intros Hn.
  assert (H : index_ok n = true).
  { apply (all_from_spec (Z.to_nat 100000) 1 index_table). lia. }
  unfold index_ok in H. apply andb_prop in H. destruct H as [H H95].
  apply andb_prop in H. destruct H as [H50 H80].
  apply Z.eqb_eq in H50, H80, H95. auto.
Qed.

Lemma floor_index_bounds (n : Z) :
  1 <= n ->
  0 <= floor_index n 50
  /\ floor_index n 50 <= floor_index n 80
  /\ floor_index n 80 <= floor_index n 95
  /\ floor_index n 95 < n.
Proof.
  intros Hn. unfold floor_index.
  pose proof (Z.div_le_mono (n * 50) (n * 80) 100 ltac:(lia) ltac:(lia)).
  pose proof (Z.div_le_mono (n * 80) (n * 95) 100 ltac:(lia) ltac:(lia)).
  pose proof (Z.div_pos (n * 50) 100 ltac:(lia) ltac:(lia)).
  lia.
Qed.

Lemma index_nth (times : list Z) (idx : Z) :
  0 <= idx < Z.of_nat (length times) ->
  index times idx = Some (nth (Z.to_nat idx) times 0).
Proof.
  intros H. unfold index. destruct (Z.ltb_spec idx 0); [lia|].
  apply nth_error_nth'. lia.
Qed.

(** *** The capacity of the window *)

Lemma NewMetrics_within_capacity : within_capacity NewMetrics.
Proof. split; [reflexivity | simpl; lia]. Qed.

Lemma push_capped_length (cap : Z) (w : list timedDuration) (e : timedDuration) :
  0 <= cap -> Z.of_nat (length w) <= cap -> Z.of_nat (length (push_capped cap w e)) <= cap.
Proof.
  intros Hcap Hw. unfold push_capped.
  destruct (Z.ltb_spec cap (Z.of_nat (length (w ++ [e])))) as [Hlt | Hge]; [|exact Hge].
  rewrite length_skipn. lia.
Qed.

Lemma recordResponseTime_within_capacity (now d : Z) (m : Metrics) :
  within_capacity m -> within_capacity (recordResponseTime now d m).
Proof.
  intros [Hc Hl]. split; [exact Hc|]. simpl. rewrite Hc.
  apply push_capped_length; lia.
Qed.

Lemma prune_length (now : Z) (w : list timedDuration) :
  (length (prune now w) <= length w)%nat.
Proof. apply filter_length_le. Qed.

Lemma prune_in_window (now : Z) (w : list timedDuration) (tr : timedDuration) :
  In tr (prune now w) <-> In tr w /\ now - 1 * Second <= timestamp tr.
Proof.
  unfold prune. rewrite filter_In. unfold in_window. rewrite Z.leb_le. tauto.
Qed.

(** C7. Whenever the pruned one-second window of response times is not
    empty, [calculateSlidingWindowMetrics] returns, and the statistics it
    stores satisfy min <= p50 <= p80 <= p95 <= max, each percentile being
    the entry at index floor(n * p), clamped to n - 1, of the ascending
    sorted copy of the window. *)
Theorem window_percentiles_ordered :
  forall (m : Metrics) (now : Z),
    within_capacity m ->
    prune now (ResponseTimes m) <> [] ->
    exists m',
      calculateSlidingWindowMetrics now m = Some m'
      /\ ResponseTimes m' = prune now (ResponseTimes m)
      /\ (let n := Z.of_nat (length (ResponseTimes m')) in
          let sorted := ZSort.sort (map duration (ResponseTimes m')) in
          P50ResponseTime m' = nth (Z.to_nat (floor_index n 50)) sorted 0
          /\ P80ResponseTime m' = nth (Z.to_nat (floor_index n 80)) sorted 0
          /\ P95ResponseTime m' = nth (Z.to_nat (floor_index n 95)) sorted 0)
      /\ MinResponseTime m' <= P50ResponseTime m'
      /\ P50ResponseTime m' <= P80ResponseTime m'
      /\ P80ResponseTime m' <= P95ResponseTime m'
      /\ P95ResponseTime m' <= MaxResponseTime m'.
Proof.
  intros m now [Hcap Hlen] Hne.
  unfold calculateSlidingWindowMetrics.
  pose proof (prune_length now (ResponseTimes m)) as Hpl.
  destruct (prune now (ResponseTimes m)) as [|first rest] eqn:Hw; [congruence|].
  set (w := first :: rest) in *.
  set (n := Z.of_nat (length w)).
  assert (Hn : 1 <= n <= 100000).
  { subst n w. cbn [length] in *. lia. }
  destruct (percentile_index_floor n Hn) as (H50 & H80 & H95).
  rewrite H50, H80, H95.
  set (sorted := ZSort.sort (map duration w)).
  assert (Hsl : Z.of_nat (length sorted) = n).
  { unfold sorted. rewrite sort_length, length_map. reflexivity. }
  pose proof (floor_index_bounds n (proj1 Hn)) as (B50 & B5080 & B8095 & B95).
  rewrite !index_nth by lia.
  eexists. split; [reflexivity|]. simpl.
  split; [reflexivity|].
  split; [repeat split|].
  assert (Hin : forall i, 0 <= i < n ->
            In (nth (Z.to_nat i) sorted 0) (map duration w)).
  { intros i Hi. apply sort_nth_in. rewrite length_map. unfold n in Hi. lia. }
  assert (Hmono : forall i j, 0 <= i <= j -> j < n ->
            nth (Z.to_nat i) sorted 0 <= nth (Z.to_nat j) sorted 0).
  { intros i j Hij Hj. apply strongly_sorted_nth; [apply sort_strongly_sorted | lia | lia]. }
  repeat split.
  - destruct (proj1 (in_map_iff _ _ _) (Hin (floor_index n 50) ltac:(lia))) as (tr & <- & Htr).
    apply (proj2 (window_min_spec w (duration first))). exact Htr.
  - apply Hmono; lia.
  - apply Hmono; lia.
  - destruct (proj1 (in_map_iff _ _ _) (Hin (floor_index n 95) ltac:(lia))) as (tr & <- & Htr).
    apply (proj2 (window_max_spec w (duration first))). exact Htr.
Qed.

Lemma window_percentiles_ordered_witness :
  exists m',
    calculateSlidingWindowMetrics (500 * Millisecond) five_times = Some m'
    /\ MinResponseTime m' <= P50ResponseTime m'
    /\ P95ResponseTime m' <= MaxResponseTime m'.
Proof.
  destruct (@window_percentiles_ordered five_times (500 * Millisecond))
    as (m' & Hc & _ & _ & Hmin & _ & _ & Hmax).
  - split; [reflexivity | vm_compute; discriminate].
  - vm_compute. discriminate.
  - exists m'. auto.
Defined.

Example five_times_statistics :
  option_map (fun m => (MinResponseTime m, P50ResponseTime m, P80ResponseTime m,
                        P95ResponseTime m, MaxResponseTime m, AvgResponseTime m))
    (calculateSlidingWindowMetrics (500 * Millisecond) five_times)
  = Some (10000000, 30000000, 50000000, 50000000, 50000000, 30000000).
Proof. vm_compute. reflexivity. Qed.

(** *** Snapshots *)

(** The window statistics of a snapshot are the stored ones, read before
    the call recomputes them. *)
Lemma snapshot_reads_stored_statistics (now : Z) (m m' : Metrics) (s : Snapshot) :
  GetSnapshot now m = Some (s, m') ->
  window_statistics s
  = map Milliseconds
      [MinResponseTime m; MaxResponseTime m; AvgResponseTime m;
       P50ResponseTime m; P80ResponseTime m; P95ResponseTime m;
       MinRequestLatency m; MaxRequestLatency m;
       MinResponseLatency m; MaxResponseLatency m].
Proof.
  unfold GetSnapshot. destruct (calculateSlidingWindowMetrics now m); [|discriminate].
  intros H. inversion H. reflexivity.
Qed.

(** C4 on the code.  One request is recorded at instant 0 (response time
    5 ms, latencies 2 ms and 3 ms).  The snapshot at 100 ms returns zeros
    although the request is 100 ms old; the snapshot at 1200 ms, when no
    event is younger than a second and both windows are already empty,
    returns the statistics of the request; only the snapshot after that
    returns zeros.  Each call returns what the call before computed. *)
Theorem snapshot_after_idle_is_stale :
  option_map
    (fun r => (fst r, ResponseTimes (snd r), RequestLatencies (snd r), ResponseLatencies (snd r)))
    (snapshots [100 * Millisecond; 1200 * Millisecond; 1400 * Millisecond] one_request)
  = Some ([[0; 0; 0; 0; 0; 0; 0; 0; 0; 0];
           [5; 5; 5; 5; 5; 5; 2; 2; 3; 3];
           [0; 0; 0; 0; 0; 0; 0; 0; 0; 0]],
          [], [], [])
  /\ option_map (fun r => ResponseTimes (snd r)) (snapshots [100 * Millisecond] one_request)
     = Some [mkTimed 0 (5 * Millisecond)].
Proof. split; vm_compute; reflexivity. Qed.

End MetricsFacts.

(** ** The resource manager *)

Module ResourceFacts.

Import Go Curve Metrics Server Examples.

Local Open Scope Z_scope.

(** C5 on the code.  Hundred ticks (10 s) with leak rate 10 MB/s and memory
    already at its target.  With five of ten workers busy (load factor 0.5)
    each tick adds [int64(0.5)] = 0 MB: memory stays at 15 MB, where the
    leak of the specification would have added about 50 MB.  Only with all
    ten busy (load factor 1) does each tick add 1 MB, 100 MB in all.  At
    the default rate of 0.1 MB/s nothing is ever added, even at full
    load. *)
Theorem leak_truncated_to_whole_megabytes :
  forall pow : float -> float -> float,
    CurrentMemoryMB
      (resourceState (fst (ticks pow 100 (100 * Millisecond) (managed_server 10.0 5 15) NewMetrics)))
    = 15
    /\ CurrentMemoryMB
         (resourceState (fst (ticks pow 100 (100 * Millisecond) (managed_server 10.0 10 25) NewMetrics)))
       = 125
    /\ CurrentMemoryMB
         (resourceState (fst (ticks pow 100 (100 * Millisecond) (managed_server 0.1 10 25) NewMetrics)))
       = 25.
Proof. intros pow. repeat split; vm_compute; reflexivity. Qed.

(** The leak of one tick at load factor 0.5 and rate 10 MB/s: half a
    megabyte, which the conversion to [int64] drops. *)
Example half_megabyte_leak :
  (10.0 * 0.1 * (float_of_int 5 / float_of_int 10))%float = 0.5%float
  /\ int64_of_float (10.0 * 0.1 * (float_of_int 5 / float_of_int 10))%float = 0.
Proof. split; vm_compute; reflexivity. Qed.

End ResourceFacts.
(** ** A [Send] from wait to wait *)

Module FlightFacts.

Import Go Metrics Server Network Starlark Client Invariants Flights.

Local Open Scope Z_scope.

Lemma SleepWithContext_slept (ctx : Context) (now d : Z) :
  slept_ok (fst (SleepWithContext ctx now d)) /\ now <= snd (SleepWithContext ctx now d).
Proof.
  unfold SleepWithContext, slept_ok. destruct ctx as [c|]; cbn.
  - destruct (Z.leb_spec c (now + Z.max 0 d)); cbn; split; auto; lia.
  - split; auto; lia.
Qed.

(** The two halves of [oneWayTrip] make the whole. *)
Lemma oneWayTrip_halves (ctx : Context) (elapsedMs : float)
  (getDropRate getLatencyMin getLatencyMax : float -> option float) (now : Z) (d : Draws) :
  oneWayTrip ctx elapsedMs getDropRate getLatencyMin getLatencyMax now d
  = match oneWayTrip_begin ctx elapsedMs getLatencyMin getLatencyMax now d with
    | Some (latency, slept, t) =>
        match oneWayTrip_end elapsedMs getDropRate d slept with
        | Some lost => Some (latency, lost, t)
        | None => None
        end
    | None => None
    end.
Proof.
  unfold oneWayTrip, oneWayTrip_begin, oneWayTrip_end.
  destruct (getLatencyMin elapsedMs) as [mn|]; [|reflexivity].
  destruct (getLatencyMax elapsedMs) as [mx|]; [|reflexivity].
  destruct (SleepWithContext ctx now _) as [[e|] t]; [reflexivity|].
  destruct (getDropRate elapsedMs) as [r|]; [|reflexivity].
  destruct (_ && _); reflexivity.
Qed.

(** A trip that delivers went through both halves without an error. *)
Lemma oneWayTrip_delivered (ctx : Context) (elapsedMs : float)
  (getDropRate getLatencyMin getLatencyMax : float -> option float) (now : Z) (d : Draws)
  (latency t : Z) :
  oneWayTrip ctx elapsedMs getDropRate getLatencyMin getLatencyMax now d
  = Some (latency, None, t) ->
  oneWayTrip_begin ctx elapsedMs getLatencyMin getLatencyMax now d = Some (latency, None, t)
  /\ oneWayTrip_end elapsedMs getDropRate d None = Some None
  /\ now <= t.
Proof.
  rewrite oneWayTrip_halves.
  pose proof (SleepWithContext_slept ctx now) as Hsl.
  unfold oneWayTrip_begin in *.
  destruct (getLatencyMin elapsedMs) as [mn|]; [|discriminate].
  destruct (getLatencyMax elapsedMs) as [mx|]; [|discriminate].
  match goal with |- context [SleepWithContext ctx now ?x] =>
    specialize (Hsl x); destruct (SleepWithContext ctx now x) as [slept t'] end.
  cbn [fst snd] in Hsl.
  destruct slept as [e|]; cbn [oneWayTrip_end].
  - discriminate.
  - destruct (getDropRate elapsedMs) as [r|]; [|discriminate].
    destruct (_ && _); [discriminate|].
    intros H. injection H as <- <-. split; [reflexivity|]. split; [reflexivity|]. apply Hsl.
Qed.

Section Halves.

Variable Meta : Type.
Variable math_Pow : float -> float -> float.

(** The two halves of [processRequest] make the whole. *)
Lemma processRequest_halves (req : Server.Request Meta) (managed : bool) (now : Z) (d : Draws)
  (s : Server Meta) :
  processRequest math_Pow req managed now d s
  = match processRequest_begin math_Pow managed now d s with
    | Some (k, s', t) =>
        match processRequest_end req d k t with
        | Some (resp, err) => Some (resp, err, s', t)
        | None => None
        end
    | None => None
    end.
Proof.
  unfold processRequest, processRequest_begin, processRequest_end.
  destruct (if managed then _ else _) as [mult add].
  cbn [getResponseTimeMin getResponseTimeMax getErrorRate Server.ctx set_behaviorStartTime].
  destruct (getResponseTimeMin s _) as [mn|]; [|reflexivity].
  destruct (getResponseTimeMax s _) as [mx|]; [|reflexivity].
  destruct (Server.ctx s) as [c|]; [|reflexivity].
  destruct (SleepWithContext c now _) as [[e|] t]; cbn [workSlept]; [reflexivity|].
  cbn [workErrorRate workElapsedMs workAdditionalErrorRate].
  destruct (getErrorRate s _) as [r|]; [|reflexivity].
  destruct (_ && _); reflexivity.
Qed.

(** The two halves of [HandleRequest] make the whole. *)
Lemma HandleRequest_halves (req : Server.Request Meta) (now : Z) (d : Draws) (q : QueueOutcome)
  (s : Server Meta) :
  HandleRequest math_Pow req now d q s
  = match HandleRequest_begin math_Pow req now d q s with
    | Some (p, s', t) =>
        match HandleRequest_end req d p t with
        | Some (resp, err) => Some (resp, err, s', t)
        | None => None
        end
    | None => None
    end.
Proof.
  unfold HandleRequest, HandleRequest_begin, HandleRequest_end.
  destruct (EnableResourceManagement _).
  - destruct (handleRequestWithResources req now q s) as [[[[resp err] s'] t]|]; reflexivity.
  - rewrite processRequest_halves.
    destruct (processRequest_begin math_Pow false now d s) as [[[k s'] t]|]; reflexivity.
Qed.

(** [Send] is its goroutine run from wait to wait with nothing else going
    on. *)
Lemma Send_fly (ctx : Context) (req : Server.Request Meta) (now : Z) (env : SendEnv)
  (w : World Meta) :
  Send math_Pow ctx req now env w
  = match launch ctx req now env w with
    | Some (f, w') => fly math_Pow 3 f w'
    | None => None
    end.
Proof.
  unfold Send, launch. rewrite oneWayTrip_halves.
  cbn [getDropRate getLatencyMin getLatencyMax].
  destruct (oneWayTrip_begin ctx _ _ _ now (forward env)) as [[[lat1 slept1] t1]|];
    [|reflexivity].
  cbn [fly step leg due fnetwork felapsedMs fenv getDropRate metrics server network].
  destruct (oneWayTrip_end _ _ (forward env) slept1) as [[e1|]|]; [reflexivity| |reflexivity].
  rewrite HandleRequest_halves. cbn [freq].
  destruct (HandleRequest_begin math_Pow req t1 _ _ _) as [[[p s] t2]|]; [|reflexivity].
  cbn [fly step leg due fnetwork felapsedMs fenv getDropRate metrics server network next_leg
         freq fstart fctx getLatencyMin getLatencyMax].
  destruct (HandleRequest_end req _ p t2) as [[resp err]|]; [|reflexivity].
  destruct (after_server resp err _) as [resp' m'].
  rewrite oneWayTrip_halves.
  destruct (oneWayTrip_begin ctx _ _ _ t2 (backward env)) as [[[lat2 slept2] t3]|];
    [|reflexivity].
  cbn [fly step leg due fnetwork felapsedMs fenv getDropRate metrics server network next_leg
         freq fstart fctx getLatencyMin getLatencyMax].
  destruct (oneWayTrip_end _ _ (backward env) slept2) as [[e2|]|]; reflexivity.
Qed.

End Halves.

(** *** What a wait's end does *)

Section Steps.

Variable Meta : Type.
Variable math_Pow : float -> float -> float.

Lemma after_server_client (resp : Response) (err : error) (m : Metrics) :
  client_counters (snd (after_server resp err m)) = client_counters m.
Proof. unfold after_server. destruct err, (Ok resp); reflexivity. Qed.

(** No event of a [Send] touches the clients' counters. *)
Lemma step_client (f : Flight Meta) (w w' : World Meta) (p : Progress Meta) :
  step math_Pow f w = Some (p, w') ->
  client_counters (metrics w') = client_counters (metrics w).
Proof.
  unfold step. destruct (leg f) as [lat slept | pd | resp lat slept].
  - destruct (oneWayTrip_end _ _ _ slept) as [[e|]|]; [| |discriminate].
    + intros H. injection H as _ <-. reflexivity.
    + destruct (HandleRequest_begin _ _ _ _ _ _) as [[[pd s] t2]|]; [|discriminate].
      intros H. injection H as _ <-. reflexivity.
  - destruct (HandleRequest_end _ _ pd _) as [[resp err]|]; [|discriminate].
    pose proof (after_server_client resp err (metrics w)) as Hc.
    destruct (after_server resp err (metrics w)) as [resp' m'].
    destruct (oneWayTrip_begin _ _ _ _ _ _) as [[[lat slept] t3]|]; [|discriminate].
    intros H. injection H as _ <-. exact Hc.
  - destruct (oneWayTrip_end _ _ _ slept) as [[e|]|]; [| |discriminate];
      intros H; injection H as _ <-; reflexivity.
Qed.

(** Each event brings a [Send] nearer to its return. *)
Lemma step_legs (f f' : Flight Meta) (w w' : World Meta) :
  step math_Pow f w = Some (Flying f', w') -> (legs f' < legs f)%nat.
Proof.
  unfold step, legs. destruct (leg f) as [lat slept | pd | resp lat slept].
  - destruct (oneWayTrip_end _ _ _ slept) as [[e|]|]; [discriminate| |discriminate].
    destruct (HandleRequest_begin _ _ _ _ _ _) as [[[pd s] t2]|]; [|discriminate].
    intros H. injection H as <- _. cbn. lia.
  - destruct (HandleRequest_end _ _ pd _) as [[resp err]|]; [|discriminate].
    destruct (after_server resp err (metrics w)) as [resp' m'].
    destruct (oneWayTrip_begin _ _ _ _ _ _) as [[[lat slept] t3]|]; [|discriminate].
    intros H. injection H as <- _. cbn. lia.
  - destruct (oneWayTrip_end _ _ _ slept) as [[e|]|]; discriminate.
Qed.

Lemma legs_positive (f : Flight Meta) : (0 < legs f)%nat.
Proof. unfold legs. destruct (leg f); lia. Qed.




(** *** The events of the others *)

Lemma step_first_client (t : Z) (l l' : list (Flight Meta)) (w w' : World Meta) :
  step_first math_Pow t l w = Some (l', w') ->
  client_counters (metrics w') = client_counters (metrics w).
Proof.
  revert l'. induction l as [|f l IH]; intros l'; cbn [step_first].
  - intros H. injection H as _ <-. reflexivity.
  - destruct (due f =? t).
    + destruct (step math_Pow f w) as [[[f'|resp err] w1]|] eqn:Hs; [| |discriminate];
        intros H; injection H as _ <-; exact (step_client _ _ _ _ Hs).
    + destruct (step_first math_Pow t l w) as [[l1 w1]|]; [|discriminate].
      intros H. injection H as _ <-. exact (IH _ eq_refl).
Qed.

Lemma first_due_cons (f : Flight Meta) (l : list (Flight Meta)) (t : Z) :
  first_due (f :: l) = Some t -> due f <> t -> first_due l = Some t.
Proof.
  cbn [first_due]. destruct (first_due l) as [t'|].
  - intros H Hn. injection H as H. f_equal. lia.
  - intros H Hn. injection H as H. contradiction.
Qed.

(** The next event of the others brings them nearer to their return. *)
Lemma step_first_legs (t : Z) (l l' : list (Flight Meta)) (w w' : World Meta) :
  first_due l = Some t ->
  step_first math_Pow t l w = Some (l', w') ->
  (legs_left l' < legs_left l)%nat.
Proof.
  revert l'. induction l as [|f l IH]; intros l' Hd; [discriminate|].
  cbn [step_first]. destruct (Z.eqb_spec (due f) t) as [He | He].
  - destruct (step math_Pow f w) as [[[f'|resp err] w1]|] eqn:Hs; [| |discriminate];
      intros H; injection H as <- _; cbn [legs_left fold_right].
    + pose proof (step_legs _ _ _ _ Hs). lia.
    + pose proof (legs_positive f). unfold legs_left. lia.
  - destruct (step_first math_Pow t l w) as [[l1 w1]|] eqn:Hs; [|discriminate].
    intros H. injection H as <- <-. cbn [legs_left fold_right].
    pose proof (IH _ (first_due_cons _ _ _ Hd He) eq_refl) as Hl. unfold legs_left in Hl. lia.
Qed.

End Steps.

(** *** The wait of [sendRequest] *)

Section Await.

Variable math_Pow : float -> float -> float.

Lemma await_unfold (fuel : nat) (giveup : option (Z * string)) (mine : Flight Value)
  (others : list (Flight Value)) (w : World Value) :
  await math_Pow (S fuel) giveup mine others w
  = match first_due others with
    | Some t =>
        if (t <=? due mine) && in_time giveup t then
          match step_first math_Pow t others w with
          | None => None
          | Some (others', w') => await math_Pow fuel giveup mine others' w'
          end
        else my_turn math_Pow fuel giveup mine others w
    | None => my_turn math_Pow fuel giveup mine others w
    end.
Proof. reflexivity. Qed.

(** The wait never touches the clients' counters. *)
Lemma await_client (fuel : nat) :
  forall (giveup : option (Z * string)) (mine : Flight Value) (others : list (Flight Value))
         (w w' : World Value) (resp : Response) (err : error) (fl : list (Flight Value)) (t : Z),
    await math_Pow fuel giveup mine others w = Some (resp, err, w', fl, t) ->
    client_counters (metrics w') = client_counters (metrics w).
Proof.
  induction fuel as [|fuel IH]; intros giveup mine others w w' resp err fl t; [discriminate|].
  rewrite await_unfold.
  assert (Hmine : my_turn math_Pow fuel giveup mine others w = Some (resp, err, w', fl, t) ->
                  client_counters (metrics w') = client_counters (metrics w)).
  { unfold my_turn. destruct (in_time giveup (due mine)).
    - destruct (step math_Pow mine w) as [[[mine'|r e] w1]|] eqn:Hs; [| |discriminate].
      + intros H. rewrite (IH _ _ _ _ _ _ _ _ _ H). exact (step_client _ _ _ _ _ _ Hs).
      + intros H. injection H as _ _ <- _ _. exact (step_client _ _ _ _ _ _ Hs).
    - destruct giveup as [[g e]|]; [|discriminate].
      intros H. injection H as _ _ <- _ _. reflexivity. }
  destruct (first_due others) as [t1|]; [|exact Hmine].
  destruct (_ && _); [|exact Hmine].
  destruct (step_first math_Pow t1 others w) as [[others' w1]|] eqn:Hf; [|discriminate].
  intros H. rewrite (IH _ _ _ _ _ _ _ _ _ H). exact (step_first_client _ _ _ _ _ _ _ Hf).
Qed.


(** A result that would come after the deadline does not come: where a
    wait ends at [t0], the same wait with a deadline before [t0] (and
    before whatever else could end it) ends at the deadline. *)
Lemma await_gives_up (fuel : nat) (d : Z) (e : string) (g0 : option (Z * string)) :
  (forall g e0, g0 = Some (g, e0) -> d < g) ->
  forall (mine : Flight Value) (others : list (Flight Value))
         (w w0 : World Value) (resp : Response) (err : error) (fl0 : list (Flight Value))
         (t0 : Z),
    await math_Pow fuel g0 mine others w = Some (resp, err, w0, fl0, t0) ->
    d < t0 ->
    exists w' fl,
      await math_Pow fuel (Some (d, e)) mine others w = Some (zeroResponse, Some e, w', fl, d).
Proof.
  intros Hg0.
  assert (Hin : forall x, x <= d -> in_time g0 x = true).
  { intros x Hx. unfold in_time. destruct g0 as [[g e0]|]; [|reflexivity].
    pose proof (Hg0 g e0 eq_refl). apply Z.leb_le. lia. }
  induction fuel as [|fuel IH]; intros mine others w w0 resp err fl0 t0; [discriminate|].
  rewrite !await_unfold. intros H Hlate.
  assert (Hgive : d < due mine ->
                  exists w' fl,
                    my_turn math_Pow fuel (Some (d, e)) mine others w
                    = Some (zeroResponse, Some e, w', fl, d)).
  { intros Hd. unfold my_turn. cbn [in_time].
    destruct (Z.leb_spec (due mine) d); [lia|]. eexists. eexists. reflexivity. }
  assert (Hmine : my_turn math_Pow fuel g0 mine others w = Some (resp, err, w0, fl0, t0) ->
                  exists w' fl,
                    my_turn math_Pow fuel (Some (d, e)) mine others w
                    = Some (zeroResponse, Some e, w', fl, d)).
  { destruct (Z.leb_spec (due mine) d) as [Hd | Hd]; [|intros _; exact (Hgive Hd)].
    unfold my_turn. rewrite (Hin _ Hd). cbn [in_time].
    destruct (Z.leb_spec (due mine) d); [|lia].
    destruct (step math_Pow mine w) as [[[mine'|r e1] w1]|] eqn:Hs; [| |discriminate].
    - intros H1. exact (IH _ _ _ _ _ _ _ _ H1 Hlate).
    - intros H1. injection H1 as _ _ _ _ Ht. lia. }
  destruct (first_due others) as [t1|]; [|exact (Hmine H)].
  cbn [in_time].
  destruct (Z.leb_spec t1 (due mine)) as [H1 | H1]; cbn [andb] in *; [|exact (Hmine H)].
  destruct (Z.leb_spec t1 d) as [H2 | H2].
  - rewrite (Hin _ H2) in H.
    destruct (step_first math_Pow t1 others w) as [[others' w1]|] eqn:Hf; [|discriminate].
    exact (IH _ _ _ _ _ _ _ _ H Hlate).
  - apply Hgive. lia.
Qed.

(** The fuel of the wait is enough: it is one unit for each wait the
    [Send]s still have before them, and every turn of the loop ends one. *)
Lemma await_fuel (fuel1 : nat) :
  forall (fuel2 : nat) (giveup : option (Z * string)) (mine : Flight Value)
         (others : list (Flight Value)) (w : World Value),
    (legs mine + legs_left others <= fuel1)%nat ->
    (legs mine + legs_left others <= fuel2)%nat ->
    await math_Pow fuel1 giveup mine others w = await math_Pow fuel2 giveup mine others w.
Proof.
  induction fuel1 as [|fuel1 IH]; intros fuel2 giveup mine others w H1 H2.
  - pose proof (legs_positive _ mine). lia.
  - destruct fuel2 as [|fuel2]; [pose proof (legs_positive _ mine); lia|].
    rewrite !await_unfold.
    assert (Hmine : my_turn math_Pow fuel1 giveup mine others w = my_turn math_Pow fuel2 giveup mine others w).
    { unfold my_turn. destruct (in_time giveup (due mine)); [|reflexivity].
      destruct (step math_Pow mine w) as [[[mine'|r e] w1]|] eqn:Hs; [|reflexivity|reflexivity].
      pose proof (step_legs _ _ _ _ _ _ Hs). apply IH; lia. }
    destruct (first_due others) as [t1|] eqn:Hd; [|exact Hmine].
    destruct (_ && _); [|exact Hmine].
    destruct (step_first math_Pow t1 others w) as [[others' w1]|] eqn:Hf; [|reflexivity].
    pose proof (step_first_legs _ _ _ _ _ _ _ Hd Hf). apply IH; lia.
Qed.

End Await.

End FlightFacts.

(** ** The loops of a request *)

Module ClientLoopFacts.

Import Go Metrics Server Network Starlark Client Examples Properties Invariants Flights
  FlightFacts.

Local Open Scope Z_scope.

Section LoopFacts.

Context {B : Type} {HB : ClientBehavior B}.
Variable math_Pow : float -> float -> float.
Variable env : Env.

Lemma after_retry_next (shouldRetry : bool) (d timeout : Z) (st : @State B) :
  calls (state_of (after_retry env shouldRetry d timeout st)) = calls st
  /\ world (state_of (after_retry env shouldRetry d timeout st)) = world st
  /\ forall r t st', after_retry env shouldRetry d timeout st = Again r t st' ->
       shouldRetry = true /\ r = true /\ t = timeout.
Proof.
  unfold after_retry. destruct shouldRetry.
  - destruct (0 <? d).
    + destruct (SleepWithContext (ctx env) (clock st) (ms d)) as [[e|] t]; simpl;
        (split; [reflexivity | split; [reflexivity|]]); intros r t' st' H; inversion H; auto.
    + simpl. split; [reflexivity | split; [reflexivity|]]. intros r t' st' H; inversion H; auto.
  - simpl. split; [reflexivity | split; [reflexivity|]]. intros r t' st' H; inversion H.
Qed.

Lemma handle_outcome_next (timeout : Z) (resp : Response) (err : error) (st : @State B) :
  calls (state_of (handle_outcome env timeout resp err st)) = (calls st ++ outcome_calls resp err)%list
  /\ world (state_of (handle_outcome env timeout resp err st))
     = count (outcome_count resp err) (world st)
  /\ forall r t st', handle_outcome env timeout resp err st = Again r t st' ->
       r = true /\ t = timeout.
Proof.
  unfold handle_outcome, outcome_calls, outcome_count.
  destruct err as [e|].
  - destruct (OnFail _ _ e) as [[berr b1] req1].
    destruct (OnRetry b1 req1 None (Some e)) as [[[[a d] e'] b2] req2].
    match goal with |- context [after_retry env a d timeout ?s] =>
      destruct (after_retry_next a d timeout s) as (Hc & Hw & Ha) end.
    rewrite Hc, Hw. simpl. split; [reflexivity | split; [reflexivity|]].
    intros r t st' H. destruct (Ha r t st' H) as (_ & ? & ?). auto.
  - destruct (Ok resp).
    + destruct (OnResponse _ _ resp) as [[berr b1] req1]. simpl.
      split; [reflexivity | split; [reflexivity|]]. intros r t st' H. inversion H.
    + destruct (OnError _ _ resp) as [[berr b1] req1].
      destruct (OnRetry b1 req1 (Some resp) None) as [[[[a d] e'] b2] req2].
      match goal with |- context [after_retry env a d timeout ?s] =>
        destruct (after_retry_next a d timeout s) as (Hc & Hw & Ha) end.
      rewrite Hc, Hw. simpl. split; [reflexivity | split; [reflexivity|]].
      intros r t st' H. destruct (Ha r t st' H) as (_ & ? & ?). auto.
Qed.

(** A pass whose [on_request] allows the request without a delay sends
    it, racing [Send] with [timeout_used], and handles what [sendRequest]
    returns. *)
Lemma pass_sends (isRetry : bool) (timeout : Z) (st : @State B)
  (delayMs timeoutMs : Z) (err : error) (b : B) (req : Request)
  (resp : Response) (e : error) (w : World Value) (fl : list (Flight Value)) (t : Z) :
  OnRequest (behavior_at env (clock st) (behavior st)) (request st)
  = (true, delayMs, timeoutMs, err, b, req) ->
  delayMs <= 0 ->
  sendRequest math_Pow env req (timeout_used timeoutMs timeout) (clock st) (sent st)
    (count (sent_request isRetry) (world st)) (inflight st)
  = Some (resp, e, w, fl, t) ->
  pass math_Pow env isRetry timeout st
  = Some (handle_outcome env (timeout_used timeoutMs timeout) resp e
            (mkState b req (count (recordResponseTime t (t - clock st)) w) t (S (sent st))
               ((calls st ++ [CallOnRequest]) ++ [CallSend (timeout_used timeoutMs timeout)])
               (log_error err (logged st)) fl)).
Proof.
  intros Hreq Hd Hsend. unfold pass. rewrite Hreq. cbn [negb]. cbv iota.
  apply Z.ltb_ge in Hd. rewrite Hd.
  fold (timeout_used timeoutMs timeout). rewrite Hsend. reflexivity.
Qed.

(** [sendRequest] never touches the clients' counters. *)
Lemma sendRequest_client (req : Request) (timeout now : Z) (k : nat) (w w' : World Value)
  (others fl : list (Flight Value)) (resp : Response) (e : error) (t : Z) :
  sendRequest math_Pow env req timeout now k w others = Some (resp, e, w', fl, t) ->
  client_counters (metrics w') = client_counters (metrics w).
Proof.
  unfold sendRequest.
  destruct (launch (ctx env) req now (sends env k) w) as [[mine w1]|] eqn:Hl; [|discriminate].
  intros H. rewrite (await_client _ _ _ _ _ _ _ _ _ _ _ H).
  unfold launch in Hl.
  destruct (oneWayTrip_begin _ _ _ _ _ _) as [[[lat slept] t1]|]; [|discriminate].
  injection Hl as _ <-. reflexivity.
Qed.

Lemma outcome_count_client (resp : Response) (e : error) (m1 m2 : Metrics) :
  client_counters m1 = client_counters m2 ->
  client_counters (outcome_count resp e m1) = client_counters (outcome_count resp e m2).
Proof.
  unfold client_counters. intros H. injection H as H1 H2 H3 H4 H5 H6.
  unfold outcome_count. destruct e; [|destruct (Ok resp)]; cbn; congruence.
Qed.

(** The books of a pass that sends: the calls it makes and the clients'
    counters it leaves, from what [sendRequest] returned. *)
Lemma pass_sends_books (isRetry : bool) (timeout : Z) (st : @State B)
  (delayMs timeoutMs : Z) (err : error) (b : B) (req : Request)
  (resp : Response) (e : error) (w : World Value) (fl : list (Flight Value)) (t : Z) :
  OnRequest (behavior_at env (clock st) (behavior st)) (request st)
  = (true, delayMs, timeoutMs, err, b, req) ->
  delayMs <= 0 ->
  sendRequest math_Pow env req (timeout_used timeoutMs timeout) (clock st) (sent st)
    (count (sent_request isRetry) (world st)) (inflight st)
  = Some (resp, e, w, fl, t) ->
  exists next,
    pass math_Pow env isRetry timeout st = Some next
    /\ calls (state_of next)
       = (calls st
          ++ CallOnRequest :: CallSend (timeout_used timeoutMs timeout) :: outcome_calls resp e)%list
    /\ client_counters (metrics (world (state_of next)))
       = client_counters (outcome_count resp e (sent_request isRetry (metrics (world st)))).
Proof.
  intros Hreq Hd Hsend. eexists. split; [exact (pass_sends _ _ _ _ _ _ _ _ _ _ _ _ _ Hreq Hd Hsend)|].
  match goal with |- context [handle_outcome env ?to resp e ?s] =>
    destruct (handle_outcome_next to resp e s) as (Hc & Hw & _) end.
  rewrite Hc, Hw. split.
  - cbn [calls]. rewrite <- !app_assoc. reflexivity.
  - cbn [world count metrics]. apply outcome_count_client.
    transitivity (client_counters (metrics w)); [reflexivity|].
    exact (sendRequest_client _ _ _ _ _ _ _ _ _ _ _ Hsend).
Qed.

(** C3 on the code.  [timeout] is declared once, before the retry loop, and
    assigned only under [if timeoutMs > 0].  So an attempt whose own
    [on_request] returns no positive timeout is raced against the timeout
    an earlier attempt left.  Take such an attempt, started with a timeout
    carried over, whose [Send] left alone would be back at [t0], later than
    the carried timeout allows (the context not ending before).  With
    nothing carried the attempt gets the answer of its [Send].  With the
    timeout carried, the [select] of [sendRequest] ends at the old deadline
    with "client request timed": the client calls [on_fail] and counts a
    network failure, and no response. *)
Theorem timeout_carried_between_attempts :
  forall (isRetry : bool) (timeout : Z) (st : @State B)
         (delayMs timeoutMs : Z) (err : error) (b : B) (req : Request)
         (resp0 : Response) (err0 : error) (w0 : World Value) (fl0 : list (Flight Value))
         (t0 : Z),
    OnRequest (behavior_at env (clock st) (behavior st)) (request st)
    = (true, delayMs, timeoutMs, err, b, req) ->
    delayMs <= 0 ->
    timeoutMs <= 0 ->
    0 < timeout ->
    ctx_done (ctx env) (clock st + timeout) = false ->
    sendRequest math_Pow env req 0 (clock st) (sent st)
      (count (sent_request isRetry) (world st)) (inflight st)
    = Some (resp0, err0, w0, fl0, t0) ->
    clock st + timeout < t0 ->
    pass math_Pow env isRetry 0 st
    = Some (handle_outcome env 0 resp0 err0
              (mkState b req (count (recordResponseTime t0 (t0 - clock st)) w0) t0
                 (S (sent st)) ((calls st ++ [CallOnRequest]) ++ [CallSend 0])
                 (log_error err (logged st)) fl0))
    /\ exists (w' : World Value) (fl' : list (Flight Value)) (next : Next),
         pass math_Pow env isRetry timeout st = Some next
         /\ next
            = handle_outcome env timeout zeroResponse (Some "client request timed"%string)
                (mkState b req (count (recordResponseTime (clock st + timeout) timeout) w')
                   (clock st + timeout) (S (sent st))
                   ((calls st ++ [CallOnRequest]) ++ [CallSend timeout])
                   (log_error err (logged st)) fl')
         /\ calls (state_of next)
            = (calls st ++ [CallOnRequest; CallSend timeout; CallOnFail; CallOnRetry])%list
         /\ NetworkFailedRequests (metrics (world (state_of next)))
            = incr (NetworkFailedRequests (metrics (world st)))
         /\ ClientSuccessResponses (metrics (world (state_of next)))
            = ClientSuccessResponses (metrics (world st))
         /\ ClientErrorResponses (metrics (world (state_of next)))
            = ClientErrorResponses (metrics (world st)).
Proof.
  intros isRetry timeout st delayMs timeoutMs err b req resp0 err0 w0 fl0 t0
         Hreq Hd Hto Hcarried Hctx Hsend Hlate.
  assert (Hused : forall carried, timeout_used timeoutMs carried = carried).
  { intros carried. unfold timeout_used. apply Z.ltb_ge in Hto. rewrite Hto. reflexivity. }
  split.
  - rewrite (pass_sends isRetry 0 st delayMs timeoutMs err b req resp0 err0 w0 fl0 t0 Hreq Hd);
      rewrite (Hused 0); [reflexivity | exact Hsend].
  - unfold sendRequest in Hsend.
    destruct (launch (ctx env) req (clock st) (sends env (sent st)) _) as [[mine w1]|] eqn:Hl;
      [|discriminate].
    assert (Hg0 : forall g e0, gives_up env 0 (clock st) = Some (g, e0) -> clock st + timeout < g).
    { intros g e0. unfold gives_up. cbn [Z.ltb Z.compare].
      unfold ctx_done in Hctx. destruct (ctx env) as [c|]; [|discriminate].
      intros H. injection H as <- _. apply Z.leb_gt in Hctx. lia. }
    destruct (await_gives_up math_Pow _ (clock st + timeout) "client request timed" _ Hg0
                _ _ _ _ _ _ _ _ Hsend Hlate) as (w' & fl' & Hgive).
    assert (Hsend' : sendRequest math_Pow env req (timeout_used timeoutMs timeout) (clock st)
                       (sent st) (count (sent_request isRetry) (world st)) (inflight st)
                     = Some (zeroResponse, Some "client request timed"%string, w', fl',
                             clock st + timeout)).
    { rewrite Hused. unfold sendRequest. rewrite Hl. unfold gives_up.
      apply Z.ltb_lt in Hcarried. rewrite Hcarried, Hctx. exact Hgive. }
    pose proof (pass_sends isRetry timeout st delayMs timeoutMs err b req _ _ _ _ _
                  Hreq Hd Hsend') as Hpass.
    rewrite Hused in Hpass.
    replace (clock st + timeout - clock st) with timeout in Hpass by lia.
    exists w', fl'. eexists. split; [exact Hpass|]. split; [reflexivity|].
    match goal with |- context [handle_outcome env timeout ?r ?e ?s] =>
      destruct (handle_outcome_next timeout r e s) as (Hc & Hw & _) end.
    rewrite Hc, Hw. cbn [calls outcome_calls world outcome_count].
    pose proof (await_client math_Pow _ _ _ _ _ _ _ _ _ _ Hgive) as Hcl.
    assert (Hcl1 : client_counters (metrics w1)
                   = client_counters (sent_request isRetry (metrics (world st)))).
    { unfold launch in Hl.
      destruct (oneWayTrip_begin _ _ _ _ _ _) as [[[lat slept] t1]|]; [|discriminate].
      injection Hl as _ <-. reflexivity. }
    rewrite Hcl1 in Hcl. unfold client_counters in Hcl.
    cbn [sent_request set_client_counters ClientBlockedRequests ClientSentRequests
           ClientRetryRequests ClientSuccessResponses ClientErrorResponses
           NetworkFailedRequests] in Hcl.
    injection Hcl as _ _ _ Hs He Hn.
    split; [rewrite <- !app_assoc; reflexivity|].
    cbn. rewrite Hs, He, Hn. repeat split.
Qed.

End LoopFacts.

(** The first [Send] of the examples, left alone, is back after 80 ms with
    the response, nothing left in the air. *)
Lemma alone_after_80 :
  request_summary
    (sendRequest pow_unused quiet request0 0 0 0
       (count (sent_request true) world0) [])
  = Some (true, ""%string, None, 80 * Millisecond, 0, 0%nat).
Proof. vm_compute. reflexivity. Qed.

(** The retry pass of a request whose first attempt asked for 50 ms:
    [on_request] now returns no timeout, the [Send] would be back after
    80 ms, and the attempt ends after 50 ms as a network failure. *)
Lemma timeout_carried_between_attempts_witness :
  exists next,
    pass pow_unused quiet true (50 * Millisecond) retry_state = Some next
    /\ calls (state_of next)
       = [CallOnRequest; CallSend (50 * Millisecond); CallOnFail; CallOnRetry]
    /\ NetworkFailedRequests (metrics (world (state_of next))) = 1.
Proof.
  eassert (Hreq : OnRequest (behavior_at quiet (clock retry_state) (behavior retry_state))
                    (request retry_state) = (true, 0, 0, None, _, request0))
    by (vm_compute; reflexivity).
  destruct (sendRequest pow_unused quiet request0 0 (clock retry_state) (sent retry_state)
              (count (sent_request true) (world retry_state)) (inflight retry_state))
    as [[[[[resp0 err0] w0] fl0] t0]|] eqn:Hsend.
  - pose proof alone_after_80 as Hsum.
    change (sendRequest pow_unused quiet request0 0 0 0 (count (sent_request true) world0) [])
      with (sendRequest pow_unused quiet request0 0 (clock retry_state) (sent retry_state)
              (count (sent_request true) (world retry_state)) (inflight retry_state)) in Hsum.
    rewrite Hsend in Hsum. cbn [request_summary] in Hsum.
    injection Hsum as _ _ _ Ht _ _.
    destruct (timeout_carried_between_attempts pow_unused quiet true (50 * Millisecond)
                retry_state 0 0 None _ request0 resp0 err0 w0 fl0 t0 Hreq
                ltac:(lia) ltac:(lia) ltac:(reflexivity) ltac:(reflexivity) Hsend
                ltac:(rewrite Ht; reflexivity))
      as (_ & w' & fl' & next & Hpass & _ & Hcalls & Hfailed & _).
    exists next. split; [exact Hpass|]. split; [exact Hcalls|]. exact Hfailed.
  - exfalso. pose proof alone_after_80 as Hsum.
    change (sendRequest pow_unused quiet request0 0 0 0 (count (sent_request true) world0) [])
      with (sendRequest pow_unused quiet request0 0 (clock retry_state) (sent retry_state)
              (count (sent_request true) (world retry_state)) (inflight retry_state)) in Hsum.
    rewrite Hsend in Hsum. discriminate Hsum.
Defined.

(** The failing input of C3, run from the start.  [on_request] asks for a
    timeout of 50 ms on the first attempt and for none on the retry
    ([timeoutMs = 0]); a [Send] takes 80 ms.  The retry races [Send] with
    the 50 ms all the same and times out again, 100 ms after the start,
    where the same pass with no timeout handed over gets its response. *)
Lemma retry_inherits_timeout :
  returned (timeout_once 1%nat [requestToDict request0]) = inl (VDict [])
  /\ parseOnRequestResult (VDict []) = (true, 0, 0)
  /\ run_summary
       (requestWithHooks pow_unused quiet 5
          (start_state (script (Some timeout_once) (Some retry_once)) world0))
     = Some ([CallOnRequest; CallSend (50 * Millisecond); CallOnFail; CallOnRetry;
              CallOnRequest; CallSend (50 * Millisecond); CallOnFail; CallOnRetry],
             [0; 2; 1; 0; 0; 2], 100 * Millisecond, [])
  /\ option_map (fun n => calls (state_of n))
       (pass pow_unused quiet true 0 retry_state)
     = Some [CallOnRequest; CallSend 0; CallOnResponse].
Proof. repeat split; vm_compute; reflexivity. Qed.

End ClientLoopFacts.
(** ** Rejections of the managed server on their way to the client *)

Module NetworkFacts.

Import Go Metrics Server Network Starlark Client Examples Properties Invariants Flights
  FlightFacts ClientLoopFacts.

Local Open Scope Z_scope.

Lemma handleRequestWithResources_rejects {Meta : Type} (s : Server Meta) (req : Server.Request Meta)
  (now : Z) (q : QueueOutcome) (msg : string) :
  rejects s now q msg ->
  handleRequestWithResources req now q s = Some (zeroResponse, Some msg, s, now).
Proof.
  unfold rejects, handleRequestWithResources.
  intros [[Hm ->] | (Hm & (c & Hc & Hd) & Hw & Hq & ->)]; rewrite Hm; [reflexivity|].
  rewrite Hc, Hd, Hw. cbn [orb].
  destruct (Z.ltb_spec (Z.of_nat (length (requestQueue s))) (queueCap s)); [lia|].
  rewrite andb_false_r. reflexivity.
Qed.

Section Rejection.

Variable math_Pow : float -> float -> float.

(** The goroutine of a [Send] that is rejected at the door, from wait to
    wait: the request arrives, is answered at once, and the answer
    travels back. *)
Lemma rejected_flight (ctx : Context) (req : Request) (now : Z) (senv : SendEnv)
  (w : World Value) (msg : string) (lat1 t1 lat2 t3 : Z) :
  let n := network w in
  let start := match nbehaviorStartTime n with Some t => t | None => now end in
  oneWayTrip ctx (float_of_int (Milliseconds (now - start)))
    (getDropRate n) (getLatencyMin n) (getLatencyMax n) now (forward senv)
  = Some (lat1, None, t1) ->
  EnableResourceManagement (Server.behavior (server w)) = true ->
  rejects (server w) t1 (queueOutcome senv) msg ->
  oneWayTrip ctx (float_of_int (Milliseconds (t1 - start)))
    (getDropRate n) (getLatencyMin n) (getLatencyMax n) t1 (backward senv)
  = Some (lat2, None, t3) ->
  exists (mine f2 f3 : Flight Value) (w1 w2 w3 w' : World Value) (resp : Response),
    launch ctx req now senv w = Some (mine, w1)
    /\ step math_Pow mine w1 = Some (Flying f2, w2)
    /\ step math_Pow f2 w2 = Some (Flying f3, w3)
    /\ step math_Pow f3 w3 = Some (Landed resp None, w')
    /\ (due mine = t1 /\ due f2 = t1 /\ due f3 = t3 /\ legs mine = 3%nat)
    /\ now <= t1 <= t3
    /\ Ok resp = false
    /\ Error resp = msg
    /\ ServerErrorResponses (metrics w') = incr (ServerErrorResponses (metrics w)).
Proof.
  intros n start Hfwd Hmanaged Hrej Hback.
  destruct (oneWayTrip_delivered _ _ _ _ _ _ _ _ _ Hfwd) as (Hb1 & He1 & Ht1).
  destruct (oneWayTrip_delivered _ _ _ _ _ _ _ _ _ Hback) as (Hb2 & He2 & Ht3).
  unfold launch. fold n. fold start. cbn [getLatencyMin getLatencyMax]. rewrite Hb1.
  eexists. eexists. eexists. eexists. eexists. eexists. eexists. eexists.
  split; [reflexivity|].
  split.
  { unfold step.
    cbn [leg due fnetwork felapsedMs fenv getDropRate metrics server network freq].
    rewrite He1. unfold HandleRequest_begin. rewrite Hmanaged.
    rewrite (handleRequestWithResources_rejects (server w) req t1 (queueOutcome senv) msg Hrej).
    reflexivity. }
  split.
  { unfold step.
    cbn [leg due fnetwork felapsedMs fenv getDropRate getLatencyMin getLatencyMax metrics
           server network freq fstart fctx next_leg HandleRequest_end after_server Ok
           zeroResponse].
    rewrite Hb2. reflexivity. }
  split.
  { unfold step.
    cbn [leg due fnetwork felapsedMs fenv getDropRate metrics server network next_leg].
    rewrite He2. reflexivity. }
  split; [repeat split|]. split; [lia|].
  split; [reflexivity|]. split; [reflexivity|]. reflexivity.
Qed.

End Rejection.

Lemma in_time_before (g : option (Z * string)) (t t' : Z) :
  in_time g t = true -> t' <= t -> in_time g t' = true.
Proof.
  unfold in_time. destruct g as [[d e]|]; [|reflexivity].
  intros H Hle. apply Z.leb_le in H. apply Z.leb_le. lia.
Qed.

Section Client.

Context {B : Type} {HB : ClientBehavior B}.
Variable math_Pow : float -> float -> float.
Variable env : Env.

(** C1, as the code has it.  A pass of [requestWithHooks] sends the request
    (its [on_request] allows it without a delay, nothing else of it is in
    the air); the forward leg delivers it, the managed server rejects it at
    the door, the return leg delivers the answer.  Then [Send] returns a
    nil error and a response with ok = false whose error text is the
    server's, and the server counts an error response.  When that answer
    is back before the client's timer and before its context ends,
    [sendRequest] returns it, and the client calls [on_error] and
    [on_retry] and counts an error response, no network failure.  When the
    timer or the context ends the wait first, the client sees their error
    instead, calls [on_fail] and [on_retry] and counts a network
    failure. *)
Theorem rejection_returns_as_response :
  forall (isRetry : bool) (timeout : Z) (st : @State B)
         (delayMs timeoutMs : Z) (err : error) (b : B) (req : Request)
         (msg : string) (lat1 t1 lat2 t3 : Z),
    let now := clock st in
    let w := count (sent_request isRetry) (world st) in
    let senv := sends env (sent st) in
    let n := network (world st) in
    let start := match nbehaviorStartTime n with Some t => t | None => now end in
    let used := timeout_used timeoutMs timeout in
    OnRequest (behavior_at env now (behavior st)) (request st)
    = (true, delayMs, timeoutMs, err, b, req) ->
    delayMs <= 0 ->
    inflight st = [] ->
    oneWayTrip (ctx env) (float_of_int (Milliseconds (now - start)))
      (getDropRate n) (getLatencyMin n) (getLatencyMax n) now (forward senv)
    = Some (lat1, None, t1) ->
    EnableResourceManagement (Server.behavior (server (world st))) = true ->
    rejects (server (world st)) t1 (queueOutcome senv) msg ->
    oneWayTrip (ctx env) (float_of_int (Milliseconds (t1 - start)))
      (getDropRate n) (getLatencyMin n) (getLatencyMax n) t1 (backward senv)
    = Some (lat2, None, t3) ->
    exists (resp : Response) (w' : World Value) (next : Next),
      Send math_Pow (ctx env) req now senv w = Some (resp, None, w', t3)
      /\ Ok resp = false
      /\ Error resp = msg
      /\ ServerErrorResponses (metrics w') = incr (ServerErrorResponses (metrics (world st)))
      /\ pass math_Pow env isRetry timeout st = Some next
      /\ if in_time (gives_up env used now) t3 then
           sendRequest math_Pow env req used now (sent st) w [] = Some (resp, None, w', [], t3)
           /\ calls (state_of next)
              = (calls st ++ [CallOnRequest; CallSend used; CallOnError; CallOnRetry])%list
           /\ ClientErrorResponses (metrics (world (state_of next)))
              = incr (ClientErrorResponses (metrics (world st)))
           /\ NetworkFailedRequests (metrics (world (state_of next)))
              = NetworkFailedRequests (metrics (world st))
         else
           calls (state_of next)
           = (calls st ++ [CallOnRequest; CallSend used; CallOnFail; CallOnRetry])%list
           /\ ClientErrorResponses (metrics (world (state_of next)))
              = ClientErrorResponses (metrics (world st))
           /\ NetworkFailedRequests (metrics (world (state_of next)))
              = incr (NetworkFailedRequests (metrics (world st))).
Proof.
  intros isRetry timeout st delayMs timeoutMs err b req msg lat1 t1 lat2 t3
         now w senv n start used Hreq Hd Hair Hfwd Hmanaged Hrej Hback.
  destruct (rejected_flight math_Pow (ctx env) req now senv w msg lat1 t1 lat2 t3
              Hfwd Hmanaged Hrej Hback)
    as (mine & f2 & f3 & w1 & w2 & w3 & w' & resp & Hl & Hs1 & Hs2 & Hs3
        & (Hd1 & Hd2 & Hd3 & Hlegs) & Htimes & Hok & Herr & Hcount).
  assert (Hsend : Send math_Pow (ctx env) req now senv w = Some (resp, None, w', t3)).
  { rewrite Send_fly, Hl. cbn [fly]. rewrite Hs1. cbn [fly]. rewrite Hs2. cbn [fly].
    rewrite Hs3, Hd3. reflexivity. }
  assert (Hwait : forall g,
            await math_Pow (legs mine + legs_left (@nil (Flight Value))) g mine [] w1
            = if in_time g t3 then Some (resp, None, w', [], t3)
              else match g with
                   | Some (d, e) =>
                       if in_time g t1 then Some (zeroResponse, Some e, w3, [f3], d)
                       else Some (zeroResponse, Some e, w1, [mine], d)
                   | None => None
                   end).
  { intros g. rewrite Hlegs. cbn [legs_left fold_right Nat.add].
    rewrite await_unfold. cbn [first_due]. unfold my_turn. rewrite Hd1.
    destruct (in_time g t1) eqn:Hin1.
    - rewrite Hs1, await_unfold. cbn [first_due]. unfold my_turn. rewrite Hd2, Hin1, Hs2.
      rewrite await_unfold. cbn [first_due]. unfold my_turn. rewrite Hd3.
      destruct (in_time g t3) eqn:Hin3.
      + rewrite Hs3. reflexivity.
      + destruct g as [[d e]|]; [reflexivity | discriminate].
    - destruct (in_time g t3) eqn:Hin3.
      + rewrite (in_time_before g t3 t1 Hin3 (proj2 Htimes)) in Hin1. discriminate.
      + destruct g as [[d e]|]; [reflexivity | discriminate]. }
  assert (Hrequest : sendRequest math_Pow env req used now (sent st) w (inflight st)
                     = await math_Pow (legs mine + legs_left (@nil (Flight Value))) (gives_up env used now)
                         mine [] w1).
  { unfold sendRequest. fold senv. rewrite Hl, Hair. reflexivity. }
  rewrite Hwait in Hrequest.
  exists resp, w'.
  destruct (in_time (gives_up env used now) t3) eqn:Hin.
  - destruct (pass_sends_books math_Pow env isRetry timeout st delayMs timeoutMs err b req
                _ _ _ _ _ Hreq Hd Hrequest) as (next & Hpass & Hcalls & Hbooks).
    exists next. split; [exact Hsend|]. split; [exact Hok|]. split; [exact Herr|].
    split; [exact Hcount|]. split; [exact Hpass|].
    split; [rewrite Hair in Hrequest; exact Hrequest|].
    split; [rewrite Hcalls; unfold outcome_calls; rewrite Hok; reflexivity|].
    unfold outcome_count in Hbooks. rewrite Hok in Hbooks.
    unfold client_counters in Hbooks. injection Hbooks as _ _ _ _ He Hn.
    rewrite He, Hn. split; reflexivity.
  - destruct (gives_up env used now) as [[d e]|]; [|discriminate].
    assert (Hany : exists w4 fl4,
              sendRequest math_Pow env req used now (sent st) w (inflight st)
              = Some (zeroResponse, Some e, w4, fl4, d)).
    { destruct (in_time (Some (d, e)) t1); eexists; eexists; exact Hrequest. }
    destruct Hany as (w4 & fl4 & Hrequest').
    destruct (pass_sends_books math_Pow env isRetry timeout st delayMs timeoutMs err b req
                _ _ _ _ _ Hreq Hd Hrequest') as (next & Hpass & Hcalls & Hbooks).
    exists next. split; [exact Hsend|]. split; [exact Hok|]. split; [exact Herr|].
    split; [exact Hcount|]. split; [exact Hpass|].
    split; [rewrite Hcalls; reflexivity|].
    unfold outcome_count, client_counters in Hbooks. injection Hbooks as _ _ _ _ He Hn.
    rewrite He, Hn. split; reflexivity.
Qed.

End Client.

(** The out-of-memory world of the examples and a client without a script:
    both legs take 25 ms, nothing ends the wait before the answer. *)
Lemma rejection_returns_as_response_witness :
  exists resp w' next,
    Send pow_unused None request0 0 (sends quiet 0) (count (sent_request false) out_of_memory)
    = Some (resp, None, w', 50 * Millisecond)
    /\ Ok resp = false
    /\ Error resp = "server out of memory"%string
    /\ pass pow_unused quiet false 0 (start_state Noop out_of_memory) = Some next
    /\ calls (state_of next) = [CallOnRequest; CallSend 0; CallOnError; CallOnRetry]
    /\ ClientErrorResponses (metrics (world (state_of next))) = 1
    /\ NetworkFailedRequests (metrics (world (state_of next))) = 0.
Proof.
  pose proof (rejection_returns_as_response pow_unused quiet false 0
                (start_state Noop out_of_memory) 0 0 None Noop request0
                "server out of memory" (25 * Millisecond) (25 * Millisecond)
                (25 * Millisecond) (50 * Millisecond)) as H.
  cbv zeta in H.
  destruct H as (resp & w' & next & Hsend & Hok & Herr & _ & Hpass & Hif).
  - reflexivity.
  - lia.
  - reflexivity.
  - vm_compute. reflexivity.
  - reflexivity.
  - left. split; [vm_compute; reflexivity | reflexivity].
  - vm_compute. reflexivity.
  - change (in_time (gives_up quiet (timeout_used 0 0) (clock (start_state Noop out_of_memory)))
              (50 * Millisecond)) with true in Hif.
    destruct Hif as (_ & Hcalls & Herrors & Hfailed).
    exists resp, w', next.
    split; [exact Hsend|]. split; [exact Hok|]. split; [exact Herr|]. split; [exact Hpass|].
    split; [exact Hcalls|]. split; [exact Herrors | exact Hfailed].
Defined.

(** Counterexample to C1.  The server is in managed mode and rejects at
    the door, once for memory above 98% and once for a full queue.  [Send]
    returns a nil error and a response with ok = false in both cases, and
    the client (here with the Noop behavior) calls [on_error], counts one
    error response and no network failure. *)
Lemma rejection_is_not_a_transport_error :
  option_map (fun r => fst (fst r))
    (handleRequestWithResources request0 (25 * Millisecond)
       (queueOutcome (sends quiet 0)) (server out_of_memory))
  = Some (zeroResponse, Some "server out of memory"%string)
  /\ option_map (fun r => fst (fst r))
       (handleRequestWithResources request0 (25 * Millisecond)
          (queueOutcome (sends quiet 0)) (server queue_full))
     = Some (zeroResponse, Some "server queue full"%string)
  /\ send_summary (Send pow_unused None request0 0 (sends quiet 0) out_of_memory)
     = Some (false, "server out of memory"%string, None, 50 * Millisecond, 1)
  /\ send_summary (Send pow_unused None request0 0 (sends quiet 0) queue_full)
     = Some (false, "server queue full"%string, None, 50 * Millisecond, 1)
  /\ run_summary (requestWithHooks pow_unused quiet 5 (start_state Noop out_of_memory))
     = Some ([CallOnRequest; CallSend 0; CallOnError; CallOnRetry],
             [0; 1; 0; 0; 1; 0], 50 * Millisecond, [])
  /\ run_summary (requestWithHooks pow_unused quiet 5 (start_state Noop queue_full))
     = Some ([CallOnRequest; CallSend 0; CallOnError; CallOnRetry],
             [0; 1; 0; 0; 1; 0], 50 * Millisecond, []).
Proof. repeat split; vm_compute; reflexivity. Qed.

(** The same rejections with a client whose [on_request] asks for a
    timeout of 10 ms: the answer would be back after 50 ms, the timer ends
    the wait first, and the client calls [on_fail] and counts a network
    failure. *)
Example rejection_lost_to_a_timeout :
  run_summary
    (requestWithHooks pow_unused quiet 5
       (start_state (script (Some timeout_10) None) out_of_memory))
  = Some ([CallOnRequest; CallSend (10 * Millisecond); CallOnFail; CallOnRetry],
          [0; 1; 0; 0; 0; 1], 10 * Millisecond, [])
  /\ run_summary
       (requestWithHooks pow_unused quiet 5
          (start_state (script (Some timeout_10) None) queue_full))
     = Some ([CallOnRequest; CallSend (10 * Millisecond); CallOnFail; CallOnRetry],
             [0; 1; 0; 0; 0; 1], 10 * Millisecond, []).
Proof. split; vm_compute; reflexivity. Qed.

(** A transport error is what a lost packet gives: the client then calls
    [on_fail] and counts a network failure. *)
Example lost_packet_is_a_transport_error :
  run_summary
    (requestWithHooks pow_unused quiet 5
       (start_state Noop
          (mkWorld
             (Network.SetBehavior
                (mkNetworkBehavior 0 0 100
                   [Curve.mkPoint 0 1 Curve.Curve; Curve.mkPoint 1 1 Curve.Curve]
                   (LatencyMin (nbehavior NewNetwork)) (LatencyMax (nbehavior NewNetwork))))
             (started (NewServer Value)) NewMetrics)))
  = Some ([CallOnRequest; CallSend 0; CallOnFail; CallOnRetry],
          [0; 1; 0; 0; 0; 1], 25 * Millisecond, []).
Proof. vm_compute. reflexivity. Qed.

End NetworkFacts.
(** ** The behavior interpreter: default decisions *)

Module InterpreterFacts.

Import Go Metrics Server Network Starlark Client Examples Properties ClientLoopFacts.

Local Open Scope Z_scope.


Section HookFacts.

Variable Thread : Type.

Let Behavior := StarlarkClientBehavior Thread.








(** [OnRetry] when [on_retry] raises: no retry, and the error comes back. *)
Lemma OnRetry_raises (b : Behavior) (fn : Callable Thread) (req : Request)
  (resp : option Response) (rerr : error) (e : string) :
  stopChan_closed b = false ->
  onRetry b = Some fn ->
  returned (fn (thread b) [requestToDict req; responseToDict resp; errorToValue rerr]) = inr e ->
  fst (fst (OnRetry b req resp rerr)) = (false, 0, Some ("on_retry error: " ++ e)%string).
Proof.
  intros Hs Hfn He. unfold OnRetry, StarlarkBehavior, call_hook. rewrite Hs.
  unfold executeFunction. cbn [execType exec_req exec_resp exec_err]. rewrite Hfn, He.
  reflexivity.
Qed.

(** C2 on the code.  When [on_request] raises, the error is logged and the
    result of the hook is the zero result, allow = false: the pass returns
    at once, the request counted as blocked and never sent.  When
    [on_retry] raises, the decision is no retry. *)
Theorem script_error_decisions :
  forall (math_Pow : float -> float -> float) (env : Env) (st : @State Behavior)
         (fn : Callable Thread) (isRetry : bool) (timeout : Z) (e : string),
    stopChan_closed (behavior st) = false ->
    closedAt env = None ->
    (onRequest (behavior st) = Some fn ->
     returned (fn (thread (behavior st)) [requestToDict (request st)]) = inr e ->
     exists st',
       pass math_Pow env isRetry timeout st = Some (Return st')
       /\ logged st'
          = (logged st
             ++ [("Error evaluating client behavior: " ++ "on_request error: " ++ e)%string])%list
       /\ calls st' = (calls st ++ [CallOnRequest])%list
       /\ sent st' = sent st
       /\ ClientBlockedRequests (metrics (world st'))
          = incr (ClientBlockedRequests (metrics (world st)))
       /\ ClientSentRequests (metrics (world st')) = ClientSentRequests (metrics (world st)))
    /\ (forall (req : Request) (resp : option Response) (rerr : error),
          onRetry (behavior st) = Some fn ->
          returned (fn (thread (behavior st))
                      [requestToDict req; responseToDict resp; errorToValue rerr]) = inr e ->
          fst (fst (OnRetry (behavior st) req resp rerr))
          = (false, 0, Some ("on_retry error: " ++ e)%string)).
Proof.
  intros math_Pow env st fn isRetry timeout e Hopen Hclosed. split.
  - intros Hfn He. unfold pass.
    assert (Hb : behavior_at env (clock st) (behavior st) = behavior st).
    { unfold behavior_at. rewrite Hclosed. reflexivity. }
    rewrite Hb. unfold OnRequest, StarlarkBehavior, call_hook. rewrite Hopen.
    unfold executeFunction. cbn [execType exec_req]. rewrite Hfn, He.
    cbn. eexists. split; [reflexivity|]. repeat split.
  - intros req resp rerr Hfn He. apply (OnRetry_raises (behavior st) fn req resp rerr e Hopen Hfn He).
Qed.

End HookFacts.


(** The same request under a script without [on_retry], and under one
    whose [on_retry] answers with an empty dict or with a number. *)
Example on_retry_absent_or_silent :
  run_summary
    (requestWithHooks pow_unused quiet 3 (start_state (script None None) out_of_memory))
  = Some ([CallOnRequest; CallSend 0; CallOnError; CallOnRetry],
          [0; 1; 0; 0; 1; 0], 50 * Millisecond, [])
  /\ requestWithHooks pow_unused quiet 3
       (start_state (script None (Some (returns (VDict [])))) out_of_memory)
     = Running
  /\ parseOnRequestResult (VInt 7) = (true, 0, 0)
  /\ parseOnRequestResult (VDict [(VString "delay", VInt 20)]) = (true, 20, 0)
  /\ parseOnRequestResult (VDict [(VString "allow", VInt 0)]) = (false, 0, 0).
Proof. repeat split; vm_compute; reflexivity. Qed.

(** A script whose [on_request] divides by zero: its one request is
    blocked. *)
Lemma script_error_decisions_witness :
  exists st',
    pass pow_unused quiet false 0
      (start_state (script (Some (raises "division by zero")) None) world0)
    = Some (Return st')
    /\ ClientBlockedRequests (metrics (world st')) = 1.
Proof.
  destruct (proj1 (script_error_decisions nat pow_unused quiet
                     (start_state (script (Some (raises "division by zero")) None) world0)
                     (raises "division by zero") false 0 "division by zero"
                     eq_refl eq_refl) eq_refl eq_refl)
    as (st' & Hp & _ & _ & _ & Hb & _).
  exists st'. split; [exact Hp | exact Hb].
Defined.

(** The sibling paths: a script without [on_request], and one whose
    [on_request] returns nothing, send the request. *)
Example absent_or_silent_on_request_sends :
  match pass pow_unused quiet false 0 (start_state (script None None) world0),
        pass pow_unused quiet false 0 (start_state (script (Some (returns VNone)) None) world0) with
  | Some n1, Some n2 =>
      ClientSentRequests (metrics (world (state_of n1))) = 1
      /\ ClientSentRequests (metrics (world (state_of n2))) = 1
  | _, _ => False
  end.
Proof. vm_compute. split; reflexivity. Qed.

End InterpreterFacts.

(** ** Binary64 arithmetic: signs and order *)

Module FloatFacts.

Import Properties.

Local Open Scope Z_scope.

(** *** Rounding keeps the sign *)

Lemma signed_false_not_negative (x : spec_float) : signed false x -> not_negative x.
Proof. destruct x; simpl; auto. Qed.

Lemma shr_1_nonneg (mrs : shr_record) : 0 <= shr_m mrs -> 0 <= shr_m (shr_1 mrs).
Proof.
  destruct mrs as [m r s]. simpl.
  destruct m as [|p|p]; [| destruct p | destruct p]; simpl; lia.
Qed.

Lemma iter_shr_1_nonneg (p : positive) :
  forall mrs, 0 <= shr_m mrs -> 0 <= shr_m (iter_pos shr_1 p mrs).
Proof.
  induction p as [p IH | p IH |]; intros mrs H; simpl.
  - apply IH, IH, shr_1_nonneg, H.
  - apply IH, IH, H.
  - apply shr_1_nonneg, H.
Qed.

Lemma shr_fexp_nonneg (prec emax m e : Z) (l : location) :
  0 <= m -> 0 <= shr_m (fst (shr_fexp prec emax m e l)).
Proof.
  intros Hm. unfold shr_fexp, shr.
  assert (H0 : 0 <= shr_m (shr_record_of_loc m l)).
  { destruct l as [|[| |]]; simpl; exact Hm. }
  destruct (fexp prec emax (Zdigits2 m + e) - e) as [|p|p]; simpl; try exact H0.
  apply iter_shr_1_nonneg, H0.
Qed.

Lemma round_nearest_even_nonneg (m : Z) (l : location) :
  0 <= m -> 0 <= round_nearest_even m l.
Proof.
  intros Hm. destruct l as [|[| |]]; simpl; try lia.
  destruct (Z.even m); lia.
Qed.

Lemma binary_round_aux_signed (prec emax : Z) (s : bool) (m e : Z) (l : location) :
  0 <= m -> signed s (binary_round_aux prec emax s m e l).
Proof.
  intros Hm. unfold binary_round_aux.
  pose proof (shr_fexp_nonneg prec emax m e l Hm) as H1.
  destruct (shr_fexp prec emax m e l) as [mrs' e']. simpl in H1.
  pose proof (shr_fexp_nonneg prec emax _ e' loc_Exact
                (round_nearest_even_nonneg _ (loc_of_shr_record mrs') H1)) as H2.
  destruct (shr_fexp prec emax (round_nearest_even (shr_m mrs') (loc_of_shr_record mrs')) e'
              loc_Exact) as [mrs'' e'']. simpl in H2.
  destruct (shr_m mrs'') as [|p|p]; simpl; [reflexivity | | lia].
  destruct (e'' <=? emax - prec); reflexivity.
Qed.

Lemma binary_round_signed (prec emax : Z) (s : bool) (m : positive) (e : Z) :
  signed s (binary_round prec emax s m e).
Proof.
  unfold binary_round.
  destruct (shl_align m e (fexp prec emax (Z.pos (digits2_pos m) + e))) as [mz ez].
  apply binary_round_aux_signed. lia.
Qed.

Lemma binary_normalize_not_negative (prec emax m e : Z) :
  0 <= m -> not_negative (binary_normalize prec emax m e false).
Proof.
  intros Hm. destruct m as [|p|p]; simpl; [exact I | | lia].
  apply signed_false_not_negative, binary_round_signed.
Qed.

Lemma binary_normalize_number (prec emax m e : Z) :
  binary_normalize prec emax m e false <> S754_nan.
Proof.
  destruct m as [|p|p]; simpl; [discriminate | |].
  - pose proof (binary_round_signed prec emax false p e) as H.
    destruct (binary_round prec emax false p e); simpl in H; congruence || discriminate || tauto.
  - pose proof (binary_round_signed prec emax true p e) as H.
    destruct (binary_round prec emax true p e); simpl in H; congruence || discriminate || tauto.
Qed.

(** *** The order of binary64 *)

Lemma SFcompare_antisym (x y : spec_float) :
  SFcompare y x = option_map CompOpp (SFcompare x y).
Proof.
  destruct x as [sx|sx| |sx mx ex], y as [sy|sy| |sy my ey]; simpl;
    try reflexivity; try (destruct sx; reflexivity); try (destruct sy; reflexivity);
    try (destruct sx, sy; reflexivity).
  pose proof (Pos.compare_cont_antisym mx my Eq) as Hm. simpl in Hm.
  destruct sx, sy; simpl; try reflexivity;
    rewrite (Z.compare_antisym ex ey); destruct (ex ?= ey); simpl; try reflexivity;
    rewrite <- Hm; destruct (Pos.compare_cont Eq mx my); reflexivity.
Qed.

Lemma SFcompare_number (x y : spec_float) :
  x <> S754_nan -> y <> S754_nan -> exists c, SFcompare x y = Some c.
Proof.
  intros Hx Hy.
  destruct x as [sx|sx| |sx mx ex], y as [sy|sy| |sy my ey]; simpl; try congruence; eauto.
Qed.

Lemma SFcompare_refl (x : spec_float) : x <> S754_nan -> SFcompare x x = Some Eq.
Proof.
  intros Hx. destruct x as [sx|sx| |sx mx ex]; simpl; try congruence.
  - destruct sx; reflexivity.
  - destruct sx; rewrite Z.compare_refl; fold (Pos.compare mx mx); rewrite Pos.compare_refl;
      reflexivity.
Qed.

(** [x < y] fails and [x == y] fails on two numbers: then [y < x]. *)
Lemma SFcompare_Lt_of_not (x y : spec_float) :
  x <> S754_nan -> y <> S754_nan ->
  SFltb y x = false -> SFeqb x y = false -> SFcompare x y = Some Lt.
Proof.
  intros Hx Hy Hlt Heq. unfold SFltb, SFeqb in *.
  rewrite (SFcompare_antisym x y) in Hlt.
  destruct (SFcompare_number x y Hx Hy) as [c Hc]. rewrite Hc in *.
  destruct c; simpl in *; congruence.
Qed.

Lemma SFleb_of_not_ltb (x y : spec_float) :
  x <> S754_nan -> y <> S754_nan -> SFltb x y = false -> SFleb y x = true.
Proof.
  intros Hx Hy Hlt. unfold SFltb, SFleb in *.
  rewrite (SFcompare_antisym x y).
  destruct (SFcompare_number x y Hx Hy) as [c Hc]. rewrite Hc in *.
  destruct c; simpl in *; congruence.
Qed.

Lemma SFleb_of_ltb (x y : spec_float) : SFltb x y = true -> SFleb x y = true.
Proof. unfold SFltb, SFleb. destruct (SFcompare x y) as [[| |]|]; congruence. Qed.

Lemma not_negative_leb (x : spec_float) :
  not_negative x <-> SFleb (S754_zero false) x = true.
Proof.
  unfold SFleb. destruct x as [s|s| |s m e]; simpl; try destruct s; split; congruence || tauto.
Qed.

(** *** The sign of a difference *)

Lemma digits2_pos_bounds (m : positive) :
  2 ^ (Z.pos (digits2_pos m) - 1) <= Z.pos m < 2 ^ Z.pos (digits2_pos m).
Proof.
  induction m as [p IH | p IH |]; simpl digits2_pos.
  - rewrite Pos2Z.inj_succ, Z.pow_succ_r by lia.
    replace (Z.succ (Z.pos (digits2_pos p)) - 1) with (Z.succ (Z.pos (digits2_pos p) - 1)) by lia.
    rewrite Z.pow_succ_r by lia. change (Z.pos p~1) with (2 * Z.pos p + 1). lia.
  - rewrite Pos2Z.inj_succ, Z.pow_succ_r by lia.
    replace (Z.succ (Z.pos (digits2_pos p)) - 1) with (Z.succ (Z.pos (digits2_pos p) - 1)) by lia.
    rewrite Z.pow_succ_r by lia. change (Z.pos p~0) with (2 * Z.pos p). lia.
  - simpl. lia.
Qed.

Lemma iter_xO_value (d m : positive) : Z.pos (Pos.iter xO m d) = Z.pos m * 2 ^ Z.pos d.
Proof.
  induction d as [|d IH] using Pos.peano_ind.
  - simpl. lia.
  - rewrite Pos.iter_succ, Pos2Z.inj_succ, Z.pow_succ_r by lia.
    change (Z.pos (Pos.iter xO m d)~0) with (2 * Z.pos (Pos.iter xO m d)). rewrite IH. ring.
Qed.

Lemma shl_align_value (m : positive) (e ez : Z) :
  ez <= e -> Z.pos (fst (shl_align m e ez)) = Z.pos m * 2 ^ (e - ez).
Proof.
  intros H. unfold shl_align.
  destruct (ez - e) as [|d|d] eqn:Hd; simpl fst; try lia.
  - replace (e - ez) with 0 by lia. lia.
  - rewrite iter_xO_value. replace (e - ez) with (Z.pos d) by lia. reflexivity.
Qed.

(** Of two valid binary64 mantissas the one with the larger exponent is
    the larger number. *)
Lemma larger_exponent_larger (m1 m2 : positive) (e1 e2 : Z) :
  bounded prec emax m1 e1 = true -> bounded prec emax m2 e2 = true -> e1 < e2 ->
  Z.pos m1 < Z.pos m2 * 2 ^ (e2 - e1).
Proof.
  unfold bounded, canonical_mantissa, fexp, SpecFloat.emin, prec, emax.
  intros H1 H2 He.
  apply andb_prop in H1, H2. destruct H1 as [H1 _], H2 as [H2 _].
  apply Z.eqb_eq in H1, H2.
  pose proof (digits2_pos_bounds m1) as [_ B1].
  pose proof (digits2_pos_bounds m2) as [B2 _].
  assert (D1 : Z.pos (digits2_pos m1) <= 53) by lia.
  assert (D2 : Z.pos (digits2_pos m2) = 53) by lia.
  rewrite D2 in B2.
  assert (P1 : 2 ^ Z.pos (digits2_pos m1) <= 2 ^ 53) by (apply Z.pow_le_mono_r; lia).
  assert (P2 : 2 ^ 1 <= 2 ^ (e2 - e1)) by (apply Z.pow_le_mono_r; lia).
  change (2 ^ 1) with 2 in P2. change (2 ^ (53 - 1)) with 4503599627370496 in B2.
  change (2 ^ 53) with 9007199254740992 in P1.
  nia.
Qed.

(** On valid binary64 numbers, [x < y] makes [y - x] a number that is not
    negative. *)
Lemma SFsub_not_negative (x y : spec_float) :
  valid_binary x = true -> valid_binary y = true ->
  SFcompare x y = Some Lt ->
  not_negative (SF64sub y x).
Proof.
  intros Vx Vy Hlt. unfold SF64sub.
  destruct x as [sx|sx| |sx mx ex], y as [sy|sy| |sy my ey]; simpl in Hlt |- *;
    try discriminate; try (destruct sx; discriminate || reflexivity);
    try (destruct sy; discriminate || reflexivity);
    try (destruct sx, sy; discriminate || reflexivity || exact I).
  simpl in Vx, Vy.
  apply binary_normalize_not_negative.
  rewrite !shl_align_value by lia.
  assert (Px : 0 < Z.pos mx * 2 ^ (ex - Z.min ey ex)) by (apply Z.mul_pos_pos; [lia | apply Z.pow_pos_nonneg; lia]).
  assert (Py : 0 < Z.pos my * 2 ^ (ey - Z.min ey ex)) by (apply Z.mul_pos_pos; [lia | apply Z.pow_pos_nonneg; lia]).
  destruct sx, sy; unfold cond_Zopp; try discriminate; try lia.
  - (* both negative: the exponent of [x] is the larger *)
    destruct (Z.compare_spec ex ey) as [He | He | He]; try discriminate.
    + subst ey. rewrite Z.min_id, Z.sub_diag in *. change (2 ^ 0) with 1 in *.
      fold (Pos.compare mx my) in Hlt.
      destruct (Pos.compare_spec mx my); simpl in Hlt; try discriminate. lia.
    + pose proof (larger_exponent_larger my mx ey ex Vy Vx He).
      replace (Z.min ey ex) with ey in * by lia. rewrite Z.sub_diag in *. change (2 ^ 0) with 1 in *. lia.
  - (* both positive: the exponent of [y] is the larger *)
    destruct (Z.compare_spec ex ey) as [He | He | He]; try discriminate.
    + subst ey. rewrite Z.min_id, Z.sub_diag in *. change (2 ^ 0) with 1 in *.
      fold (Pos.compare mx my) in Hlt.
      destruct (Pos.compare_spec mx my); simpl in Hlt; try discriminate. lia.
    + pose proof (larger_exponent_larger mx my ex ey Vx Vy He).
      replace (Z.min ey ex) with ex in * by lia. rewrite Z.sub_diag in *. change (2 ^ 0) with 1 in *. lia.
Qed.

(** *** Quotients, products and sums *)

Lemma SFdiv_core_binary_nonneg (m1 e1 m2 e2 : Z) :
  0 <= m1 -> 0 < m2 -> 0 <= fst (fst (SFdiv_core_binary prec emax m1 e1 m2 e2)).
Proof.
  intros H1 H2. unfold SFdiv_core_binary.
  set (s := e1 - e2 - Z.min (fexp prec emax (Zdigits2 m1 + e1 - (Zdigits2 m2 + e2))) (e1 - e2)).
  set (m' := match s with Z.pos _ => Z.shiftl m1 s | 0 => m1 | Z.neg _ => 0 end).
  assert (Hm : 0 <= m').
  { subst m'. destruct s; try lia. apply Z.shiftl_nonneg. exact H1. }
  pose proof (Z.div_pos m' m2 Hm H2) as Hq. unfold Z.div in Hq.
  destruct (Z.div_eucl m' m2) as [q r]. exact Hq.
Qed.

Lemma SFdiv_not_negative (x : spec_float) (m : positive) (e : Z) :
  not_negative x -> not_negative (SF64div x (S754_finite false m e)).
Proof.
  intros Hx. unfold SF64div.
  destruct x as [sx|sx| |sx mx ex]; simpl in Hx |- *; try exact I; try tauto.
  - subst sx. reflexivity.
  - subst sx. simpl xorb.
    pose proof (SFdiv_core_binary_nonneg (Z.pos mx) ex (Z.pos m) e ltac:(lia) ltac:(lia)) as Hq.
    destruct (SFdiv_core_binary prec emax (Z.pos mx) ex (Z.pos m) e) as [[q e'] l].
    apply signed_false_not_negative, binary_round_aux_signed. exact Hq.
Qed.

Lemma SFmul_number (x y : spec_float) : finite x -> finite y -> SF64mul x y <> S754_nan.
Proof.
  intros Hx Hy. unfold SF64mul.
  destruct x as [sx|sx| |sx mx ex], y as [sy|sy| |sy my ey]; simpl in Hx, Hy |- *;
    try tauto; try discriminate.
  pose proof (binary_round_aux_signed prec emax (xorb sx sy) (Z.pos (mx * my)) (ex + ey)
                loc_Exact ltac:(lia)) as H.
  intros Hn. rewrite Hn in H. exact H.
Qed.

Lemma SFadd_number (x y : spec_float) : x <> S754_nan -> finite y -> SF64add x y <> S754_nan.
Proof.
  intros Hx Hy. unfold SF64add.
  destruct x as [sx|sx| |sx mx ex], y as [sy|sy| |sy my ey]; simpl in Hy |- *;
    try tauto; try discriminate; try (destruct sx, sy; discriminate).
  apply binary_normalize_number.
Qed.

(** *** From the primitive floats to their specification *)

Lemma Prim2SF_number (f : float) : PrimFloat.is_nan f = false <-> Prim2SF f <> S754_nan.
Proof.
  unfold Prim2SF. destruct (PrimFloat.is_nan f); split; try congruence; intros _.
  destruct (PrimFloat.is_zero f); [discriminate|].
  destruct (PrimFloat.is_infinity f); [discriminate|].
  destruct (Z.frexp f) as [r ex].
  destruct (shr_fexp prec emax (Uint63Axioms.to_Z (normfr_mantissa r)) (ex - prec) loc_Exact)
    as [mrs e'].
  destruct (shr_m mrs); discriminate.
Qed.

Lemma Prim2SF_finite (f : float) : PrimFloat.is_finite f = true -> finite (Prim2SF f).
Proof.
  unfold PrimFloat.is_finite, Prim2SF. intros H.
  apply negb_true_iff, orb_false_iff in H. destruct H as [Hn Hi]. rewrite Hn, Hi.
  destruct (PrimFloat.is_zero f); [exact I|].
  destruct (Z.frexp f) as [r ex].
  destruct (shr_fexp prec emax (Uint63Axioms.to_Z (normfr_mantissa r)) (ex - prec) loc_Exact)
    as [mrs e'].
  destruct (shr_m mrs); exact I.
Qed.

Lemma leb_of_not_ltb (x y : float) :
  PrimFloat.is_nan x = false -> PrimFloat.is_nan y = false ->
  (x <? y)%float = false -> (y <=? x)%float = true.
Proof.
  rewrite ltb_spec, leb_spec, !Prim2SF_number. apply SFleb_of_not_ltb.
Qed.

Lemma leb_of_ltb (x y : float) : (x <? y)%float = true -> (x <=? y)%float = true.
Proof. rewrite ltb_spec, leb_spec. apply SFleb_of_ltb. Qed.

Lemma ltb_number (x y : float) :
  (x <? y)%float = true -> PrimFloat.is_nan x = false /\ PrimFloat.is_nan y = false.
Proof.
  rewrite ltb_spec, !Prim2SF_number. unfold SFltb.
  destruct (Prim2SF x), (Prim2SF y); simpl; intros H; split; congruence.
Qed.

Lemma eqb_leb (x y : float) : (x =? y)%float = true -> (y <=? x)%float = true.
Proof.
  rewrite eqb_spec, leb_spec. unfold SFeqb, SFleb.
  rewrite (SFcompare_antisym (Prim2SF x) (Prim2SF y)).
  destruct (SFcompare (Prim2SF x) (Prim2SF y)) as [[| |]|]; simpl; congruence.
Qed.

Lemma ltb_asym (x y : float) : (x <? y)%float = true -> (y <? x)%float = false.
Proof.
  rewrite !ltb_spec. unfold SFltb. rewrite (SFcompare_antisym (Prim2SF x) (Prim2SF y)).
  destruct (SFcompare (Prim2SF x) (Prim2SF y)) as [[| |]|]; simpl; congruence.
Qed.

Lemma mul_number (x y : float) :
  PrimFloat.is_finite x = true -> PrimFloat.is_finite y = true ->
  PrimFloat.is_nan (x * y)%float = false.
Proof.
  intros Hx Hy. rewrite Prim2SF_number, mul_spec.
  apply SFmul_number; apply Prim2SF_finite; assumption.
Qed.

Lemma add_number (x y : float) :
  PrimFloat.is_nan x = false -> PrimFloat.is_finite y = true ->
  PrimFloat.is_nan (x + y)%float = false.
Proof.
  intros Hx Hy. rewrite Prim2SF_number, add_spec.
  apply SFadd_number; [apply Prim2SF_number, Hx | apply Prim2SF_finite, Hy].
Qed.

(** On two numbers in order and apart, [(mx - mn) / 6] is not negative. *)
Lemma spread_not_negative (mn mx : float) :
  PrimFloat.is_nan mn = false -> PrimFloat.is_nan mx = false ->
  (mx <? mn)%float = false -> (mn =? mx)%float = false ->
  (0 <=? (mx - mn) / 6)%float = true.
Proof.
  intros Hn Hx Hlt Heq.
  rewrite leb_spec, div_spec, sub_spec.
  change (Prim2SF 0) with (S754_zero false).
  change (Prim2SF 6) with (S754_finite false 6755399441055744 (-50)).
  apply not_negative_leb, SFdiv_not_negative, SFsub_not_negative;
    try apply Prim2SF_valid.
  rewrite ltb_spec in Hlt. rewrite eqb_spec in Heq.
  apply SFcompare_Lt_of_not; try apply Prim2SF_number; assumption.
Qed.

End FloatFacts.

(** ** From milliseconds to durations *)

Module DurationFacts.

Import Go Curve Metrics Server Network FloatFacts.

Local Open Scope Z_scope.

Lemma wrap64_in_range (z : Z) : - 2 ^ 63 <= z < 2 ^ 63 -> wrap64 z = z.
Proof.
  intros H. unfold wrap64. rewrite Z.mod_small; lia.
Qed.

(** A latency between 1 ms and 2^43 ms (some 278 years) becomes a
    duration of at least one millisecond. *)
Lemma latency_of_ms_lower_bound (l : float) :
  (1 <=? l)%float = true -> (l <=? 8796093022208)%float = true ->
  Millisecond <= latency_of_ms l.
Proof.
  rewrite !leb_spec.
  change (Prim2SF 1) with (S754_finite false 4503599627370496 (-52)).
  change (Prim2SF 8796093022208) with (S754_finite false 4503599627370496 (-9)).
  pose proof (Prim2SF_valid l) as Hv.
  unfold latency_of_ms, int64_of_float, trunc_float.
  destruct (Prim2SF l) as [s|s| |s m e]; unfold SFleb; cbn [SFcompare];
    try discriminate; try (destruct s; discriminate).
  destruct s; [discriminate|].
  intros H1 H2. cbn [valid_binary SpecFloat.valid_binary] in Hv.
  assert (He : -52 <= e <= -9).
  { destruct (Z.compare_spec (-52) e), (Z.compare_spec e (-9)); try discriminate; lia. }
  assert (Hd : 2 ^ 52 <= Z.pos m < 2 ^ 53).
  { pose proof (digits2_pos_bounds m) as Hb.
    unfold bounded, canonical_mantissa, fexp, SpecFloat.emin, prec, emax in Hv.
    apply andb_prop in Hv. destruct Hv as [Hv _]. apply Z.eqb_eq in Hv.
    assert (Hdig : Z.pos (digits2_pos m) = 53) by lia.
    rewrite Hdig in Hb. exact Hb. }
  assert (Hm : e = -9 -> Z.pos m <= 2 ^ 52).
  { intros Heq. rewrite Heq, Z.compare_refl, Pos.compare_cont_spec in H2.
    change (2 ^ 52) with (Z.pos 4503599627370496).
    apply Pos2Z.pos_le_pos. unfold Pos.le. intros Hgt. rewrite Hgt in H2. discriminate H2. }
  destruct (Z.leb_spec 0 e); [lia|].
  rewrite Z.shiftr_div_pow2 by lia.
  assert (Hp : 2 ^ 9 <= 2 ^ (- e) <= 2 ^ 52) by (split; apply Z.pow_le_mono_r; lia).
  assert (Hpos : 0 < 2 ^ (- e)) by lia.
  assert (Hlo : 1 <= Z.pos m / 2 ^ (- e)).
  { apply Z.div_le_lower_bound; lia. }
  assert (Hhi : Z.pos m / 2 ^ (- e) <= 2 ^ 43).
  { destruct (Z.eq_dec e (-9)) as [-> | Hne].
    - apply Z.div_le_upper_bound; [lia|]. specialize (Hm eq_refl).
      change (2 ^ (- -9) * 2 ^ 43) with (2 ^ 52). exact Hm.
    - assert (Hp' : 2 ^ 10 <= 2 ^ (- e)) by (apply Z.pow_le_mono_r; lia).
      apply Z.div_le_upper_bound; [lia|].
      change (2 ^ 43) with 8796093022208. change (2 ^ 10) with 1024 in Hp'.
      change (2 ^ 53) with 9007199254740992 in Hd. nia. }
  change (2 ^ 43) with 8796093022208 in Hhi.
  unfold min_int64, max_int64.
  destruct (Z.leb_spec (- 2 ^ 63) (Z.pos m / 2 ^ (- e))); [|lia].
  destruct (Z.leb_spec (Z.pos m / 2 ^ (- e)) (2 ^ 63 - 1)); [|lia].
  cbn [andb].
  rewrite wrap64_in_range; unfold Millisecond; lia.
Qed.

End DurationFacts.

(** ** The two samplers *)

Module SamplerFacts.

Import Go Curve Metrics Server Network Starlark Client Examples Properties FloatFacts
  DurationFacts.

Local Open Scope float_scope.

(** The cut of the work time at zero. *)
Lemma cut_at_zero (w : float) :
  PrimFloat.is_nan (if w <? 0 then 0 else w) = false ->
  (0 <=? (if w <? 0 then 0 else w)) = true.
Proof.
  destruct (w <? 0) eqn:Hw; intros Hn; [reflexivity|].
  apply leb_of_not_ltb; [exact Hn | reflexivity | exact Hw].
Qed.

(** [math.Max(latencyMs, 1)] is at least 1 when it is a number, and it is a
    number when [latencyMs] is. *)
Lemma max_with_one (l : float) :
  (PrimFloat.is_nan (math_Max l 1) = false -> (1 <=? math_Max l 1) = true)
  /\ (PrimFloat.is_nan l = false -> PrimFloat.is_nan (math_Max l 1) = false).
Proof.
  unfold math_Max.
  change (1 =? PrimFloat.infinity) with false. change (PrimFloat.is_nan 1) with false.
  rewrite !orb_false_r.
  destruct (l =? PrimFloat.infinity) eqn:Hinf; [split; reflexivity|].
  destruct (PrimFloat.is_nan l) eqn:Hnan; [split; [intros H; discriminate H | discriminate]|].
  destruct ((l =? 0) && (l =? 1)) eqn:Hz.
  - apply andb_prop in Hz. destruct Hz as [_ H1].
    destruct (PrimFloat.get_sign l); split; try reflexivity; intros _;
      [apply eqb_leb; exact H1 | exact Hnan].
  - destruct (1 <? l) eqn:Hl; split; try reflexivity; intros _;
      [apply leb_of_ltb; exact Hl | exact Hnan].
Qed.

Section Sampler.

Variables lo hi z : float.
Hypothesis lo_number : PrimFloat.is_nan lo = false.
Hypothesis hi_number : PrimFloat.is_nan hi = false.

Let mn := fst (ordered_pair lo hi).
Let mx := snd (ordered_pair lo hi).

Lemma ordered_pair_numbers : PrimFloat.is_nan mn = false /\ PrimFloat.is_nan mx = false.
Proof.
  unfold mn, mx, ordered_pair. destruct (hi <? lo); simpl; auto.
Qed.

Lemma ordered_pair_sorted : (mx <? mn) = false.
Proof.
  unfold mn, mx, ordered_pair. destruct (hi <? lo) eqn:H; simpl; [apply ltb_asym|]; exact H.
Qed.

Lemma sampleWorkMs_cases :
  sampleWorkMs lo hi z
  = if mn =? mx then mn
    else let w := z * sample_stddev mn mx + sample_mean mn mx in if w <? 0 then 0 else w.
Proof. unfold sampleWorkMs, mn, mx. destruct (ordered_pair lo hi). reflexivity. Qed.

Lemma sampleLatencyMs_cases :
  sampleLatencyMs lo hi z
  = math_Max (if mn =? mx then mn else z * sample_stddev mn mx + sample_mean mn mx) 1.
Proof. unfold sampleLatencyMs, mn, mx. destruct (ordered_pair lo hi). reflexivity. Qed.

Lemma stddev_not_negative : (mn =? mx) = false -> (0 <=? sample_stddev mn mx) = true.
Proof.
  intros Hne. destruct ordered_pair_numbers as [Hn Hx].
  apply spread_not_negative; auto using ordered_pair_sorted.
Qed.

Lemma draw_is_number :
  PrimFloat.is_finite z = true ->
  PrimFloat.is_finite (sample_stddev mn mx) = true ->
  PrimFloat.is_finite (sample_mean mn mx) = true ->
  PrimFloat.is_nan (z * sample_stddev mn mx + sample_mean mn mx) = false.
Proof. intros Hz Hs Hm. apply add_number; [apply mul_number|]; assumption. Qed.

End Sampler.

(** X30.  The bounds both samplers do keep.  For two curve values that are
    numbers both samplers put the pair in order, use the lower bound as it is when the
    two are equal, and otherwise draw around the mean (min+max)/2 with a
    standard deviation (max-min)/6 that is not negative.  The latency in
    milliseconds is at least 1 whenever it is a number.  The work time in
    milliseconds is at least 0 whenever it is a number and was drawn, or is
    the common value of two bounds that are not negative.  Both are numbers
    when the draw, the mean and the standard deviation are finite.  A
    latency from 1 ms to 2^43 ms becomes a duration of at least 1 ms. *)
Theorem samplers_keep_their_lower_bounds :
  forall lo hi z : float,
    PrimFloat.is_nan lo = false ->
    PrimFloat.is_nan hi = false ->
    let mn := fst (ordered_pair lo hi) in
    let mx := snd (ordered_pair lo hi) in
    let draw := z * sample_stddev mn mx + sample_mean mn mx in
    (mx <? mn) = false
    /\ ((mn =? mx) = true ->
        sampleWorkMs lo hi z = mn /\ sampleLatencyMs lo hi z = math_Max mn 1)
    /\ ((mn =? mx) = false ->
        (0 <=? sample_stddev mn mx) = true
        /\ sampleWorkMs lo hi z = (if draw <? 0 then 0 else draw)
        /\ sampleLatencyMs lo hi z = math_Max draw 1)
    /\ (PrimFloat.is_nan (sampleLatencyMs lo hi z) = false ->
        (1 <=? sampleLatencyMs lo hi z) = true)
    /\ (PrimFloat.is_nan (sampleWorkMs lo hi z) = false ->
        (mn =? mx) = false \/ (0 <=? mn) = true ->
        (0 <=? sampleWorkMs lo hi z) = true)
    /\ (PrimFloat.is_finite z = true ->
        PrimFloat.is_finite (sample_stddev mn mx) = true ->
        PrimFloat.is_finite (sample_mean mn mx) = true ->
        PrimFloat.is_nan (sampleWorkMs lo hi z) = false
        /\ PrimFloat.is_nan (sampleLatencyMs lo hi z) = false)
    /\ ((1 <=? sampleLatencyMs lo hi z) = true ->
        (sampleLatencyMs lo hi z <=? 8796093022208) = true ->
        (Millisecond <= latency_of_ms (sampleLatencyMs lo hi z))%Z).
Proof.
  intros lo hi z Hlo Hhi mn mx draw.
  pose proof (sampleWorkMs_cases lo hi z) as Hw. cbv zeta in Hw.
  pose proof (sampleLatencyMs_cases lo hi z) as Hl.
  fold mn mx in Hw, Hl. fold draw in Hw, Hl.
  destruct (ordered_pair_numbers lo hi Hlo Hhi) as [Hmn Hmx]. fold mn in Hmn. fold mx in Hmx.
  split; [exact (ordered_pair_sorted lo hi)|].
  split; [intros He; rewrite He in Hw, Hl; auto|].
  split; [intros He; rewrite He in Hw, Hl; split;
          [exact (stddev_not_negative lo hi Hlo Hhi He) | auto]|].
  split; [rewrite Hl; apply (proj1 (max_with_one _))|].
  split.
  { rewrite Hw. destruct (mn =? mx) eqn:He.
    - intros _ [H | H]; [discriminate H | exact H].
    - intros Hn _. apply cut_at_zero. exact Hn. }
  split; [|apply latency_of_ms_lower_bound].
  - intros Hz Hs Hm. rewrite Hw, Hl. destruct (mn =? mx) eqn:He.
    + split; [exact Hmn | apply (proj2 (max_with_one mn)); exact Hmn].
    + pose proof (draw_is_number lo hi z Hz Hs Hm) as Hd. fold mn mx in Hd. fold draw in Hd.
      split; [destruct (draw <? 0); [reflexivity | exact Hd]
             | apply (proj2 (max_with_one draw)); exact Hd].
Qed.

(** Bounds 10 ms and 50 ms given the wrong way round, a draw one standard
    deviation below the mean. *)
Lemma samplers_keep_their_lower_bounds_witness :
  (0 <=? sample_stddev 10 50) = true
  /\ (1 <=? sampleLatencyMs 50 10 (-1)) = true
  /\ (0 <=? sampleWorkMs 50 10 (-1)) = true.
Proof.
  destruct (samplers_keep_their_lower_bounds 50 10 (-1) eq_refl eq_refl)
    as (_ & _ & Hd & Hl & Hw & _).
  split; [exact (proj1 (Hd eq_refl))|].
  split; [apply Hl; vm_compute; reflexivity|].
  apply Hw; [vm_compute; reflexivity | left; vm_compute; reflexivity].
Defined.

(** C10: the sampled work time is at least 0 and the sampled latency at
    least 1 ms, for every behavior.  The server sampler misses the case of
    equal bounds: a server whose response time range is -100..0 ms with
    both curves at the middle evaluates both bounds to -50 ms; they are
    equal, so the work time is -50 ms, below zero, where the cut at 0 is
    only applied to a drawn sample (the request then returns without
    sleeping).  The network sampler, which cuts after both branches, gives
    1 ms on the same pair. *)
Lemma equal_negative_bounds_not_cut :
  getResponseTimeMin negative_range 0 = Some (-50)
  /\ getResponseTimeMax negative_range 0 = Some (-50)
  /\ sampleWorkMs (-50) (-50) 0 = -50
  /\ (0 <=? sampleWorkMs (-50) (-50) 0) = false
  /\ int64_of_float (sampleWorkMs (-50) (-50) 0 * float_of_int Millisecond)
     = (-50 * Millisecond)%Z
  /\ sampleLatencyMs (-50) (-50) 0 = 1
  /\ option_map (fun r => (Ok (fst (fst (fst r))), snd r))
       (processRequest pow_unused request0 false 0 calm negative_range)
     = Some (true, 0%Z).
Proof. repeat split; vm_compute; reflexivity. Qed.

(** What the samplers give on the default behaviors. *)
Example default_samples :
  sampleWorkMs 10 50 0 = 30 /\ sampleWorkMs 10 50 (-5) = 0
  /\ sampleLatencyMs 10 40 0 = 25 /\ sampleLatencyMs 10 40 (-5) = 1
  /\ latency_of_ms (sampleLatencyMs 10 40 0) = (25 * Millisecond)%Z.
Proof. repeat split; vm_compute; reflexivity. Qed.

End SamplerFacts.

(** ** The client groups *)

Module ConfigFacts.

Import Go Simulation Groups Examples.

Local Open Scope Z_scope.

Lemma first_with_app (id : string) (l : list ClientConfig) (c : ClientConfig) :
  first_with id (l ++ [c])
  = match first_with id l with
    | Some old => Some old
    | None => if String.eqb (Id c) id then Some c else None
    end.
Proof.
  induction l as [|a l IH]; simpl; [reflexivity|].
  destruct (String.eqb (Id a) id); [reflexivity | exact IH].
Qed.

Lemma replace_first_none (id : string) (c : ClientConfig) (l : list ClientConfig) :
  first_with id l = None -> replace_first id c l = None.
Proof.
  induction l as [|a l IH]; simpl; [reflexivity|].
  destruct (String.eqb (Id a) id); [discriminate|].
  intros H. rewrite (IH H). reflexivity.
Qed.

Lemma replace_first_some (id : string) (c : ClientConfig) (l : list ClientConfig) :
  first_with id l <> None ->
  exists l',
    replace_first id c l = Some l'
    /\ length l' = length l
    /\ (Id c = id -> first_with id l' = Some c)
    /\ forall id', id' <> id -> Id c = id -> first_with id' l' = first_with id' l.
Proof.
  induction l as [|a l IH]; simpl; [congruence|].
  destruct (String.eqb (Id a) id) eqn:Ha.
  - intros _. exists (c :: l). split; [reflexivity|]. split; [reflexivity|].
    apply String.eqb_eq in Ha. split.
    + intros Hc. simpl. rewrite Hc, String.eqb_refl. reflexivity.
    + intros id' Hne Hc. simpl. rewrite Hc, Ha.
      destruct (String.eqb id id') eqn:E; [apply String.eqb_eq in E; congruence | reflexivity].
  - intros H. destruct (IH H) as (l' & Hr & Hl & Hf & Ho).
    exists (a :: l'). rewrite Hr. split; [reflexivity|]. split; [simpl; congruence|]. split.
    + intros Hc. simpl. rewrite Ha. apply Hf. exact Hc.
    + intros id' Hne Hc. simpl. destruct (String.eqb (Id a) id'); [reflexivity|].
      apply Ho; assumption.
Qed.

Lemma remove_first_none (id : string) (l : list ClientConfig) :
  first_with id l = None -> remove_first id l = None.
Proof.
  induction l as [|a l IH]; simpl; [reflexivity|].
  destruct (String.eqb (Id a) id); [discriminate|].
  intros H. rewrite (IH H). reflexivity.
Qed.

Lemma first_with_not_in (id : string) (l : list ClientConfig) :
  ~ In id (map Id l) -> first_with id l = None.
Proof.
  induction l as [|a l IH]; simpl; [reflexivity|].
  intros H. destruct (String.eqb (Id a) id) eqn:Ha.
  - apply String.eqb_eq in Ha. tauto.
  - apply IH. tauto.
Qed.

Lemma remove_first_some (id : string) (l : list ClientConfig) :
  first_with id l <> None ->
  exists l',
    remove_first id l = Some l'
    /\ S (length l') = length l
    /\ (forall id', id' <> id -> first_with id' l' = first_with id' l)
    /\ (NoDup (map Id l) -> first_with id l' = None).
Proof.
  induction l as [|a l IH]; simpl; [congruence|].
  destruct (String.eqb (Id a) id) eqn:Ha.
  - intros _. exists l. split; [reflexivity|]. split; [reflexivity|].
    apply String.eqb_eq in Ha. split.
    + intros id' Hne. rewrite Ha.
      destruct (String.eqb id id') eqn:E; [apply String.eqb_eq in E; congruence | reflexivity].
    + intros Hnd. inversion Hnd as [|x xs Hnotin Hnd']. subst.
      apply first_with_not_in. exact Hnotin.
  - intros H. destruct (IH H) as (l' & Hr & Hl & Ho & Hu).
    exists (a :: l'). rewrite Hr. split; [reflexivity|]. split; [simpl; congruence|]. split.
    + intros id' Hne. simpl. destruct (String.eqb (Id a) id'); [reflexivity|]. apply Ho. exact Hne.
    + intros Hnd. simpl. rewrite Ha. apply Hu. inversion Hnd. assumption.
Qed.

(** X1.  On a stopped simulation [AddClientsConfig] always succeeds and appends
    the group: every other id is looked up as before, and the new id is
    found by [GetClientConfigById] with the values given -- unless a group
    with this id was already there, which is then still the one returned
    (ids are not checked for uniqueness). *)
Theorem added_group_is_found :
  forall (id : string) (count requestRate rampUpTime delay : Z) (behavior : string)
         (s : Simulation),
    running s = false ->
    let r := AddClientsConfig id count requestRate rampUpTime delay behavior s in
    fst r = None
    /\ running (snd r) = false
    /\ GetClientConfigs (snd r)
       = GetClientConfigs s ++ [mkClientConfig id count requestRate rampUpTime delay behavior]
    /\ (forall id', id' <> id -> GetClientConfigById id' (snd r) = GetClientConfigById id' s)
    /\ GetClientConfigById id (snd r)
       = match first_with id (clientsConfigs s) with
         | Some old => (old, None)
         | None => (mkClientConfig id count requestRate rampUpTime delay behavior, None)
         end.
Proof.
  intros id count requestRate rampUpTime delay behavior s Hs. cbv zeta.
  unfold AddClientsConfig. rewrite Hs. cbn [fst snd running clientsConfigs].
  repeat split.
  - intros id' Hne. unfold GetClientConfigById. cbn [clientsConfigs].
    rewrite first_with_app. cbn [Id].
    destruct (first_with id' (clientsConfigs s)); [reflexivity|].
    destruct (String.eqb id id') eqn:E; [apply String.eqb_eq in E; congruence | reflexivity].
  - unfold GetClientConfigById. cbn [clientsConfigs].
    rewrite first_with_app. cbn [Id]. rewrite String.eqb_refl.
    destruct (first_with id (clientsConfigs s)); reflexivity.
Qed.

Lemma added_group_is_found_witness :
  GetClientConfigById "g2" (snd (AddClientsConfig "g2" 5 1 2 3 "" (mkSimulation false [])))
  = (mkClientConfig "g2" 5 1 2 3 "", None).
Proof.
  exact (proj2 (proj2 (proj2 (proj2
    (added_group_is_found "g2" 5 1 2 3 "" (mkSimulation false []) eq_refl))))).
Defined.

(** X2.  On a stopped simulation [UpdateClientConfig] of an id that no group
    has returns the not-found error and changes nothing; of an id some
    group has, it replaces the first such group in place: the number of
    groups is the same, the id reads back with the new values and every
    other id as before. *)
Theorem updated_group_reads_back :
  forall (id : string) (count requestRate rampUpTime delay : Z) (behavior : string)
         (s : Simulation),
    running s = false ->
    let r := UpdateClientConfig id count requestRate rampUpTime delay behavior s in
    (first_with id (clientsConfigs s) = None -> r = (Some (not_found id), s))
    /\ (first_with id (clientsConfigs s) <> None ->
        fst r = None
        /\ running (snd r) = false
        /\ length (clientsConfigs (snd r)) = length (clientsConfigs s)
        /\ GetClientConfigById id (snd r)
           = (mkClientConfig id count requestRate rampUpTime delay behavior, None)
        /\ forall id', id' <> id ->
             GetClientConfigById id' (snd r) = GetClientConfigById id' s).
Proof.
  intros id count requestRate rampUpTime delay behavior s Hs. cbv zeta.
  unfold UpdateClientConfig. rewrite Hs. split.
  - intros Hn. rewrite (replace_first_none id _ _ Hn). reflexivity.
  - intros Hf.
    destruct (replace_first_some id
                (mkClientConfig id count requestRate rampUpTime delay behavior) _ Hf)
      as (l' & Hr & Hl & Hnew & Hold).
    rewrite Hr. cbn [fst snd running clientsConfigs].
    split; [reflexivity|]. split; [reflexivity|]. split; [exact Hl|].
    unfold GetClientConfigById. cbn [clientsConfigs]. split.
    + rewrite (Hnew eq_refl). reflexivity.
    + intros id' Hne. rewrite (Hold id' Hne eq_refl). reflexivity.
Qed.

Lemma updated_group_reads_back_witness :
  GetClientConfigById "g1" (snd (UpdateClientConfig "g1" 7 1 2 3 "x"
                                   (mkSimulation false [mkClientConfig "g1" 10 100000000 0 0 ""])))
  = (mkClientConfig "g1" 7 1 2 3 "x", None).
Proof.
  refine (proj1 (proj2 (proj2 (proj2 (proj2
    (updated_group_reads_back "g1" 7 1 2 3 "x"
       (mkSimulation false [mkClientConfig "g1" 10 100000000 0 0 ""]) eq_refl) _))))).
  simpl. discriminate.
Defined.

(** X3.  On a stopped simulation [DeleteClientConfigById] of an id that no group
    has returns the not-found error and changes nothing; of an id some
    group has, it removes exactly one group, the first with this id, and
    every other id is looked up as before.  The id is gone afterwards when
    the ids were distinct. *)
Theorem deleted_group_is_gone :
  forall (id : string) (s : Simulation),
    running s = false ->
    let r := DeleteClientConfigById id s in
    (first_with id (clientsConfigs s) = None -> r = (Some (not_found id), s))
    /\ (first_with id (clientsConfigs s) <> None ->
        fst r = None
        /\ running (snd r) = false
        /\ S (length (clientsConfigs (snd r))) = length (clientsConfigs s)
        /\ (forall id', id' <> id ->
              GetClientConfigById id' (snd r) = GetClientConfigById id' s)
        /\ (NoDup (map Id (clientsConfigs s)) ->
              GetClientConfigById id (snd r) = (zeroClientConfig, Some (not_found id)))).
Proof.
  intros id s Hs. cbv zeta. unfold DeleteClientConfigById. rewrite Hs. split.
  - intros Hn. rewrite (remove_first_none id _ Hn). reflexivity.
  - intros Hf. destruct (remove_first_some id _ Hf) as (l' & Hr & Hl & Hold & Hgone).
    rewrite Hr. cbn [fst snd running clientsConfigs].
    split; [reflexivity|]. split; [reflexivity|]. split; [exact Hl|].
    unfold GetClientConfigById. cbn [clientsConfigs]. split.
    + intros id' Hne. rewrite (Hold id' Hne). reflexivity.
    + intros Hnd. rewrite (Hgone Hnd). reflexivity.
Qed.

Lemma deleted_group_is_gone_witness :
  GetClientConfigById "g1" (snd (DeleteClientConfigById "g1"
                                   (mkSimulation false [mkClientConfig "g1" 10 100000000 0 0 ""])))
  = (zeroClientConfig, Some (not_found "g1")).
Proof.
  refine (proj2 (proj2 (proj2 (proj2 (proj2
    (deleted_group_is_gone "g1"
       (mkSimulation false [mkClientConfig "g1" 10 100000000 0 0 ""]) eq_refl) _)))) _).
  - simpl. discriminate.
  - simpl. constructor; [simpl; tauto | constructor].
Defined.

(** With two groups of the same id, deleting the id once leaves the second
    group, which then answers for the id. *)
Example duplicate_id_survives_one_delete :
  let s := mkSimulation false [] in
  let s := snd (AddClientsConfig "g" 1 1 0 0 "" s) in
  let s := snd (AddClientsConfig "g" 2 2 0 0 "" s) in
  GetClientConfigById "g" s = (mkClientConfig "g" 1 1 0 0 "", None)
  /\ GetClientConfigById "g" (snd (DeleteClientConfigById "g" s))
     = (mkClientConfig "g" 2 2 0 0 "", None).
Proof. split; reflexivity. Qed.

(** *** The start of the clients *)

(** X4.  The step between the clients of a group in [run].  Computing it
    panics exactly for a group of zero clients with a positive ramp-up
    time.  For a group of [Count > 0] clients with a positive ramp-up time
    (an int64), the step is not negative and client k's share of the
    ramp-up, step * k, lies between 0 and the ramp-up time less one
    step. *)
Theorem ramp_up_step :
  forall (config : ClientConfig) (draws : Z -> float),
    (startDelays config draws = None <-> 0 < RampUpTime config /\ Count config = 0)
    /\ (0 < Count config -> 0 < RampUpTime config <= max_int64 ->
        exists delay,
          rampDelay config = Some delay
          /\ delay = RampUpTime config / Count config
          /\ forall k, 0 <= k < Count config ->
               0 <= delay * k <= RampUpTime config - delay).
Proof.
  intros config draws. split.
  - unfold startDelays, rampDelay, div64.
    destruct (Z.leb_spec (RampUpTime config) 0) as [Hr | Hr].
    + split; [discriminate | lia].
    + destruct (Z.eqb_spec (Count config) 0) as [Hc | Hc].
      * split; [intros _; split; assumption | reflexivity].
      * split; [discriminate | lia].
  - intros Hc Hr. unfold rampDelay, div64.
    destruct (Z.leb_spec (RampUpTime config) 0) as [Hr0 | _]; [lia|].
    destruct (Z.eqb_spec (Count config) 0) as [Hc0 | _]; [lia|].
    rewrite Z.quot_div_nonneg by lia.
    pose proof (Z.div_pos (RampUpTime config) (Count config) ltac:(lia) Hc) as Hd0.
    pose proof (Z.mul_div_le (RampUpTime config) (Count config) Hc) as Hle.
    assert (Hdle : RampUpTime config / Count config <= RampUpTime config).
    { apply Z.div_le_upper_bound; [lia|]. nia. }
    exists (RampUpTime config / Count config). split; [|split; [reflexivity|]].
    + f_equal. unfold wrap64, max_int64 in *. rewrite Z.mod_small by lia. lia.
    + intros k Hk. split; [nia|]. nia.
Qed.

(** A group of no clients with three seconds of ramp-up stops [run]. *)
Example empty_group_with_ramp_up :
  startDelays (mkClientConfig "g" 0 100000000 3000000000 0 "") (fun _ => 0.5%float) = None.
Proof. reflexivity. Qed.

(** The default group of the dashboard, every draw central: a hundred
    clients, 30 ms apart. *)
Example default_group_delays :
  option_map (fun l => (length l, firstn 3 l, nth 99 l 0))
    (startDelays (mkClientConfig "g" 100 100000000 3000000000 0 "") (fun _ => 0.5%float))
  = Some (100%nat, [0; 30000000; 60000000], 2970000000).
Proof. vm_compute. reflexivity. Qed.

End ConfigFacts.

(** ** The groups through the dashboard *)

Module DashboardFacts.

Import Go Simulation Groups Dashboard Ranges.

Local Open Scope Z_scope.

Lemma millis_back (n : Z) : fits_duration n -> Z.quot (millis n) Millisecond = n.
Proof.
  unfold fits_duration, millis, wrap64, Millisecond. intros H.
  rewrite Z.mod_small by lia.
  replace (n * 1000000 + 2 ^ 63 - 2 ^ 63) with (n * 1000000) by lia.
  apply Z.quot_mul. lia.
Qed.

(** X5.  A group added through the dashboard to a stopped simulation that has
    no group of this id reads back, by id and in the list, exactly as it
    was sent, provided its three durations in milliseconds fit a
    [time.Duration]. *)
Theorem dashboard_group_round_trip :
  forall (c : ClientConfigJSON) (s : Simulation),
    running s = false ->
    first_with (jId c) (clientsConfigs s) = None ->
    fits c ->
    exists s',
      AddClientConfig c (Some s) = (None, Some s')
      /\ Dashboard.GetClientConfigById (jId c) (Some s') = (c, None)
      /\ Dashboard.GetClientConfigs (Some s') = Dashboard.GetClientConfigs (Some s) ++ [c].
Proof.
  intros c s Hs Hfresh (Hr & Hu & Hd).
  unfold AddClientConfig, AddClientsConfig. rewrite Hs.
  eexists. split; [reflexivity|].
  assert (Hback :
    ClientConfigToJSON
      (mkClientConfig (jId c) (jCount c) (millis (jRequestRate c)) (millis (jRampUpTime c))
         (millis (jDelay c)) (jBehavior c)) = c).
  { unfold ClientConfigToJSON. cbn [Id Count RequestRate RampUpTime Delay Behavior].
    rewrite !millis_back by assumption. destruct c; reflexivity. }
  split.
  - unfold Dashboard.GetClientConfigById, Groups.GetClientConfigById. cbn [clientsConfigs].
    rewrite ConfigFacts.first_with_app, Hfresh. cbn [Id]. rewrite String.eqb_refl, Hback. reflexivity.
  - unfold Dashboard.GetClientConfigs, Groups.GetClientConfigs. cbn [clientsConfigs].
    rewrite map_app. cbn [map]. rewrite Hback. reflexivity.
Qed.

Lemma dashboard_group_round_trip_witness :
  exists s',
    AddClientConfig (mkClientConfigJSON "0000002a" 100 100 3000 0 "") (Some (mkSimulation false []))
    = (None, Some s')
    /\ Dashboard.GetClientConfigById "0000002a" (Some s')
       = (mkClientConfigJSON "0000002a" 100 100 3000 0 "", None).
Proof.
  destruct (dashboard_group_round_trip
              (mkClientConfigJSON "0000002a" 100 100 3000 0 "") (mkSimulation false []))
    as (s' & Ha & Hg & _).
  - reflexivity.
  - reflexivity.
  - unfold fits, fits_duration. simpl. lia.
  - exists s'. split; assumption.
Defined.

(** One millisecond more than fits wraps around: the group reads back
    with a negative request rate. *)
Example request_rate_wraps :
  let c := mkClientConfigJSON "g" 1 9223372036855 0 0 "" in
  option_map (fun s => fst (Dashboard.GetClientConfigById "g" (Some s)))
    (snd (AddClientConfig c (Some (mkSimulation false []))))
  = Some (mkClientConfigJSON "g" 1 (-9223372036854) 0 0 "").
Proof. vm_compute. reflexivity. Qed.

End DashboardFacts.

(** ** The behaviors as the API carries them *)

Module DtoFacts.

Import Go Curve Server Network Dashboard.

Lemma point_round_trip (p : BehaviorPoint) : BehaviorPointFromJSON (BehaviorPointToJSON p) = p.
Proof. destruct p as [x y []]; reflexivity. Qed.

Lemma points_round_trip (l : list BehaviorPoint) :
  GenericMap (GenericMap l BehaviorPointToJSON) BehaviorPointFromJSON = l.
Proof.
  unfold GenericMap. rewrite map_map.
  induction l as [|p l IH]; simpl; [reflexivity|]. rewrite point_round_trip, IH. reflexivity.
Qed.

(** X6.  A server behavior and a network behavior survive the round trip
    through their DTOs: reading back what [ServerBehaviorToJSON] (or
    [NetworkBehaviorToJSON]) wrote gives the behavior it was written
    from. *)
Theorem behaviors_survive_their_dto :
  (forall sb : ServerBehavior, ServerBehaviorFromJSON (ServerBehaviorToJSON sb) = sb)
  /\ (forall nb : NetworkBehavior, NetworkBehaviorFromJSON (NetworkBehaviorToJSON nb) = nb).
Proof.
  split.
  - intros [to rf rt errs mn mx en [a b c d e f g]].
    unfold ServerBehaviorFromJSON, ServerBehaviorToJSON. simpl.
    rewrite !points_round_trip. reflexivity.
  - intros [to lf lt dr mn mx].
    unfold NetworkBehaviorFromJSON, NetworkBehaviorToJSON. simpl.
    rewrite !points_round_trip. reflexivity.
Qed.

(** X7.  [BehaviorPointFromJSON] reads a point as a break exactly when its type
    is "break"; every other type, known or not, is read as a curve.  So a
    DTO point is written back as it was read exactly when its type is
    "curve" or "break". *)
Theorem unknown_point_type_reads_as_curve :
  forall p : BehaviorPointJSON,
    (Type_ (BehaviorPointFromJSON p) = Break <-> jtype p = "break"%string)
    /\ (Type_ (BehaviorPointFromJSON p) = Curve.Curve <-> jtype p <> "break"%string)
    /\ (BehaviorPointToJSON (BehaviorPointFromJSON p) = p
        <-> jtype p = "curve"%string \/ jtype p = "break"%string).
Proof.
  intros [x y t]. unfold BehaviorPointFromJSON, BehaviorPointToJSON. cbn [jtype jx jy X Y Type_].
  destruct (String.eqb_spec t "curve") as [Hc | Hc];
    [|destruct (String.eqb_spec t "break") as [Hb | Hb]]; subst; cbn [type_String].
  - split; [split; discriminate|]. split; [split; [discriminate | reflexivity]|].
    split; [left; reflexivity | reflexivity].
  - split; [split; reflexivity|]. split; [split; [discriminate | congruence]|].
    split; [right; reflexivity | reflexivity].
  - split; [split; [discriminate | congruence]|]. split; [split; [congruence | reflexivity]|].
    split; [intros H; inversion H; congruence | intros [H | H]; congruence].
Qed.

End DtoFacts.

(** ** The sliding windows *)

Module WindowFacts.

Import Go Metrics Examples Properties Windows MetricsFacts.

Local Open Scope Z_scope.

(** *** Capacity *)

Lemma prune_capacity (now : Z) (w : list timedDuration) (cap : Z) :
  Z.of_nat (length w) <= cap -> Z.of_nat (length (prune now w)) <= cap.
Proof. pose proof (prune_length now w). lia. Qed.

(** [calculateSlidingWindowMetrics] returns whenever the window is within
    capacity, with the pruned window and nothing else changed but the six
    statistics. *)
Lemma calculateSlidingWindowMetrics_returns (now : Z) (m : Metrics) :
  within_capacity m ->
  exists mn mx avg p50 p80 p95,
    calculateSlidingWindowMetrics now m
    = Some (set_window_stats m (prune now (ResponseTimes m)) mn mx avg p50 p80 p95).
Proof.
  intros [Hcap Hlen]. unfold calculateSlidingWindowMetrics.
  pose proof (prune_length now (ResponseTimes m)) as Hpl.
  destruct (prune now (ResponseTimes m)) as [|first rest] eqn:Hw.
  - do 6 exists 0. reflexivity.
  - set (w := first :: rest) in *.
    set (n := Z.of_nat (length w)).
    assert (Hn : 1 <= n <= 100000) by (subst n w; cbn [length] in *; lia).
    destruct (percentile_index_floor n Hn) as (H50 & H80 & H95).
    rewrite H50, H80, H95.
    assert (Hsl : Z.of_nat (length (ZSort.sort (map duration w))) = n).
    { rewrite sort_length, length_map. reflexivity. }
    pose proof (floor_index_bounds n (proj1 Hn)) as (B50 & B5080 & B8095 & B95).
    rewrite !index_nth by lia.
    do 6 eexists. reflexivity.
Qed.

(** X8.  The registry never holds more than 100000 entries in any of its three
    windows: [NewMetrics] starts within capacity, and every operation on a
    registry within capacity leaves it so -- the three recordings, the push
    of a resource state, both recomputations and [GetSnapshot], which all
    return. *)
Theorem windows_stay_within_capacity :
  windows_within_capacity NewMetrics
  /\ forall m : Metrics,
       windows_within_capacity m ->
       (forall now d : Z,
          windows_within_capacity (recordResponseTime now d m)
          /\ windows_within_capacity (recordRequestLatency now d m)
          /\ windows_within_capacity (recordResponseLatency now d m))
       /\ (forall state, windows_within_capacity (SetResourceState state m))
       /\ (forall now : Z,
             windows_within_capacity (calculateNetworkLatencyMetrics now m)
             /\ (exists m', calculateSlidingWindowMetrics now m = Some m'
                            /\ windows_within_capacity m')
             /\ (exists s m', GetSnapshot now m = Some (s, m')
                              /\ windows_within_capacity m')).
Proof.
  split; [repeat split; simpl; lia|].
  intros m (Hc & Ht & Hq & Hs). split; [|split].
  - intros now d. unfold windows_within_capacity. cbn. rewrite Hc.
    repeat split; try assumption; apply push_capped_length; lia.
  - intros state. repeat split; assumption.
  - intros now.
    assert (Hn : windows_within_capacity (calculateNetworkLatencyMetrics now m)).
    { unfold windows_within_capacity. cbn.
      repeat split; try assumption; apply prune_capacity; assumption. }
    destruct (calculateSlidingWindowMetrics_returns now m (conj Hc Ht))
      as (mn & mx & avg & p50 & p80 & p95 & Hcalc).
    assert (Hw : windows_within_capacity
                   (set_window_stats m (prune now (ResponseTimes m)) mn mx avg p50 p80 p95)).
    { unfold windows_within_capacity. cbn.
      repeat split; try assumption. apply prune_capacity; assumption. }
    split; [exact Hn|]. split.
    + eexists. split; [exact Hcalc | exact Hw].
    + unfold GetSnapshot. rewrite Hcalc. do 2 eexists. split; [reflexivity|].
      destruct Hw as (Hc' & Ht' & Hq' & Hs').
      unfold windows_within_capacity. cbn in *.
      repeat split; try assumption; apply prune_capacity; assumption.
Qed.

Lemma windows_stay_within_capacity_witness :
  windows_within_capacity (recordRequestLatency 7 (2 * Millisecond) one_request).
Proof.
  refine (proj1 (proj2 (proj1 (proj2 windows_stay_within_capacity one_request _) 7
                          (2 * Millisecond)))).
  repeat split; simpl; lia.
Defined.

(** *** First in, first out *)

Lemma push_capped_pushed (cap : Z) (w : list timedDuration) (e : timedDuration) :
  0 < cap -> Z.of_nat (length w) <= cap -> push_capped cap w e = pushed cap w e.
Proof.
  intros Hcap Hw. unfold push_capped, pushed. rewrite length_app. cbn [length].
  destruct (Z.ltb_spec cap (Z.of_nat (length w + 1))) as [H1 | H1];
    destruct (Z.ltb_spec (Z.of_nat (length w)) cap) as [H2 | H2]; try lia; [|reflexivity].
  replace (Z.to_nat (Z.of_nat (length w + 1) - cap)) with 1%nat by lia.
  destruct w as [|a w]; [simpl in *; lia | reflexivity].
Qed.

(** X9.  Each of the three recordings appends the new entry with its timestamp
    to its window and, when the window already held [trackDurationsCount]
    entries, drops the oldest one; the other two windows are untouched. *)
Theorem recording_is_first_in_first_out :
  forall (m : Metrics) (now d : Z),
    0 < trackDurationsCount m ->
    Z.of_nat (length (ResponseTimes m)) <= trackDurationsCount m ->
    Z.of_nat (length (RequestLatencies m)) <= trackDurationsCount m ->
    Z.of_nat (length (ResponseLatencies m)) <= trackDurationsCount m ->
    let cap := trackDurationsCount m in
    let e := mkTimed now d in
    (ResponseTimes (recordResponseTime now d m) = pushed cap (ResponseTimes m) e
     /\ RequestLatencies (recordResponseTime now d m) = RequestLatencies m
     /\ ResponseLatencies (recordResponseTime now d m) = ResponseLatencies m)
    /\ (RequestLatencies (recordRequestLatency now d m) = pushed cap (RequestLatencies m) e
        /\ ResponseTimes (recordRequestLatency now d m) = ResponseTimes m
        /\ ResponseLatencies (recordRequestLatency now d m) = ResponseLatencies m)
    /\ (ResponseLatencies (recordResponseLatency now d m) = pushed cap (ResponseLatencies m) e
        /\ ResponseTimes (recordResponseLatency now d m) = ResponseTimes m
        /\ RequestLatencies (recordResponseLatency now d m) = RequestLatencies m).
Proof.
  intros m now d Hcap Ht Hq Hs. cbv zeta. cbn.
  rewrite !push_capped_pushed by assumption. repeat split.
Qed.

Lemma recording_is_first_in_first_out_witness :
  ResponseTimes (recordResponseTime 9 4 one_request)
  = [mkTimed 0 (5 * Millisecond); mkTimed 9 4].
Proof.
  refine (proj1 (proj1 (recording_is_first_in_first_out one_request 9 4 _ _ _ _)));
    simpl; lia.
Defined.

(** *** The latency windows *)

Lemma window_min_in (w : list timedDuration) (first : Z) :
  window_min first w = first \/ In (window_min first w) (map duration w).
Proof.
  unfold window_min. revert first. induction w as [|a w IH]; intros first; simpl; [left; reflexivity|].
  destruct (IH (if duration a <? first then duration a else first)) as [H | H].
  - rewrite H. destruct (duration a <? first); [right; left; reflexivity | left; reflexivity].
  - right. right. exact H.
Qed.

Lemma window_max_in (w : list timedDuration) (first : Z) :
  window_max first w = first \/ In (window_max first w) (map duration w).
Proof.
  unfold window_max. revert first. induction w as [|a w IH]; intros first; simpl; [left; reflexivity|].
  destruct (IH (if first <? duration a then duration a else first)) as [H | H].
  - rewrite H. destruct (first <? duration a); [right; left; reflexivity | left; reflexivity].
  - right. right. exact H.
Qed.

Lemma latency_bounds_spec (before : list timedDuration) (now : Z) :
  window_bounds before (prune now before) now
    (fst (latency_bounds (prune now before))) (snd (latency_bounds (prune now before))).
Proof.
  unfold window_bounds. split.
  { unfold prune, in_window. replace (now - 1 * Second) with (now - Second) by lia. reflexivity. }
  destruct (prune now before) as [|first rest]; cbn [latency_bounds fst snd].
  - split; [intros tr []|]. split; [congruence | auto].
  - split; [|split; [|discriminate]].
    + intros tr Hin. split.
      * apply (proj2 (window_min_spec (first :: rest) (duration first))). exact Hin.
      * apply (proj2 (window_max_spec (first :: rest) (duration first))). exact Hin.
    + intros _. split.
      * destruct (window_min_in (first :: rest) (duration first)) as [H | H];
          [rewrite H; left; reflexivity | exact H].
      * destruct (window_max_in (first :: rest) (duration first)) as [H | H];
          [rewrite H; left; reflexivity | exact H].
Qed.

(** X10.  [calculateNetworkLatencyMetrics] at instant [now] keeps, in each of the
    two latency windows, exactly the entries recorded within the last
    second, in their order; the minimum and the maximum it stores bound
    every duration kept and are durations of the window, and they are zero
    when the window is empty.  It touches nothing else. *)
Theorem latency_windows_after_recomputation :
  forall (m : Metrics) (now : Z),
    let m' := calculateNetworkLatencyMetrics now m in
    window_bounds (RequestLatencies m) (RequestLatencies m') now
      (MinRequestLatency m') (MaxRequestLatency m')
    /\ window_bounds (ResponseLatencies m) (ResponseLatencies m') now
         (MinResponseLatency m') (MaxResponseLatency m')
    /\ counters m' = counters m
    /\ ResponseTimes m' = ResponseTimes m
    /\ [MinResponseTime m'; MaxResponseTime m'; AvgResponseTime m';
        P50ResponseTime m'; P80ResponseTime m'; P95ResponseTime m']
       = [MinResponseTime m; MaxResponseTime m; AvgResponseTime m;
          P50ResponseTime m; P80ResponseTime m; P95ResponseTime m].
Proof.
  intros m now. cbv zeta. unfold calculateNetworkLatencyMetrics. cbn.
  split; [apply latency_bounds_spec|]. split; [apply latency_bounds_spec|].
  repeat split.
Qed.

(** *** The average *)

Lemma window_sum_total (w : list timedDuration) (B : Z) :
  (forall tr, In tr w -> - B <= duration tr <= B) ->
  forall acc : Z,
    Z.abs acc + Z.of_nat (length w) * B < 2 ^ 63 ->
    fold_left (fun sum tr => wrap64 (sum + duration tr)) w acc = acc + total w.
Proof.
  unfold total. induction w as [|a w IH]; intros Hb acc Hacc; simpl; [lia|].
  assert (Ha : - B <= duration a <= B) by (apply Hb; left; reflexivity).
  assert (HB : 0 <= B) by lia.
  assert (Hw : wrap64 (acc + duration a) = acc + duration a).
  { apply DurationFacts.wrap64_in_range. cbn [length] in Hacc. nia. }
  rewrite Hw, IH.
  - lia.
  - intros tr Hin. apply Hb. right. exact Hin.
  - cbn [length] in Hacc. nia.
Qed.

Lemma total_bounds (w : list timedDuration) (lo hi : Z) :
  (forall tr, In tr w -> lo <= duration tr <= hi) ->
  lo * Z.of_nat (length w) <= total w <= hi * Z.of_nat (length w).
Proof.
  unfold total. induction w as [|a w IH]; intros Hb; simpl; [lia|].
  assert (Ha : lo <= duration a <= hi) by (apply Hb; left; reflexivity).
  assert (Hw : forall tr, In tr w -> lo <= duration tr <= hi) by (intros tr Hin; apply Hb; right; exact Hin).
  specialize (IH Hw). lia.
Qed.

Lemma quot_between (s n lo hi : Z) :
  0 < n -> lo * n <= s <= hi * n -> lo <= Z.quot s n <= hi.
Proof.
  intros Hn Hs.
  pose proof (Z.quot_rem' s n) as Hqr.
  set (q := Z.quot s n) in *. set (r := Z.rem s n) in *.
  assert (Hr : (0 <= s -> 0 <= r < n) /\ (s < 0 -> - n < r <= 0)).
  { split; intros H.
    - apply Z.rem_bound_pos; lia.
    - apply Z.rem_bound_pos_neg; lia. }
  destruct Hr as [Hr1 Hr2].
  split.
  - apply Z.lt_succ_r. apply (Z.mul_lt_mono_pos_r n); [exact Hn|].
    destruct (Z.le_gt_cases 0 s) as [Hpos | Hneg]; [specialize (Hr1 Hpos) | specialize (Hr2 Hneg)]; lia.
  - apply Z.lt_succ_r. apply (Z.mul_lt_mono_pos_r n); [exact Hn|].
    destruct (Z.le_gt_cases 0 s) as [Hpos | Hneg]; [specialize (Hr1 Hpos) | specialize (Hr2 Hneg)]; lia.
Qed.

Lemma sliding_window_shape (now : Z) (m m' : Metrics) :
  calculateSlidingWindowMetrics now m = Some m' ->
  let w := prune now (ResponseTimes m) in
  ResponseTimes m' = w
  /\ forall first rest, w = first :: rest ->
       MinResponseTime m' = window_min (duration first) w
       /\ MaxResponseTime m' = window_max (duration first) w
       /\ AvgResponseTime m' = Z.quot (window_sum w) (Z.of_nat (length w)).
Proof.
  unfold calculateSlidingWindowMetrics. cbv zeta.
  destruct (prune now (ResponseTimes m)) as [|f r] eqn:Hw.
  - intros H. injection H as <-. split; [reflexivity | discriminate].
  - destruct (index _ _); [|discriminate].
    destruct (index _ _); [|discriminate].
    destruct (index _ _); [|discriminate].
    intros H. injection H as <-. split; [reflexivity|].
    intros first rest Heq. injection Heq as <- <-. repeat split.
Qed.

(** X11.  Whenever the window of response times is within capacity and every
    duration in it is at most 2^46 ns (some 19 hours) in absolute value,
    the sum that [calculateSlidingWindowMetrics] accumulates does not
    wrap: the average it stores is the truncated quotient of the true sum
    of the pruned window by its length, and lies between the minimum and
    the maximum it stores. *)
Theorem average_between_min_and_max :
  forall (m m' : Metrics) (now : Z),
    within_capacity m ->
    (forall tr, In tr (ResponseTimes m) -> - 2 ^ 46 <= duration tr <= 2 ^ 46) ->
    calculateSlidingWindowMetrics now m = Some m' ->
    ResponseTimes m' <> [] ->
    AvgResponseTime m'
    = Z.quot (total (ResponseTimes m')) (Z.of_nat (length (ResponseTimes m')))
    /\ MinResponseTime m' <= AvgResponseTime m' <= MaxResponseTime m'.
Proof.
  intros m m' now [Hcap Hlen] Hdur Hcalc Hne.
  destruct (sliding_window_shape now m m' Hcalc) as [Hw Hstats].
  pose proof (prune_length now (ResponseTimes m)) as Hpl.
  assert (Hin : forall tr, In tr (prune now (ResponseTimes m)) ->
                           - 2 ^ 46 <= duration tr <= 2 ^ 46).
  { intros tr Htr. apply Hdur. apply (proj1 (prune_in_window now _ tr)). exact Htr. }
  rewrite Hw in *.
  destruct (prune now (ResponseTimes m)) as [|first rest] eqn:Hp; [congruence|].
  destruct (Hstats first rest eq_refl) as (Hmin & Hmax & Havg).
  set (w := first :: rest) in *.
  assert (Hsum : window_sum w = total w).
  { unfold window_sum. rewrite (window_sum_total w (2 ^ 46) Hin 0); [lia|].
    change (2 ^ 46) with 70368744177664. change (2 ^ 63) with 9223372036854775808.
    change (Z.abs 0) with 0. lia. }
  rewrite Havg, Hmin, Hmax, Hsum. split; [reflexivity|].
  apply quot_between.
  - subst w. cbn [length]. lia.
  - apply total_bounds. intros tr Htr. split.
    + apply (proj2 (window_min_spec w (duration first))). exact Htr.
    + apply (proj2 (window_max_spec w (duration first))). exact Htr.
Qed.

Lemma average_between_min_and_max_witness :
  exists m',
    calculateSlidingWindowMetrics (500 * Millisecond) five_times = Some m'
    /\ MinResponseTime m' <= AvgResponseTime m' <= MaxResponseTime m'.
Proof.
  eexists. split; [vm_compute; reflexivity|].
  refine (proj2 (average_between_min_and_max five_times _ (500 * Millisecond) _ _ _ _)).
  - split; [reflexivity | vm_compute; discriminate].
  - intros tr Htr. vm_compute in Htr.
    repeat (destruct Htr as [<- | Htr]; [vm_compute; split; discriminate|]). destruct Htr.
  - vm_compute. reflexivity.
  - vm_compute. discriminate.
Defined.

(** *** Recomputing twice *)

Lemma filter_absorbs {A : Type} (f g : A -> bool) (l : list A) :
  (forall x, g x = true -> f x = true) -> filter g (filter f l) = filter g l.
Proof.
  intros H. induction l as [|a l IH]; [reflexivity|]. cbn [filter].
  destruct (f a) eqn:Hf; cbn [filter].
  - rewrite IH. reflexivity.
  - destruct (g a) eqn:Hg; [rewrite (H a Hg) in Hf; discriminate | exact IH].
Qed.

Lemma prune_prune (t1 t2 : Z) (w : list timedDuration) :
  t1 <= t2 -> prune t2 (prune t1 w) = prune t2 w.
Proof.
  intros H. unfold prune. apply filter_absorbs.
  intros x. unfold in_window. rewrite !Z.leb_le. lia.
Qed.

(** X12.  A recomputation in between changes nothing for a later one: both
    [calculateNetworkLatencyMetrics] and [calculateSlidingWindowMetrics]
    at an instant give the same registry whether or not the same function
    was run at an earlier instant first. *)
Theorem recomputation_absorbs_earlier_one :
  forall (m : Metrics) (t1 t2 : Z),
    t1 <= t2 ->
    calculateNetworkLatencyMetrics t2 (calculateNetworkLatencyMetrics t1 m)
    = calculateNetworkLatencyMetrics t2 m
    /\ forall m1, calculateSlidingWindowMetrics t1 m = Some m1 ->
         calculateSlidingWindowMetrics t2 m1 = calculateSlidingWindowMetrics t2 m.
Proof.
  intros m t1 t2 H. split.
  - unfold calculateNetworkLatencyMetrics.
    with_strategy opaque [prune latency_bounds] cbn.
    rewrite !prune_prune by exact H. reflexivity.
  - intros m1 Hm1.
    assert (Hshape : exists mn mx avg p50 p80 p95,
              m1 = set_window_stats m (prune t1 (ResponseTimes m)) mn mx avg p50 p80 p95).
    { unfold calculateSlidingWindowMetrics in Hm1.
      destruct (prune t1 (ResponseTimes m)) as [|first rest].
      - inversion Hm1. do 6 eexists. reflexivity.
      - destruct (index _ _); [|discriminate].
        destruct (index _ _); [|discriminate].
        destruct (index _ _); [|discriminate].
        inversion Hm1. do 6 eexists. reflexivity. }
    destruct Hshape as (mn & mx & avg & p50 & p80 & p95 & ->).
    unfold calculateSlidingWindowMetrics. cbn [ResponseTimes set_window_stats].
    rewrite prune_prune by exact H.
    destruct (prune t2 (ResponseTimes m)) as [|first rest]; [reflexivity|].
    destruct (index _ _); [|reflexivity].
    destruct (index _ _); [|reflexivity].
    destruct (index _ _); reflexivity.
Qed.

Lemma recomputation_absorbs_earlier_one_witness :
  calculateNetworkLatencyMetrics 900 (calculateNetworkLatencyMetrics 100 one_request)
  = calculateNetworkLatencyMetrics 900 one_request.
Proof. refine (proj1 (recomputation_absorbs_earlier_one one_request 100 900 _)). lia. Defined.

End WindowFacts.

(** ** The server *)

Module ServerFacts.

Import Go Curve Metrics Server Starlark ServerRuntime Examples Properties Invariants FloatFacts.

Local Open Scope Z_scope.

Lemma eqb_refl_number (x : float) : PrimFloat.is_nan x = false -> (x =? x)%float = true.
Proof.
  rewrite eqb_spec, Prim2SF_number. intros H. unfold SFeqb.
  rewrite (SFcompare_refl _ H). reflexivity.
Qed.

Lemma memory_clamp (gc : bool) (target mem maxMem : Z) :
  (if gc && (target <? (if maxMem <? mem then maxMem else mem))
   then target else (if maxMem <? mem then maxMem else mem)) <= maxMem.
Proof.
  destruct (Z.ltb_spec maxMem mem);
    destruct gc; cbn [andb]; try lia;
    match goal with |- context [(?a <? ?b)] => destruct (Z.ltb_spec a b) end; lia.
Qed.

Section Ticks.

Variable Meta : Type.
Variable math_Pow : float -> float -> float.

(** X13.  After every tick of the resource manager the memory in use is at most
    [MaxMemoryMB], whatever the state before, the settings and the instant;
    the tick changes nothing of the server but its resource utilizations,
    its memory and the time of the last collection. *)
Theorem memory_never_exceeds_maximum :
  forall (now : Z) (s : Server Meta) (m : Metrics),
    let s' := fst (updateResources math_Pow now s m) in
    CurrentMemoryMB (resourceState s') <= MaxMemoryMB (resourceSettings s)
    /\ configuration s' = configuration s.
Proof.
  intros now s m. cbv zeta. unfold updateResources.
  cbn [fst set_resourceState resourceState CurrentMemoryMB].
  split; [apply memory_clamp | reflexivity].
Qed.

(** X14.  The clamp of the tick: the CPU utilization it stores, and pushes to
    the metrics, is between 0 and 1 whenever it is a number. *)
Theorem cpu_utilization_is_a_share :
  forall (now : Z) (s : Server Meta) (m : Metrics),
    let r := updateResources math_Pow now s m in
    let cpu := CPUUtilization (resourceState (fst r)) in
    rmCPUUtilization (latestResourceState (snd r)) = cpu
    /\ (PrimFloat.is_nan cpu = false -> (0 <=? cpu)%float = true /\ (cpu <=? 1)%float = true).
Proof.
  intros now s m. cbv zeta. unfold updateResources.
  cbn [fst snd set_resourceState resourceState CPUUtilization SetResourceState
       latestResourceState rmCPUUtilization].
  split; [reflexivity|].
  set (x := (CPUUtilization (resourceState s) + _)%float).
  destruct (1.0 <? x)%float eqn:H1.
  - change (1.0 <? 0.0)%float with false. cbv iota. intros _. split; reflexivity.
  - destruct (x <? 0.0)%float eqn:H0.
    + intros _. split; reflexivity.
    + intros Hn. split.
      * apply leb_of_not_ltb; [exact Hn | reflexivity | exact H0].
      * apply leb_of_not_ltb; [reflexivity | exact Hn | exact H1].
Qed.

End Ticks.

(** A tick on the managed server with seven of ten workers busy. *)
Lemma cpu_utilization_is_a_share_witness :
  let cpu :=
    CPUUtilization (resourceState (fst (updateResources pow_unused 0
                                           (managed_server 0.1 7 30) NewMetrics))) in
  (0 <=? cpu)%float = true /\ (cpu <=? 1)%float = true.
Proof.
  refine (proj2 (cpu_utilization_is_a_share unit pow_unused 0 (managed_server 0.1 7 30)
                   NewMetrics) _).
  vm_compute. reflexivity.
Defined.

Section Requests.

Variable Meta : Type.
Variable math_Pow : float -> float -> float.


(** X16.  What [processRequest] gives back.  It returns no earlier than it was
    called; the server is as before but for the start of the behavior
    clock, which the first request sets and later ones keep.  Without an
    error the response is ok, carries the request's id, the data "OK" and
    the instant of return; with an error it is either the synthetic
    "Server Error" response (not ok, same id) together with the error
    "server error", or the zero response together with the error of the
    cancelled context.  [ResetBehavior] afterwards keeps the behavior and
    clears the clock, so that the next request starts it anew. *)
Theorem processRequest_contract :
  forall (req : Server.Request Meta) (managed : bool) (now : Z) (d : Draws) (s s' : Server Meta)
         (resp : Response) (err : error) (t : Z),
    processRequest math_Pow req managed now d s = Some (resp, err, s', t) ->
    now <= t
    /\ s' = set_behaviorStartTime s
              (Some (match behaviorStartTime s with Some t0 => t0 | None => now end))
    /\ (err = None /\ resp = mkResponse (reqId req) true "OK" "" t
        \/ err = Some "server error"%string
           /\ resp = mkResponse (reqId req) false "" "Server Error" t
        \/ err = Some ctx_Err /\ resp = zeroResponse
           /\ exists c, Server.ctx s = Some c /\ ctx_done c t = true)
    /\ behaviorStartTime (ResetBehavior s') = None
    /\ GetBehavior (ResetBehavior s') = GetBehavior s.
Proof.
  intros req managed now d s s' resp err t. unfold processRequest.
  destruct (if managed then getResourceImpact math_Pow s else (1.0%float, 0.0%float))
    as [mult extra].
  set (s1 := set_behaviorStartTime s _).
  destruct (getResponseTimeMin s1 _) as [mn|]; [|discriminate].
  destruct (getResponseTimeMax s1 _) as [mx|]; [|discriminate].
  set (work := int64_of_float _).
  cbn [Server.ctx s1 set_behaviorStartTime].
  destruct (Server.ctx s) as [c|] eqn:Hctx; [|discriminate].
  assert (Hsleep : forall e t', SleepWithContext c now work = (e, t') ->
            now <= t' /\ (e = None \/ e = Some ctx_Err /\ ctx_done c t' = true)).
  { intros e t'. unfold SleepWithContext.
    destruct c as [c|].
    - destruct (Z.leb_spec c (now + Z.max 0 work)) as [Hc | Hc]; intros H; injection H as <- <-.
      + split; [lia|]. right. split; [reflexivity|]. cbn. apply Z.leb_le. lia.
      + split; [lia | left; reflexivity].
    - intros H. injection H as <- <-. split; [lia | left; reflexivity]. }
  destruct (SleepWithContext c now work) as [e t'] eqn:Hs.
  destruct (Hsleep e t' eq_refl) as [Ht He].
  destruct e as [e|].
  - intros H. injection H as <- <- <- <-. split; [exact Ht|]. split; [reflexivity|].
    split; [|split; reflexivity].
    right. right. destruct He as [He | [He Hd]]; [discriminate|].
    injection He as ->. split; [reflexivity|]. split; [reflexivity|]. exists c. auto.
  - destruct (getErrorRate s1 _) as [rate|]; [|discriminate].
    destruct (_ && _); intros H; injection H as <- <- <- <-;
      (split; [exact Ht|]); (split; [reflexivity|]); (split; [|split; reflexivity]); auto.
Qed.

End Requests.

Lemma processRequest_contract_witness :
  exists resp err s' t,
    processRequest pow_unused request0 false 0 calm (started (NewServer Value)) = Some (resp, err, s', t)
    /\ 0 <= t
    /\ behaviorStartTime s' = Some 0.
Proof.
  destruct (processRequest pow_unused request0 false 0 calm (started (NewServer Value)))
    as [[[[resp err] s'] t]|] eqn:HP.
  - exists resp, err, s', t. split; [reflexivity|].
    destruct (processRequest_contract Value pow_unused request0 false 0 calm (started (NewServer Value))
                s' resp err t HP) as (Ht & Hs & _).
    split; [exact Ht|]. rewrite Hs. reflexivity.
  - exfalso.
    assert (H : option_map (fun r => snd r)
                  (processRequest pow_unused request0 false 0 calm (started (NewServer Value))) <> None)
      by (vm_compute; discriminate).
    rewrite HP in H. apply H. reflexivity.
Defined.

Section QueueTimes.

Variable Meta : Type.

(** X17.  [updateQueueMetrics] keeps the last hundred queue times, the newest
    last: the new time is appended, and once a hundred are held the oldest
    is dropped.  The maximum queue time of the resource state never goes
    down: on numbers it is at least the old maximum and at least the new
    time. *)
Theorem queue_times_keep_the_last_hundred :
  forall (queueTimeMs : float) (s : Server Meta),
    (length (queueTimes s) <= 100)%nat ->
    let s' := updateQueueMetrics queueTimeMs s in
    let old := MaxQueueTimeMs (resourceState s) in
    (length (queueTimes s') <= 100)%nat
    /\ queueTimes s'
       = (if (length (queueTimes s) <? 100)%nat then queueTimes s else tl (queueTimes s))
         ++ [queueTimeMs]
    /\ (PrimFloat.is_nan old = false -> PrimFloat.is_nan queueTimeMs = false ->
        (old <=? MaxQueueTimeMs (resourceState s'))%float = true
        /\ (queueTimeMs <=? MaxQueueTimeMs (resourceState s'))%float = true).
Proof.
  intros q s Hlen. cbv zeta. unfold updateQueueMetrics.
  cbn [queueTimes resourceState MaxQueueTimeMs].
  rewrite length_app. cbn [length].
  assert (Hq : (if (100 <? length (queueTimes s) + 1)%nat
                then skipn 1 (queueTimes s ++ [q]) else queueTimes s ++ [q])
               = (if (length (queueTimes s) <? 100)%nat
                  then queueTimes s else tl (queueTimes s)) ++ [q]).
  { destruct (Nat.ltb_spec 100 (length (queueTimes s) + 1));
      destruct (Nat.ltb_spec (length (queueTimes s)) 100); try lia; [|reflexivity].
    destruct (queueTimes s); [simpl in *; lia | reflexivity]. }
  rewrite Hq. split; [|split; [reflexivity|]].
  - rewrite length_app. cbn [length].
    destruct (Nat.ltb_spec (length (queueTimes s)) 100); [lia|].
    destruct (queueTimes s); simpl in *; lia.
  - intros Ho Hn. destruct (MaxQueueTimeMs (resourceState s) <? q)%float eqn:Hlt.
    + split; [apply leb_of_ltb; exact Hlt | apply eqb_leb, eqb_refl_number; exact Hn].
    + split; [apply eqb_leb, eqb_refl_number; exact Ho | apply leb_of_not_ltb; assumption].
Qed.

End QueueTimes.

Lemma queue_times_keep_the_last_hundred_witness :
  queueTimes (updateQueueMetrics 12 (managed_server 0.1 1 30)) = [12%float].
Proof.
  refine (proj1 (proj2 (queue_times_keep_the_last_hundred unit 12 (managed_server 0.1 1 30) _))).
  simpl. lia.
Defined.

End ServerFacts.

(** ** One trip through the network *)

Module SendFacts.

Import Go Curve Metrics Server Network Starlark Examples Properties Invariants.

Local Open Scope Z_scope.

(** *** Counters that wrap *)

Lemma wrap64_rep (a : Z) : exists k, wrap64 a = a + k * 2 ^ 64.
Proof.
  unfold wrap64. exists (- ((a + 2 ^ 63) / 2 ^ 64)).
  pose proof (Z.div_mod (a + 2 ^ 63) (2 ^ 64) ltac:(lia)). lia.
Qed.

Lemma wrap64_congr (a b : Z) : (exists k, a = b + k * 2 ^ 64) -> wrap64 a = wrap64 b.
Proof.
  intros [k ->]. unfold wrap64.
  replace (b + k * 2 ^ 64 + 2 ^ 63) with (b + 2 ^ 63 + k * 2 ^ 64) by lia.
  rewrite Z.mod_add by lia. reflexivity.
Qed.

Lemma incr_moves (c : Z) : incr c <> c.
Proof.
  unfold incr, wrap64. intros H.
  pose proof (Z.mod_pos_bound (c + 1 + 2 ^ 63) (2 ^ 64) ltac:(lia)) as Hb.
  destruct (Z.eq_dec (c + 2 ^ 63) (2 ^ 64 - 1)) as [He | Hne].
  - replace (c + 1 + 2 ^ 63) with (0 + 1 * 2 ^ 64) in H by lia.
    rewrite Z.mod_add in H by lia. rewrite Z.mod_0_l in H by lia. lia.
  - rewrite Z.mod_small in H by lia. lia.
Qed.

Lemma balance_left (s a b : Z) : s = wrap64 (a + b) -> incr s = wrap64 (incr a + b).
Proof.
  intros ->. unfold incr.
  destruct (wrap64_rep (a + b)) as [k1 H1]. destruct (wrap64_rep (a + 1)) as [k2 H2].
  apply wrap64_congr. exists (k1 - k2). lia.
Qed.

Lemma balance_right (s a b : Z) : s = wrap64 (a + b) -> incr s = wrap64 (a + incr b).
Proof.
  intros ->. unfold incr.
  destruct (wrap64_rep (a + b)) as [k1 H1]. destruct (wrap64_rep (b + 1)) as [k2 H2].
  apply wrap64_congr. exists (k1 - k2). lia.
Qed.

(** *** What [Send] does to the books *)

Section Send.

Variable Meta : Type.
Variable math_Pow : float -> float -> float.

Lemma after_server_books (resp resp' : Response) (err : error) (m m' : Metrics) :
  after_server resp err m = (resp', m') ->
  client_counters m' = client_counters m
  /\ ServerReceivedRequests m' = ServerReceivedRequests m
  /\ (ServerSuccessResponses m' = incr (ServerSuccessResponses m)
      /\ ServerErrorResponses m' = ServerErrorResponses m
      /\ Ok resp' = true /\ resp' = resp /\ err = None
      \/ ServerSuccessResponses m' = ServerSuccessResponses m
         /\ ServerErrorResponses m' = incr (ServerErrorResponses m)
         /\ Ok resp' = false).
Proof.
  unfold after_server. destruct err as [e|]; [|destruct (Ok resp) eqn:Hok];
    intros H; injection H as <- <-; (split; [reflexivity|]); (split; [reflexivity|]).
  - right. repeat split.
  - left. repeat split. exact Hok.
  - right. repeat split.
Qed.

(** The outcomes of [Send], with [w'] the world it leaves and [m], [m']
    the metrics before and after. *)
Lemma Send_outcomes (ctx : Context) (req : Server.Request Meta) (now : Z) (env : SendEnv)
  (w w' : World Meta) (resp : Response) (err : error) (t : Z) :
  Send math_Pow ctx req now env w = Some (resp, err, w', t) ->
  client_counters (metrics w') = client_counters (metrics w)
  /\ (server_counters (metrics w') = server_counters (metrics w)
      /\ server w' = server w /\ resp = zeroResponse /\ err <> None
      \/ served (metrics w) (metrics w')
         /\ (err <> None -> resp = zeroResponse)
         /\ (err = None ->
             (Ok resp = true <->
              ServerSuccessResponses (metrics w') = incr (ServerSuccessResponses (metrics w))))).
Proof.
  unfold Send.
  destruct (oneWayTrip _ _ _ _ _ _ _) as [[[lat1 lost1] t1]|]; [|discriminate].
  destruct lost1 as [e1|].
  { intros H. injection H as <- <- <- <-. split; [reflexivity|]. left.
    repeat split. discriminate. }
  destruct (HandleRequest _ _ _ _ _ _) as [[[[r e] s] t2]|]; [|discriminate].
  destruct (after_server _ _ _) as [r' m'] eqn:Ha.
  apply after_server_books in Ha. destruct Ha as (Hc & Hrcv & Hans).
  destruct (oneWayTrip _ _ _ _ _ _ _) as [[[lat2 lost2] t3]|]; [|discriminate].
  assert (Hserved :
            served (metrics w)
              (recordResponseLatency t3 lat2 m')).
  { unfold served.
    change (ServerReceivedRequests (recordResponseLatency t3 lat2 m'))
      with (ServerReceivedRequests m').
    change (ServerSuccessResponses (recordResponseLatency t3 lat2 m'))
      with (ServerSuccessResponses m').
    change (ServerErrorResponses (recordResponseLatency t3 lat2 m'))
      with (ServerErrorResponses m').
    rewrite Hrcv. split; [reflexivity|].
    destruct Hans as [(Hs & He & _) | (Hs & He & _)]; [left | right]; split; assumption. }
  destruct lost2 as [e2|]; intros H; injection H as <- <- <- <-;
    (split; [exact Hc|]); right; cbn [metrics]; (split; [exact Hserved|]).
  - split; [reflexivity | congruence].
  - split; [congruence|]. intros _.
    change (ServerSuccessResponses (recordResponseLatency t3 lat2 m'))
      with (ServerSuccessResponses m').
    change (ServerSuccessResponses
              (recordRequestLatency t1 lat1 (metrics w)))
      with (ServerSuccessResponses (metrics w)) in *.
    destruct Hans as [(Hs & He & Hok & _) | (Hs & He & Hok)].
    + split; [intros _; exact Hs | intros _; exact Hok].
    + split; [congruence|]. intros Hi. rewrite Hs in Hi.
      exfalso. exact (incr_moves _ (eq_sym Hi)).
Qed.

(** X18.  [Send] never returns an error together with a response: with an error
    the response is the zero [Response].  Either the request did not
    arrive -- then the server and its three counters are as before -- or
    the server received it and answered once: one more received and one
    more success or error, also when the answer is lost on the way back.
    A response that comes back is ok exactly when the server counted a
    success.  The clients' counters are never touched. *)
Theorem send_outcomes :
  forall (ctx : Context) (req : Server.Request Meta) (now : Z) (env : SendEnv)
         (w w' : World Meta) (resp : Response) (err : error) (t : Z),
    Send math_Pow ctx req now env w = Some (resp, err, w', t) ->
    (err <> None -> resp = zeroResponse)
    /\ client_counters (metrics w') = client_counters (metrics w)
    /\ (server_counters (metrics w') = server_counters (metrics w)
        /\ server w' = server w /\ err <> None
        \/ served (metrics w) (metrics w')
           /\ (err = None ->
               (Ok resp = true <->
                ServerSuccessResponses (metrics w')
                = incr (ServerSuccessResponses (metrics w))))).
Proof.
  intros ctx req now env w w' resp err t H.
  destruct (Send_outcomes ctx req now env w w' resp err t H)
    as (Hc & [(Hs & Hsrv & Hz & He) | (Hs & Hz & Hok)]).
  - split; [intros _; exact Hz|]. split; [exact Hc|]. left. auto.
  - split; [exact Hz|]. split; [exact Hc|]. right. auto.
Qed.

(** X19.  The server's books stay balanced through every [Send]: when the
    requests received were the successes plus the errors before (as
    64-bit counters), they are so after. *)
Theorem server_books_balance :
  forall (ctx : Context) (req : Server.Request Meta) (now : Z) (env : SendEnv)
         (w w' : World Meta) (resp : Response) (err : error) (t : Z),
    Send math_Pow ctx req now env w = Some (resp, err, w', t) ->
    server_balanced (metrics w) ->
    server_balanced (metrics w').
Proof.
  intros ctx req now env w w' resp err t H Hb.
  destruct (Send_outcomes ctx req now env w w' resp err t H)
    as (_ & [(Hs & _) | ((Hr & Hans) & _)]); unfold server_balanced in *.
  - unfold server_counters in Hs. injection Hs as -> -> ->. exact Hb.
  - rewrite Hr. destruct Hans as [(-> & ->) | (-> & ->)].
    + apply balance_left. exact Hb.
    + apply balance_right. exact Hb.
Qed.

End Send.

(** The first [Send] of the quiet client in the default world. *)
Lemma quiet_send :
  send_summary (Send pow_unused None request0 0 (Client.sends quiet 0) world0)
  = Some (true, ""%string, None, 80 * Millisecond, 0).
Proof. vm_compute. reflexivity. Qed.

Lemma send_outcomes_witness :
  exists resp w' t,
    Send pow_unused None request0 0 (Client.sends quiet 0) world0 = Some (resp, None, w', t)
    /\ served (metrics world0) (metrics w').
Proof.
  destruct (Send pow_unused None request0 0 (Client.sends quiet 0) world0)
    as [[[[resp err] w'] t]|] eqn:HS;
    pose proof quiet_send as Hq; rewrite HS in Hq; [|discriminate Hq].
  assert (He : err = None) by (cbn in Hq; congruence). subst err.
  exists resp, w', t. split; [reflexivity|].
  destruct (send_outcomes Value pow_unused None request0 0 (Client.sends quiet 0) world0
              w' resp None t HS) as (_ & _ & [(_ & _ & He) | (Hs & _)]).
  - exfalso. apply He. reflexivity.
  - exact Hs.
Defined.

Lemma server_books_balance_witness :
  exists resp w' t,
    Send pow_unused None request0 0 (Client.sends quiet 0) world0 = Some (resp, None, w', t)
    /\ server_balanced (metrics w').
Proof.
  destruct (Send pow_unused None request0 0 (Client.sends quiet 0) world0)
    as [[[[resp err] w'] t]|] eqn:HS;
    pose proof quiet_send as Hq; rewrite HS in Hq; [|discriminate Hq].
  assert (He : err = None) by (cbn in Hq; congruence). subst err.
  exists resp, w', t. split; [reflexivity|].
  refine (server_books_balance Value pow_unused None request0 0 (Client.sends quiet 0) world0
            w' resp None t HS _).
  vm_compute. reflexivity.
Defined.

End SendFacts.

(** ** The client's request loop *)

Module RequestFacts.

Import Go Metrics Server Network Starlark Client Examples Properties Invariants Attempts Flights.
Import SendFacts FlightFacts ClientLoopFacts.

Local Open Scope Z_scope.

(** *** [sendRequest] *)

Lemma oneWayTrip_errors (ctx : Context) (elapsedMs : float)
  (getDropRate getLatencyMin getLatencyMax : float -> option float) (now : Z) (d : Draws)
  (lat : Z) (e : string) (t : Z) :
  oneWayTrip ctx elapsedMs getDropRate getLatencyMin getLatencyMax now d = Some (lat, Some e, t) ->
  e = "packet lost"%string \/ e = ctx_Err.
Proof.
  unfold oneWayTrip.
  destruct (getLatencyMin elapsedMs); [|discriminate].
  destruct (getLatencyMax elapsedMs); [|discriminate].
  unfold SleepWithContext.
  destruct ctx as [c|].
  - destruct (c <=? _).
    + intros H. injection H as Ht He Hl. subst e. right. reflexivity.
    + destruct (getDropRate elapsedMs); [|discriminate].
      destruct (_ && _); intros H; [injection H as Ht He Hl; subst e; left; reflexivity | discriminate].
  - destruct (getDropRate elapsedMs); [|discriminate].
    destruct (_ && _); intros H; [injection H as Ht He Hl; subst e; left; reflexivity | discriminate].
Qed.

Lemma Send_errors {Meta : Type} (math_Pow : float -> float -> float) (ctx : Context)
  (req : Server.Request Meta) (now : Z) (env : SendEnv) (w w' : World Meta)
  (resp : Response) (e : string) (t : Z) :
  Send math_Pow ctx req now env w = Some (resp, Some e, w', t) ->
  e = "packet lost"%string \/ e = ctx_Err.
Proof.
  unfold Send.
  destruct (oneWayTrip _ _ _ _ _ _ _) as [[[lat1 lost1] t1]|] eqn:H1; [|discriminate].
  destruct lost1 as [e1|].
  { intros H. injection H as Ht Hw He Hr; subst e. exact (oneWayTrip_errors _ _ _ _ _ _ _ _ _ _ H1). }
  destruct (HandleRequest _ _ _ _ _ _) as [[[[r e0] s] t2]|]; [|discriminate].
  destruct (after_server _ _ _) as [r' m'].
  match goal with
  | |- context [oneWayTrip ?a ?b ?c ?d ?f ?g ?h] =>
      destruct (oneWayTrip a b c d f g h) as [[[lat2 lost2] t3]|] eqn:H2; [|discriminate]
  end.
  destruct lost2 as [e2|]; [|intros H; discriminate H].
  intros H. injection H as Ht Hw He Hr; subst e. exact (oneWayTrip_errors _ _ _ _ _ _ _ _ _ _ H2).
Qed.

Section SendRequest.

Variable math_Pow : float -> float -> float.
Variable env : Env.


End SendRequest.


(** *** The books of a request *)

Section Books.

Context {B : Type} {HB : ClientBehavior B}.
Variable math_Pow : float -> float -> float.
Variable env : Env.

(** One pass either blocks the request (one more blocked, nothing sent),
    or delays it (nothing counted), or makes one attempt. *)
Lemma pass_books (isRetry : bool) (timeout : Z) (st : @State B) (next : Next) :
  pass math_Pow env isRetry timeout st = Some next ->
  let m := metrics (world st) in
  let m' := metrics (world (state_of next)) in
  (exists st', next = Return st'
               /\ ClientBlockedRequests m' = incr (ClientBlockedRequests m)
               /\ (ClientSentRequests m', ClientRetryRequests m', ClientSuccessResponses m',
                   ClientErrorResponses m', NetworkFailedRequests m')
                  = (ClientSentRequests m, ClientRetryRequests m, ClientSuccessResponses m,
                     ClientErrorResponses m, NetworkFailedRequests m)
               /\ sent st' = sent st)
  \/ (world (state_of next) = world st /\ sent (state_of next) = sent st
      /\ forall r t st', next = Again r t st' -> r = isRetry)
  \/ (one_attempt isRetry m m' /\ sent (state_of next) = S (sent st)
      /\ forall r t st', next = Again r t st' -> r = true).
Proof.
  unfold pass.
  destruct (OnRequest _ _) as [[[[[allow delayMs] timeoutMs] err] b] req].
  destruct allow; cbn [negb].
  - destruct (0 <? delayMs).
    + destruct (SleepWithContext _ _ _) as [[e|] t]; intros H; injection H as <-;
        right; left; cbn [state_of world sent]; (split; [reflexivity|]);
        (split; [reflexivity|]); intros r t' st' H; [discriminate|].
      injection H as <- _ _. reflexivity.
    + destruct (sendRequest _ _ _ _ _ _ _ _) as [[[[[resp e] w] fl] t]|] eqn:Hsend;
        [|discriminate].
      intros H. injection H as <-. right. right. cbv zeta.
      match goal with |- context [handle_outcome env ?to resp e ?s] =>
        destruct (handle_outcome_next env to resp e s) as (_ & Hw & Ha);
        assert (Hsent : sent (state_of (handle_outcome env to resp e s)) = sent s)
      end.
      { unfold handle_outcome.
        destruct e as [e|]; [|destruct (Ok resp)].
        - destruct (OnFail _ _ _) as [[berr b1] req1].
          destruct (OnRetry _ _ _ _) as [[[[a d] e'] b2] req2].
          unfold after_retry. destruct a; [destruct (0 <? d)|]; try reflexivity.
          destruct (SleepWithContext _ _ _) as [[e0|] t0]; reflexivity.
        - destruct (OnResponse _ _ _) as [[berr b1] req1]. reflexivity.
        - destruct (OnError _ _ _) as [[berr b1] req1].
          destruct (OnRetry _ _ _ _) as [[[[a d] e'] b2] req2].
          unfold after_retry. destruct a; [destruct (0 <? d)|]; try reflexivity.
          destruct (SleepWithContext _ _ _) as [[e0|] t0]; reflexivity. }
      rewrite Hw, Hsent. cbn [world sent].
      split; [|split; [reflexivity|]].
      * pose proof (sendRequest_client _ _ _ _ _ _ _ _ _ _ _ _ _ Hsend) as Hc.
        cbn [metrics count] in Hc. unfold client_counters in Hc.
        cbn [ClientBlockedRequests ClientSentRequests ClientRetryRequests
             ClientSuccessResponses ClientErrorResponses NetworkFailedRequests
             sent_request set_client_counters] in Hc.
        injection Hc as Hb Hs Hr Hsu He Hf.
        unfold one_attempt, outcome_count. cbn [metrics count].
        destruct e as [e|]; [|destruct (Ok resp)];
          cbn [ClientBlockedRequests ClientSentRequests ClientRetryRequests
               ClientSuccessResponses ClientErrorResponses NetworkFailedRequests
               network_failed success_response error_response set_client_counters
               recordResponseTime set_ResponseTimes set_window_stats];
          rewrite Hb, Hs, Hr, Hsu, He, Hf; repeat split; auto.
      * intros r t' st' H. exact (proj1 (Ha r t' st' H)).
  - intros H. injection H as <-. left. eexists. split; [reflexivity|].
    cbn [state_of world metrics count]. repeat split.
Qed.

Lemma one_attempt_balanced (isRetry : bool) (m m' : Metrics) :
  one_attempt isRetry m m' -> client_balanced m -> client_balanced m'.
Proof.
  unfold one_attempt, client_balanced. intros (_ & Hs & _ & Hend) Hb. rewrite Hs, Hb.
  unfold incr.
  destruct (wrap64_rep (ClientSuccessResponses m + ClientErrorResponses m
                        + NetworkFailedRequests m)) as [k0 H0].
  destruct Hend as [(-> & -> & ->) | [(-> & -> & ->) | (-> & -> & ->)]]; unfold incr;
    match goal with |- context [wrap64 (?c + 1) ] =>
      match c with
      | wrap64 _ => fail 1
      | _ => destruct (wrap64_rep (c + 1)) as [k1 H1]
      end
    end; apply wrap64_congr; exists (k0 - k1); lia.
Qed.

(** X21.  The clients' books stay balanced through every request: when the
    requests sent were the success responses plus the error responses plus
    the network failures before [requestWithHooks] ran (as 64-bit
    counters), they are so when it returns, however many retries it made
    and whatever the behavior. *)
Theorem client_books_balance :
  forall (fuel : nat) (isRetry : bool) (timeout : Z) (st st' : @State B),
    requestLoop math_Pow env fuel isRetry timeout st = Finished st' ->
    client_balanced (metrics (world st)) ->
    client_balanced (metrics (world st')).
Proof.
  induction fuel as [|fuel IH]; intros isRetry timeout st st' Hrun Hb; [discriminate|].
  cbn [requestLoop] in Hrun.
  destruct (pass math_Pow env isRetry timeout st) as [next|] eqn:Hpass; [|discriminate].
  assert (Hnext : client_balanced (metrics (world (state_of next)))).
  { destruct (pass_books isRetry timeout st next Hpass) as [H | [H | H]].
    - destruct H as (st1 & -> & _ & Heq & _). cbn [state_of] in *.
      injection Heq as Hs _ Hsu He Hf. unfold client_balanced in *. congruence.
    - destruct H as (-> & _). exact Hb.
    - destruct H as (Ha & _). exact (one_attempt_balanced isRetry _ _ Ha Hb). }
  destruct next as [st1 | r t st1]; cbn [state_of] in Hnext.
  - injection Hrun as <-. exact Hnext.
  - exact (IH r t st1 st' Hrun Hnext).
Qed.

End Books.

(** The request of the scripts [timeout_once] and [retry_once]: two
    attempts, both timed out. *)
Lemma two_attempts :
  run_summary
    (requestWithHooks pow_unused quiet 5
       (start_state (script (Some timeout_once) (Some retry_once)) world0))
  <> None.
Proof. vm_compute. discriminate. Qed.

Lemma two_attempts_in_the_loop :
  run_summary
    (requestLoop pow_unused quiet 5 false 0
       (start_state (script (Some timeout_once) (Some retry_once)) world0))
  <> None.
Proof. vm_compute. discriminate. Qed.

Lemma client_books_balance_witness :
  exists st',
    requestLoop pow_unused quiet 5 false 0
      (start_state (script (Some timeout_once) (Some retry_once)) world0) = Finished st'
    /\ client_balanced (metrics (world st')).
Proof.
  destruct (requestLoop pow_unused quiet 5 false 0
              (start_state (script (Some timeout_once) (Some retry_once)) world0))
    as [st'| |] eqn:Hr;
    try (exfalso; pose proof two_attempts_in_the_loop as Hrun; rewrite Hr in Hrun;
         apply Hrun; reflexivity).
  exists st'. split; [reflexivity|].
  refine (client_books_balance pow_unused quiet 5 false 0 _ st' Hr _).
  vm_compute. reflexivity.
Defined.

(** *** The default behavior *)

(** X22.  A client without a script sends every request exactly once: with
    [NoopClientBehavior] a request is never blocked, delayed or retried.
    [requestWithHooks] is over after one pass -- it calls [on_request],
    sends without a timeout and handles the outcome -- and the books show
    one attempt that is not a retry. *)
Theorem scriptless_client_sends_once :
  forall (math_Pow : float -> float -> float) (env : Env) (fuel : nat)
         (st : @State NoopClientBehavior),
    requestWithHooks math_Pow env (S fuel) st <> Running
    /\ forall st', requestWithHooks math_Pow env (S fuel) st = Finished st' ->
         sent st' = S (sent st)
         /\ (exists outcome,
               calls st' = (calls st ++ CallOnRequest :: CallSend 0 :: outcome)%list
               /\ (outcome = [CallOnResponse] \/ outcome = [CallOnError; CallOnRetry]
                   \/ outcome = [CallOnFail; CallOnRetry]))
         /\ request st' = request st
         /\ one_attempt false (metrics (world st)) (metrics (world st')).
Proof.
  intros math_Pow env fuel st. unfold requestWithHooks. cbn [requestLoop].
  destruct (pass math_Pow env false 0 st) as [next|] eqn:Hpass;
    [|split; [discriminate | intros st' H; discriminate H]].
  pose proof (pass_books math_Pow env false 0 st next Hpass) as Hbooks.
  unfold pass in Hpass.
  assert (Hb : forall now b, behavior_at env now b = b :> NoopClientBehavior).
  { intros now b. unfold behavior_at. destruct (ctx_done _ _); reflexivity. }
  cbn [OnRequest NoopBehavior negb] in Hpass. change (0 <? 0) with false in Hpass. cbv iota in Hpass.
  destruct (sendRequest _ _ _ _ _ _ _ _) as [[[[[resp e] w] fl] t]|]; [|discriminate].
  injection Hpass as <-.
  unfold handle_outcome in *. cbn [OnFail OnRetry OnResponse OnError NoopBehavior] in *.
  unfold after_retry in *.
  destruct e as [e|]; [|destruct (Ok resp)]; cbn [state_of] in *;
    (split; [discriminate|]); intros st' H; injection H as <-; cbn [sent calls request world];
    (split; [reflexivity|]);
    (split; [eexists; rewrite <- !app_assoc; split; [reflexivity | tauto]|]);
    (split; [reflexivity|]);
    (destruct Hbooks as [(st1 & Heq & _ & _ & Hs) | [(_ & Hs & _) | (Ha & _)]];
     [injection Heq as <-; cbn [sent] in Hs; exfalso; clear -Hs; lia |
      cbn [sent] in Hs; exfalso; clear -Hs; lia |
      exact Ha]).
Qed.

(** *** What a script can change of a request *)

Lemma with_meta_identity (req : Request) (meta : Value) : same_identity req (with_meta req meta).
Proof. repeat split. Qed.

Lemma updateRequestFromDict_identity (req : Request) (dict : Value) :
  same_identity req (updateRequestFromDict req dict).
Proof.
  unfold updateRequestFromDict. destruct dict; try (repeat split; fail).
  destruct (dict_get d "meta") as [[]|]; repeat split.
Qed.

Lemma same_identity_trans (r1 r2 r3 : Request) :
  same_identity r1 r2 -> same_identity r2 r3 -> same_identity r1 r3.
Proof. unfold same_identity. intuition congruence. Qed.

Lemma same_identity_refl (r : Request) : same_identity r r.
Proof. repeat split. Qed.

Lemma executeFunction_identity {Thread : Type} (b : StarlarkClientBehavior Thread)
  (th : Thread) (exec : scriptExecution) :
  same_identity (exec_req exec) (snd (executeFunction b th exec)).
Proof.
  unfold executeFunction.
  destruct (execType exec).
  - destruct (onRequest b) as [fn|]; [|apply same_identity_refl].
    destruct (returned _); [destruct (parseOnRequestResult _) as [[a d] t]|]; cbn [snd].
    + eapply same_identity_trans; [apply with_meta_identity | apply updateRequestFromDict_identity].
    + apply with_meta_identity.
  - destruct (onResponse b) as [fn|]; [|apply same_identity_refl].
    destruct (returned _); cbn [snd].
    + eapply same_identity_trans; [apply with_meta_identity | apply updateRequestFromDict_identity].
    + apply with_meta_identity.
  - destruct (onError b) as [fn|]; [|apply same_identity_refl].
    destruct (returned _); cbn [snd].
    + eapply same_identity_trans; [apply with_meta_identity | apply updateRequestFromDict_identity].
    + apply with_meta_identity.
  - destruct (onFail b) as [fn|]; [|apply same_identity_refl].
    destruct (returned _); cbn [snd].
    + eapply same_identity_trans; [apply with_meta_identity | apply updateRequestFromDict_identity].
    + apply with_meta_identity.
  - destruct (onRetry b) as [fn|]; [|apply same_identity_refl].
    destruct (returned _); [destruct (parseOnRequestResult _) as [[a d] t]|]; cbn [snd].
    + eapply same_identity_trans; [apply with_meta_identity | apply updateRequestFromDict_identity].
    + apply with_meta_identity.
Qed.

Lemma drain_identity {Thread : Type} (b : StarlarkClientBehavior Thread)
  (queued : list scriptExecution) :
  forall (th : Thread) (req : Request),
    same_identity req (snd (drain b th req queued)).
Proof.
  induction queued as [|exec queued IH]; intros th req; cbn [drain].
  - apply same_identity_refl.
  - match goal with |- context [executeFunction ?x ?y ?z] =>
      pose proof (executeFunction_identity x y z) as H;
      destruct (executeFunction x y z) as [[r th'] req'] end.
    exact (same_identity_trans _ _ _ H (IH th' req')).
Qed.

Lemma call_hook_identity {Thread : Type} (b : StarlarkClientBehavior Thread)
  (exec : scriptExecution) :
  same_identity (exec_req exec) (snd (call_hook b exec)).
Proof.
  unfold call_hook. destruct (stopChan_closed b).
  - unfold call_hook_closed.
    destruct (selects b (selected b)); [apply same_identity_refl | apply same_identity_refl |].
    destruct (Z.of_nat (length (executionChan b)) <? executionChan_cap);
      [|apply same_identity_refl].
    pose proof (drain_identity b (executionChan b) (thread b) (exec_req exec)) as H1.
    destruct (drain b (thread b) (exec_req exec) (executionChan b)) as [th req]. cbv iota beta.
    match goal with |- context [executeFunction ?x ?y ?z] =>
      pose proof (executeFunction_identity x y z) as H2;
      destruct (executeFunction x y z) as [[r th'] req'] end.
    exact (same_identity_trans _ _ _ H1 H2).
  - pose proof (executeFunction_identity b (thread b) exec) as H.
    destruct (executeFunction b (thread b) exec) as [[r th] req]. exact H.
Qed.

Lemma starlark_hooks_keep_identity (Thread : Type) :
  hooks_keep_identity (StarlarkBehavior Thread).
Proof.
  unfold hooks_keep_identity. cbn [OnRequest OnResponse OnError OnFail OnRetry StarlarkBehavior].
  repeat split; intros;
    match goal with |- context [call_hook ?b ?exec] =>
      pose proof (call_hook_identity b exec) as H;
      destruct (call_hook b exec) as [[r b'] req']; apply H
    end.
Qed.

Section Identity.

Context {B : Type} {HB : ClientBehavior B}.
Variable math_Pow : float -> float -> float.
Variable env : Env.
Hypothesis keep : hooks_keep_identity HB.

Lemma after_retry_request (a : bool) (d timeout : Z) (st : @State B) :
  request (state_of (after_retry env a d timeout st)) = request st.
Proof.
  unfold after_retry. destruct a; [destruct (0 <? d)|]; try reflexivity.
  destruct (SleepWithContext _ _ _) as [[e|] t]; reflexivity.
Qed.

Lemma handle_outcome_identity (timeout : Z) (resp : Response) (err : error) (st : @State B) :
  same_identity (request st) (request (state_of (handle_outcome env timeout resp err st))).
Proof.
  destruct keep as (_ & Hresp & Herr & Hfail & Hretry).
  unfold handle_outcome. destruct err as [e|]; [|destruct (Ok resp)].
  - pose proof (Hfail (behavior_at env (clock st) (behavior st)) (request st) e) as H1.
    destruct (OnFail _ _ _) as [[berr b1] req1].
    pose proof (Hretry b1 req1 None (Some e)) as H2.
    destruct (OnRetry _ _ _ _) as [[[[a d] e'] b2] req2].
    rewrite after_retry_request. exact (same_identity_trans _ _ _ H1 H2).
  - pose proof (Hresp (behavior_at env (clock st) (behavior st)) (request st) resp) as H1.
    destruct (OnResponse _ _ _) as [[berr b1] req1]. exact H1.
  - pose proof (Herr (behavior_at env (clock st) (behavior st)) (request st) resp) as H1.
    destruct (OnError _ _ _) as [[berr b1] req1].
    pose proof (Hretry b1 req1 (Some resp) None) as H2.
    destruct (OnRetry _ _ _ _) as [[[[a d] e'] b2] req2].
    rewrite after_retry_request. exact (same_identity_trans _ _ _ H1 H2).
Qed.

Lemma pass_identity (isRetry : bool) (timeout : Z) (st : @State B) (next : Next) :
  pass math_Pow env isRetry timeout st = Some next ->
  same_identity (request st) (request (state_of next)).
Proof.
  unfold pass.
  pose proof (proj1 keep (behavior_at env (clock st) (behavior st)) (request st)) as H1.
  destruct (OnRequest _ _) as [[[[[allow delayMs] timeoutMs] err] b] req]. cbn [snd] in H1.
  destruct allow; cbn [negb].
  - destruct (0 <? delayMs).
    + destruct (SleepWithContext _ _ _) as [[e|] t]; intros H; injection H as <-; exact H1.
    + destruct (sendRequest _ _ _ _ _ _ _ _) as [[[[[resp e] w] fl] t]|]; [|discriminate].
      intros H. injection H as <-.
      eapply same_identity_trans; [exact H1|].
      match goal with |- context [handle_outcome env ?to resp e ?s] =>
        exact (handle_outcome_identity to resp e s) end.
  - intros H. injection H as <-. exact H1.
Qed.

Lemma requestLoop_identity (fuel : nat) :
  forall (isRetry : bool) (timeout : Z) (st st' : @State B),
    requestLoop math_Pow env fuel isRetry timeout st = Finished st' ->
    same_identity (request st) (request st').
Proof.
  induction fuel as [|fuel IH]; intros isRetry timeout st st' Hrun; [discriminate|].
  cbn [requestLoop] in Hrun.
  destruct (pass math_Pow env isRetry timeout st) as [next|] eqn:Hpass; [|discriminate].
  pose proof (pass_identity isRetry timeout st next Hpass) as H1.
  destruct next as [st1 | r t st1]; cbn [state_of] in H1.
  - injection Hrun as <-. exact H1.
  - exact (same_identity_trans _ _ _ H1 (IH r t st1 st' Hrun)).
Qed.

End Identity.

(** X23.  A script can change nothing of a request but its meta: whatever the
    hooks of a Starlark behavior do, and however often the request is
    delayed and retried, [requestWithHooks] ends with the request's id,
    client id, data and timestamp as they were. *)
Theorem scripts_change_only_the_meta :
  forall (Thread : Type) (math_Pow : float -> float -> float) (env : Env) (fuel : nat)
         (st st' : @State (StarlarkClientBehavior Thread)),
    requestWithHooks math_Pow env fuel st = Finished st' ->
    same_identity (request st) (request st').
Proof.
  intros Thread math_Pow env fuel st st' H.
  exact (requestLoop_identity math_Pow env (starlark_hooks_keep_identity Thread)
           fuel false 0 st st' H).
Qed.

Lemma scripts_change_only_the_meta_witness :
  exists st',
    requestWithHooks pow_unused quiet 5
      (start_state (script (Some timeout_once) (Some retry_once)) world0) = Finished st'
    /\ reqId (request st') = "client-0-0-1"%string.
Proof.
  destruct (requestWithHooks pow_unused quiet 5
              (start_state (script (Some timeout_once) (Some retry_once)) world0))
    as [st'| |] eqn:Hr;
    try (exfalso; pose proof two_attempts as Hrun; rewrite Hr in Hrun; apply Hrun; reflexivity).
  exists st'. split; [reflexivity|].
  exact (proj1 (scripts_change_only_the_meta nat pow_unused quiet 5 _ st' Hr)).
Defined.

End RequestFacts.

(** ** The active clients *)

Module ActiveClientFacts.

Import Go ActiveClients SendFacts.

Local Open Scope Z_scope.

Lemma get_add (g : string) (delta : Z) (m : ActiveClientsByGroup) :
  forall g', get g' (add g delta m)
             = if String.eqb g g' then wrap64 (get g m + delta) else get g' m.
Proof.
  induction m as [|[h n] m IH]; intros g'; cbn [add get].
  - destruct (String.eqb g g'); reflexivity.
  - destruct (String.eqb_spec h g) as [-> | Hne]; cbn [get].
    + destruct (String.eqb g g'); reflexivity.
    + rewrite IH. destruct (String.eqb_spec h g') as [-> | Hne'].
      * destruct (String.eqb_spec g g') as [-> | _]; [congruence | reflexivity].
      * reflexivity.
Qed.

Lemma groups_add (g : string) (delta : Z) (m : ActiveClientsByGroup) :
  In g (groups (add g delta m))
  /\ forall g', In g' (groups m) -> In g' (groups (add g delta m)).
Proof.
  unfold groups. induction m as [|[h n] m [IH1 IH2]]; cbn [add map fst].
  - split; [left; reflexivity | intros g' []].
  - destruct (String.eqb_spec h g) as [-> | Hne]; cbn [map fst In].
    + split; [left; reflexivity | tauto].
    + split; [right; exact IH1|]. intros g' [H | H]; [left; exact H | right; exact (IH2 g' H)].
Qed.

(** X24.  The count of a group goes up by one when a client of it starts and
    down by one when it ends, and no other group's count moves; a client
    that started and ended leaves every count as it was (counts being
    int64).  The map never forgets a group: once a client of a group has
    started, the group stays in every later snapshot, with count 0 when
    none is running. *)
Theorem active_clients_are_counted :
  forall (g : string) (m : ActiveClientsByGroup),
    (forall g', get g' (AddActiveClient g m)
                = if String.eqb g g' then wrap64 (get g m + 1) else get g' m)
    /\ (forall g', get g' (RemoveActiveClient g m)
                   = if String.eqb g g' then wrap64 (get g m - 1) else get g' m)
    /\ (- 2 ^ 63 <= get g m < 2 ^ 63 ->
        forall g', get g' (RemoveActiveClient g (AddActiveClient g m)) = get g' m)
    /\ In g (groups (RemoveActiveClient g (AddActiveClient g m)))
    /\ (forall g', In g' (groups m) ->
                   In g' (groups (AddActiveClient g m))
                   /\ In g' (groups (RemoveActiveClient g m))).
Proof.
  intros g m. unfold AddActiveClient, RemoveActiveClient.
  assert (Hboth : forall g',
            get g' (add g (-1) (add g 1 m))
            = if String.eqb g g' then wrap64 (get g m) else get g' m).
  { intros g'. rewrite !get_add. rewrite String.eqb_refl.
    destruct (String.eqb g g'); [|reflexivity].
    destruct (wrap64_rep (get g m + 1)) as [k Hk].
    apply wrap64_congr. exists k. lia. }
  split; [intros g'; apply get_add|].
  split; [intros g'; rewrite get_add; replace (get g m + -1) with (get g m - 1) by lia; reflexivity|].
  split.
  { intros Hr g'. rewrite Hboth. destruct (String.eqb_spec g g') as [<- | _]; [|reflexivity].
    apply DurationFacts.wrap64_in_range. exact Hr. }
  split; [exact (proj1 (groups_add g (-1) (add g 1 m)))|].
  intros g' H. split; [exact (proj2 (groups_add g 1 m) g' H) | exact (proj2 (groups_add g (-1) m) g' H)].
Qed.

End ActiveClientFacts.

(** ** What a script may ask for *)

Module ScriptFacts.

Import Go Metrics Server Network Starlark Client Examples Properties Invariants Flights.
Import FlightFacts ClientLoopFacts.

Local Open Scope Z_scope.

Lemma AsInt32_range (v : Value) (i : Z) : AsInt32 v = Some i -> - 2 ^ 31 <= i <= 2 ^ 31 - 1.
Proof.
  destruct v; try discriminate. cbn [AsInt32].
  destruct (Z.leb_spec (- 2 ^ 31) z) as [H1 | H1];
    destruct (Z.leb_spec z (2 ^ 31 - 1)) as [H2 | H2]; cbn [andb];
    intros H; try discriminate. injection H as <-. lia.
Qed.

Lemma entry_range (d : list (Value * Value)) (key : string) :
  - 2 ^ 31
  <= match dict_get d key with
     | Some v => match AsInt32 v with Some i => i | None => 0 end
     | None => 0
     end
  <= 2 ^ 31 - 1.
Proof.
  destruct (dict_get d key) as [v|]; [|lia].
  destruct (AsInt32 v) as [i|] eqn:Hi; [exact (AsInt32_range v i Hi) | lia].
Qed.

(** X25.  Whatever a hook returns, the delay and the timeout read from it are
    int32 values -- an entry that is not an int, or does not fit 32 bits,
    reads as 0 -- so their conversion to a [time.Duration],
    [time.Duration(ms) * time.Millisecond], never wraps: at most some 24.8
    days either way. *)
Theorem script_durations_never_wrap :
  forall result : Value,
    let delayMs := snd (fst (parseOnRequestResult result)) in
    let timeoutMs := snd (parseOnRequestResult result) in
    - 2 ^ 31 <= delayMs <= 2 ^ 31 - 1
    /\ - 2 ^ 31 <= timeoutMs <= 2 ^ 31 - 1
    /\ ms delayMs = delayMs * Millisecond
    /\ ms timeoutMs = timeoutMs * Millisecond.
Proof.
  intros result. cbv zeta.
  assert (H : - 2 ^ 31 <= snd (fst (parseOnRequestResult result)) <= 2 ^ 31 - 1
              /\ - 2 ^ 31 <= snd (parseOnRequestResult result) <= 2 ^ 31 - 1).
  { unfold parseOnRequestResult. destruct result; cbn [fst snd]; try lia.
    split; apply entry_range. }
  destruct H as [Hd Ht]. split; [exact Hd|]. split; [exact Ht|].
  unfold ms. split; apply DurationFacts.wrap64_in_range; unfold Millisecond; lia.
Qed.

(** A delay beyond int32 is not an error: it reads as no delay. *)
Example oversized_delay_is_ignored :
  parseOnRequestResult (VDict [(VString "delay", VInt 2147483648)]) = (true, 0, 0)
  /\ parseOnRequestResult (VDict [(VString "delay", VInt 2147483647)]) = (true, 2147483647, 0)
  /\ parseOnRequestResult (VDict [(VString "delay", VFloat 1.5)]) = (true, 0, 0).
Proof. repeat split. Qed.

Section Stopped.

Context {B : Type} {HB : ClientBehavior B}.
Variable math_Pow : float -> float -> float.
Variable env : Env.





End Stopped.



(** What the runtime's choice does to the request of a closed script whose
    [on_request] allows it and whose [on_retry] refuses: with the stop
    channel taken the request is blocked, the hook not run; with the
    result read the hook has run, the request is sent and fails with the
    error of the context. *)
Example hooks_after_close :
  run_summary
    (requestLoop pow_unused (mkEnv (Some 0) (Some 0) (sends quiet)) 5 false 0
       (start_state (racing StopFirst (Some timeout_once) None) world0))
  = Some ([CallOnRequest], [1; 0; 0; 0; 0; 0], 0, [])
  /\ run_summary
       (requestLoop pow_unused (mkEnv (Some 0) (Some 0) (sends quiet)) 5 false 0
          (start_state (racing StopSecond (Some timeout_once) None) world0))
     = Some ([CallOnRequest], [1; 0; 0; 0; 0; 0], 0, [])
  /\ run_summary
       (requestLoop pow_unused (mkEnv (Some 0) (Some 0) (sends quiet)) 5 false 0
          (start_state (racing ResultRead (Some timeout_once) None) world0))
     = Some ([CallOnRequest; CallSend (50 * Millisecond); CallOnFail; CallOnRetry],
             [0; 1; 0; 0; 0; 1], 0, []).
Proof. repeat split; vm_compute; reflexivity. Qed.

End ScriptFacts.

(** ** The curves over time *)

Module CurveTimeFacts.

Import Go Curve Metrics Server Network Starlark Examples Properties FloatFacts.

Local Open Scope nat_scope.

(** *** No index out of range *)

Lemma find_segment_range (nx : float) (rest : list BehaviorPoint) :
  forall i : nat,
    existsb (fun p => (nx <? X p)%float) rest = true ->
    i <= find_segment nx rest i < i + length rest.
Proof.
  induction rest as [|p rest IH]; intros i H; cbn [existsb find_segment length] in *;
    [discriminate|].
  destruct (nx <? X p)%float; [lia|].
  cbn [orb] in H. specialize (IH (S i) H). lia.
Qed.

Lemma eval_segment_returns (minY maxY : float) (points : list BehaviorPoint) (i : nat)
  (nx : float) :
  1 <= i < length points -> exists y, eval_segment minY maxY points i nx = Some y.
Proof.
  intros Hi. unfold eval_segment.
  destruct (nth_error points (i - 1)) as [prev|] eqn:Hp;
    [|apply nth_error_None in Hp; lia].
  destruct (nth_error points i) as [curr|] eqn:Hc;
    [|apply nth_error_None in Hc; lia].
  destruct (X curr - X prev =? 0)%float; [eexists; reflexivity|].
  destruct (is_break (Type_ prev) || is_break (Type_ curr)); [eexists; reflexivity|].
  destruct (Nat.leb_spec 2 i) as [H2 | H2].
  - destruct (nth_error points (i - 2)) as [pp|] eqn:Hpp;
      [|apply nth_error_None in Hpp; lia].
    destruct (Nat.ltb_spec (i + 1) (length points)) as [H1 | H1].
    + destruct (nth_error points (i + 1)) as [pn|] eqn:Hpn;
        [|apply nth_error_None in Hpn; lia].
      eexists; reflexivity.
    + eexists; reflexivity.
  - destruct (Nat.ltb_spec (i + 1) (length points)) as [H1 | H1].
    + destruct (nth_error points (i + 1)) as [pn|] eqn:Hpn;
        [|apply nth_error_None in Hpn; lia].
      eexists; reflexivity.
    + eexists; reflexivity.
Qed.

Lemma ltb_of_not_leb (x y : float) :
  PrimFloat.is_nan x = false -> PrimFloat.is_nan y = false ->
  (y <=? x)%float = false -> (x <? y)%float = true.
Proof.
  intros Hx Hy H. destruct (x <? y)%float eqn:E; [reflexivity|].
  rewrite (leb_of_not_ltb x y Hx Hy E) in H. discriminate.
Qed.

(** X27.  [CurveFunction] never indexes its points out of range: it returns a
    value for every list of points and every x, as long as the normalized
    x and the X of the last point are numbers.  (On a NaN the search for
    the segment runs off the end of the points.) *)
Theorem curve_evaluation_never_panics :
  forall (minX maxX minY maxY : float) (points : list BehaviorPoint) (x : float),
    PrimFloat.is_nan (normX minX maxX x) = false ->
    (forall last, nth_error points (length points - 1) = Some last ->
                  PrimFloat.is_nan (X last) = false) ->
    exists y, CurveFunction minX maxX minY maxY points x = Some y.
Proof.
  intros minX maxX minY maxY points x Hnx Hlast. unfold CurveFunction.
  destruct (Nat.ltb_spec (length points) 2) as [Hlen | Hlen]; [eexists; reflexivity|].
  destruct (nth_error points 0) as [first|] eqn:Hf;
    [|apply nth_error_None in Hf; lia].
  destruct (nth_error points (length points - 1)) as [last|] eqn:Hl;
    [|apply nth_error_None in Hl; lia].
  destruct (normX minX maxX x <=? X first)%float; [eexists; reflexivity|].
  destruct (X last <=? normX minX maxX x)%float eqn:Hge; [eexists; reflexivity|].
  apply eval_segment_returns.
  assert (Hex : existsb (fun p => (normX minX maxX x <? X p)%float) (skipn 1 points) = true).
  { apply existsb_exists. exists last. split.
    - apply (nth_error_In (skipn 1 points) (length points - 2)).
      rewrite nth_error_skipn. replace (1 + (length points - 2)) with (length points - 1) by lia.
      exact Hl.
    - apply ltb_of_not_leb; [exact Hnx | exact (Hlast last eq_refl) | exact Hge]. }
  pose proof (find_segment_range (normX minX maxX x) (skipn 1 points) 1 Hex) as Hr.
  rewrite length_skipn in Hr. lia.
Qed.

Lemma curve_evaluation_never_panics_witness :
  exists y, CurveFunction 0 60000 10 50 diagonal 30000 = Some y.
Proof.
  apply curve_evaluation_never_panics.
  - vm_compute. reflexivity.
  - intros last H. vm_compute in H. injection H as <-. reflexivity.
Defined.

(** At a NaN the comparisons all fail and the segment index is the number
    of points: the curve panics. *)
Example curve_at_nan :
  CurveFunction 0 60000 10 50 diagonal PrimFloat.nan = None.
Proof. vm_compute. reflexivity. Qed.

(** *** A behavior without duration *)

Lemma curve_without_duration (minY maxY : float) (points : list BehaviorPoint) (x : float) :
  CurveFunction 0 (float_of_int 0 * 1000) minY maxY points x
  = CurveFunction 0 (float_of_int 0 * 1000) minY maxY points 0.
Proof.
  unfold CurveFunction, normX.
  replace (float_of_int 0 * 1000 =? 0)%float with true by (vm_compute; reflexivity).
  reflexivity.
Qed.

(** X28.  A behavior whose duration [To] is 0 does not change over time: the
    server's error rate and response time bounds and the network's drop
    rate and latency bounds are, at every instant, what they are at the
    start. *)
Theorem behavior_without_duration_is_constant :
  (forall (Meta : Type) (b : ServerBehavior) (s : Server Meta) (x : float),
     To b = 0%Z ->
     getErrorRate (Server.SetBehavior b s) x = getErrorRate (Server.SetBehavior b s) 0
     /\ getResponseTimeMin (Server.SetBehavior b s) x
        = getResponseTimeMin (Server.SetBehavior b s) 0
     /\ getResponseTimeMax (Server.SetBehavior b s) x
        = getResponseTimeMax (Server.SetBehavior b s) 0)
  /\ (forall (b : NetworkBehavior) (x : float),
        nTo b = 0%Z ->
        getDropRate (Network.SetBehavior b) x = getDropRate (Network.SetBehavior b) 0
        /\ getLatencyMin (Network.SetBehavior b) x = getLatencyMin (Network.SetBehavior b) 0
        /\ getLatencyMax (Network.SetBehavior b) x = getLatencyMax (Network.SetBehavior b) 0).
Proof.
  split.
  - intros Meta b s x H. unfold Server.SetBehavior.
    cbn [getErrorRate getResponseTimeMin getResponseTimeMax]. rewrite H.
    repeat split; apply curve_without_duration.
  - intros b x H. unfold Network.SetBehavior.
    cbn [getDropRate getLatencyMin getLatencyMax]. rewrite H.
    repeat split; apply curve_without_duration.
Qed.

(** *** The world as [NewSimulation] builds it *)

Lemma default_server_curves (Meta : Type) (x : float) :
  getErrorRate (NewServer Meta) x = Some 0%float
  /\ getResponseTimeMin (NewServer Meta) x = Some 10%float
  /\ getResponseTimeMax (NewServer Meta) x = Some 50%float.
Proof.
  unfold NewServer, Server.SetBehavior.
  cbn [getErrorRate getResponseTimeMin getResponseTimeMax To defaultBehavior].
  rewrite !(curve_without_duration _ _ _ x). repeat split; vm_compute; reflexivity.
Qed.

Lemma default_network_curves (x : float) :
  getDropRate NewNetwork x = Some 0%float
  /\ getLatencyMin NewNetwork x = Some 10%float
  /\ getLatencyMax NewNetwork x = Some 40%float.
Proof.
  unfold NewNetwork, Network.SetBehavior.
  cbn [getDropRate getLatencyMin getLatencyMax nTo].
  rewrite !(curve_without_duration _ _ _ x). repeat split; vm_compute; reflexivity.
Qed.

Section DefaultWorld.

Variable Meta : Type.
Variable math_Pow : float -> float -> float.

Lemma default_processRequest (req : Server.Request Meta) (now : Z) (d : Draws)
  (s : Server Meta) :
  getErrorRate s = getErrorRate (NewServer Meta) ->
  getResponseTimeMin s = getResponseTimeMin (NewServer Meta) ->
  getResponseTimeMax s = getResponseTimeMax (NewServer Meta) ->
  Server.ctx s = Some None ->
  exists s' t,
    processRequest math_Pow req false now d s
    = Some (mkResponse (reqId req) true "OK" "" t, None, s', t).
Proof.
  intros He Hn Hx Hctx. unfold processRequest.
  cbn [set_behaviorStartTime getErrorRate getResponseTimeMin getResponseTimeMax Server.ctx].
  rewrite He, Hn, Hx, Hctx.
  rewrite (proj1 (proj2 (default_server_curves Meta _))).
  rewrite (proj2 (proj2 (default_server_curves Meta _))).
  rewrite (proj1 (default_server_curves Meta _)).
  cbn [SleepWithContext].
  change (0 + 0.0)%float with 0%float.
  change (1.0 <? 0)%float with false. cbv iota.
  change (0 <? 0)%float with false. cbn [andb].
  eexists _, _. reflexivity.
Qed.

(** X29.  In the world [NewSimulation] builds, before any behavior is set, the
    server's error rate and the network's drop rate are 0 at every
    instant, the response time bounds are 10 and 50 ms and the latency
    bounds 10 and 40 ms.  [Start] of that server succeeds; and once it is
    started under a context that is not cancelled, a [Send] under a context
    that is not cancelled never fails: whatever the instant and the draws,
    it returns the server's response, ok and with the request's id, and no
    error.  Before [Start] the server has no context, and a [Send] that
    reaches it panics. *)
Theorem default_world_never_fails :
  forall (chanLimit started : Z) (req : Server.Request Meta) (now : Z) (env : SendEnv)
         (m : Metrics) (x : float),
    (getErrorRate (NewServer Meta) x, getResponseTimeMin (NewServer Meta) x,
     getResponseTimeMax (NewServer Meta) x)
    = (Some 0, Some 10, Some 50)%float
    /\ (getDropRate NewNetwork x, getLatencyMin NewNetwork x, getLatencyMax NewNetwork x)
       = (Some 0, Some 10, Some 40)%float
    /\ (exists s,
          Start chanLimit None started (NewServer Meta) = Some (None, s)
          /\ exists w' served t,
               Send math_Pow None req now env (mkWorld NewNetwork s m)
               = Some (mkResponse (reqId req) true "OK" "" served, None, w', t))
    /\ Send math_Pow None req now env (mkWorld NewNetwork (NewServer Meta) m) = None.
Proof.
  intros chanLimit started req now env m x.
  destruct (default_server_curves Meta x) as (He & Hn & Hx).
  destruct (default_network_curves x) as (Hd & Hln & Hlx).
  split; [rewrite He, Hn, Hx; reflexivity|].
  split; [rewrite Hd, Hln, Hlx; reflexivity|].
  split.
  - unfold Start.
    change (Server.running (NewServer Meta)) with false.
    change (EnableResourceManagement (Server.behavior (NewServer Meta))) with false.
    cbv iota. eexists. split; [reflexivity|].
    unfold Send. cbn [network server metrics getDropRate getLatencyMin getLatencyMax].
    unfold oneWayTrip.
    rewrite !(proj1 (proj2 (default_network_curves _))).
    rewrite !(proj2 (proj2 (default_network_curves _))).
    rewrite !(proj1 (default_network_curves _)).
    cbn [SleepWithContext].
    change (0 <? 0)%float with false. cbn [andb].
    unfold HandleRequest. cbn [Server.behavior].
    change (EnableResourceManagement (Server.behavior (NewServer Meta))) with false. cbv iota.
    match goal with
    | |- context [processRequest math_Pow req false ?t ?d ?s] =>
        destruct (default_processRequest req t d s eq_refl eq_refl eq_refl eq_refl)
          as (s' & t' & ->)
    end.
    cbn [after_server Ok].
    eexists _, _, _. reflexivity.
  - unfold Send. cbn [network server metrics getDropRate getLatencyMin getLatencyMax].
    unfold oneWayTrip.
    rewrite !(proj1 (proj2 (default_network_curves _))).
    rewrite !(proj2 (proj2 (default_network_curves _))).
    rewrite !(proj1 (default_network_curves _)).
    cbn [SleepWithContext].
    change (0 <? 0)%float with false. cbn [andb].
    unfold HandleRequest.
    change (EnableResourceManagement (Server.behavior (NewServer Meta))) with false. cbv iota.
    unfold processRequest.
    cbn [set_behaviorStartTime getErrorRate getResponseTimeMin getResponseTimeMax Server.ctx].
    rewrite (proj1 (proj2 (default_server_curves Meta _))).
    rewrite (proj2 (proj2 (default_server_curves Meta _))).
    reflexivity.
Qed.

End DefaultWorld.

End CurveTimeFacts.
